(** * OnSSTOVE: a shallow embedding of [onsstove/technology.py] and
      [onsstove/onsstove.py]

    The two Python modules are embedded as two Rocq modules of the same
    names.  Conventions of the embedding:

    - a Python object that the code reads by attribute or by key is a
      finite map from names to dynamically typed values ([value]);
    - a Python call has one of three outcomes: it returns ([Ok]), it
      raises ([Raise]), or it is still running when the fuel given to a
      [while] loop is used up ([OutOfFuel]);
    - an [int] is a [Z]; a [float] that comes from a configuration file
      or a table is an exact rational ([Q]); the results of [exp] and
      [**] with a fractional exponent are exact reals ([R]).  Rounding
      is outside the embedding.  What lies beyond the floats is modelled
      where a method's result depends on it: the [OverflowError] of [**]
      in [Technology.relative_risk], and the [inf] and [nan] that numpy
      answers a division by zero with in [calibrate_urban].  Elsewhere
      an array division by zero is left to Rocq's total division;
    - a numpy array and a pandas column are lists, with numpy's
      broadcasting of equal lengths and of length one written out. *)

From Stdlib Require Import ZArith QArith Qabs Qround Reals Lra Lia List String Ascii.
From stdpp Require Import base option list gmap strings.

Open Scope string_scope.
Open Scope list_scope.

(** ** Values, exceptions and outcomes *)

Inductive value : Type :=
| VNone
| VInt (z : Z)
| VFloat (q : Q)
| VStr (s : string).

Inductive exn : Type :=
| AttributeError (attr : string)
| NameError (name : string)
| KeyError (key : value)
| TypeError
| ValueError
| IndexError
| IndexingError
| ZeroDivisionError
| OverflowError
| Exception_ (msg : string).

Inductive outcome (A : Type) : Type :=
| Ok (a : A)
| Raise (e : exn)
| OutOfFuel.

Arguments Ok {A} a.
Arguments Raise {A} e.
Arguments OutOfFuel {A}.

#[export] Instance outcome_ret : MRet outcome := fun A a => Ok a.

#[export] Instance outcome_bind : MBind outcome := fun A B f m =>
  match m with
  | Ok a => f a
  | Raise e => Raise e
  | OutOfFuel => OutOfFuel
  end.

(** A call raises: it neither returns nor runs on. *)
Definition raises {A} (m : outcome A) : Prop := exists e, m = Raise e.

(** The call returns or raises: it does not run out of fuel. *)
Definition finishes {A} (m : outcome A) : Prop := m <> OutOfFuel.

(** What a loop body tells the loop: go on, or [break]. *)
Inductive ctl (St : Type) : Type :=
| Continue (s : St)
| Break (s : St).

Arguments Continue {St} s.
Arguments Break {St} s.

(** [while cond: body], with the number of guard evaluations bounded by
    [fuel]. *)
Fixpoint while_loop {St : Type} (fuel : nat) (cond : St -> bool)
    (body : St -> outcome (ctl St)) (s : St) : outcome St :=
  match fuel with
  | O => OutOfFuel
  | S fuel' =>
      if cond s then
        match body s with
        | Ok (Continue s') => while_loop fuel' cond body s'
        | Ok (Break s') => Ok s'
        | Raise e => Raise e
        | OutOfFuel => OutOfFuel
        end
      else Ok s
  end.

(** ** Dynamically typed arithmetic *)

Definition as_R (v : value) : outcome R :=
  match v with
  | VInt z => Ok (IZR z)
  | VFloat q => Ok (Q2R q)
  | _ => Raise TypeError
  end.

Definition as_Q (v : value) : outcome Q :=
  match v with
  | VInt z => Ok (inject_Z z)
  | VFloat q => Ok q
  | _ => Raise TypeError
  end.

(** [a == b] *)
Definition py_eqb (a b : value) : bool :=
  match a, b with
  | VNone, VNone => true
  | VInt x, VInt y => Z.eqb x y
  | VInt x, VFloat y => Qeq_bool (inject_Z x) y
  | VFloat x, VInt y => Qeq_bool x (inject_Z y)
  | VFloat x, VFloat y => Qeq_bool x y
  | VStr x, VStr y => String.eqb x y
  | _, _ => false
  end.

(** [a - b] *)
Definition py_sub (a b : value) : outcome value :=
  match a, b with
  | VInt x, VInt y => Ok (VInt (x - y))
  | VInt x, VFloat y => Ok (VFloat (inject_Z x - y))
  | VFloat x, VInt y => Ok (VFloat (x - inject_Z y))
  | VFloat x, VFloat y => Ok (VFloat (x - y))
  | _, _ => Raise TypeError
  end.

Definition Qltb (x y : Q) : bool := negb (Qle_bool y x).

(** [a > b] *)
Definition py_gt (a b : value) : outcome bool :=
  x ← as_Q a; y ← as_Q b; Ok (Qltb y x).

(** [x / y] on Python numbers *)
Definition py_div (x y : R) : outcome R :=
  if Req_dec_T y 0 then Raise ZeroDivisionError else Ok (x / y)%R.

(** [x ** n] for an [int] exponent *)
Definition py_pow_int (x : R) (n : Z) : outcome R :=
  if (n <? 0)%Z then
    if Req_dec_T x 0 then Raise ZeroDivisionError else Ok (powerRZ x n)
  else Ok (powerRZ x n).

(** [x ** y] for a [float] exponent; the code applies it to a base that
    is not negative only. *)
Definition float_pow (x y : R) : R :=
  if Req_dec_T x 0 then (if Req_dec_T y 0 then 1%R else 0%R) else Rpower x y.

(** The largest float, [sys.float_info.max]. *)
Definition float_max : R := (2 ^ 1024 - 2 ^ 971)%R.

(** [x ** y] for a [float] exponent, where the size of the power
    matters: beyond the floats Python raises [OverflowError].  (An [int]
    base that is itself beyond the floats raises the same error one step
    earlier, when it meets a float.) *)
Definition py_pow (x y : R) : outcome R :=
  if Rle_dec (float_pow x y) float_max then Ok (float_pow x y)
  else Raise OverflowError.

(** A required parameter of a call: [None] when the call site passes too
    few arguments, which Python answers with [TypeError] before the body
    runs.  For a parameter with a default, [None] selects the default. *)
Definition required {A} (a : option A) : outcome A :=
  match a with
  | Some x => Ok x
  | None => Raise TypeError
  end.

(** ** numpy arrays *)

Definition np_arange (n : value) : outcome (list nat) :=
  match n with
  | VInt z => Ok (seq 0 (Z.to_nat z))
  | VFloat q => Ok (seq 0 (Z.to_nat (Qceiling q)))
  | _ => Raise TypeError
  end.

Definition np_full (x : R) (n : value) : outcome (list R) :=
  match n with
  | VInt z => if (z <? 0)%Z then Raise ValueError else Ok (repeat x (Z.to_nat z))
  | _ => Raise TypeError
  end.

Definition np_zeros : value -> outcome (list R) := np_full 0%R.
Definition np_ones : value -> outcome (list R) := np_full 1%R.

(** [a[k] = x]; a negative index counts from the end. *)
Definition np_setitem (a : list R) (k : value) (x : R) : outcome (list R) :=
  match k with
  | VInt z =>
      let n := Z.of_nat (length a) in
      if ((z <? - n) || (n <=? z))%Z then Raise IndexError
      else Ok (<[Z.to_nat (z mod n) := x]> a)
  | _ => Raise IndexError
  end.

(** An element-wise operation on two arrays. *)
Definition np_op (f : R -> R -> R) (a b : list R) : outcome (list R) :=
  if (length a =? length b)%nat then Ok (zip_with f a b)
  else match a, b with
       | [x], _ => Ok (map (f x) b)
       | _, [y] => Ok (map (fun x => f x y) a)
       | _, _ => Raise ValueError
       end.

Definition np_sum (a : list R) : R := fold_right Rplus 0%R a.

(** ** technology.py *)

Module technology.

(** *** class Technology

    An instance is its attribute dictionary.  [__init__] creates the
    eleven attributes below; any other attribute ([start_year],
    [end_year], [om_costs]) exists only if a caller has assigned it. *)

Definition Technology_init
    (name carbon_intensity energy_content tech_life inv_cost infra_cost
     fuel_cost time_of_cooking om_cost efficiency pm25 : value)
    : gmap string value :=
  <["pm25" := pm25]>
  (<["efficiency" := efficiency]>
  (<["time_of_cooking" := time_of_cooking]>
  (<["om_cost" := om_cost]>
  (<["infra_cost" := infra_cost]>
  (<["inv_cost" := inv_cost]>
  (<["fuel_cost" := fuel_cost]>
  (<["tech_life" := tech_life]>
  (<["energy_content" := energy_content]>
  (<["carbon_intensity" := carbon_intensity]>
  (<["name" := name]> ∅)))))))))).

(** [Technology()] *)
Definition Technology_default : gmap string value :=
  Technology_init VNone (VInt 0) (VInt 0) (VInt 0) (VInt 0) (VInt 0)
    (VInt 0) (VInt 0) (VInt 0) (VInt 0) (VInt 0).

(** [self.attr] *)
Definition getattr (self : gmap string value) (attr : string) : outcome value :=
  match self !! attr with
  | Some v => Ok v
  | None => Raise (AttributeError attr)
  end.

(** [self.attr = v] *)
Definition setattr (self : gmap string value) (attr : string) (v : value)
    : gmap string value :=
  <[attr := v]> self.

(** [Technology.__setitem__] *)
Definition setitem (self : gmap string value) (idx : string) (v : value)
    : outcome (gmap string value) :=
  if String.eqb idx "name" then Ok (setattr self "name" v)
  else if String.eqb idx "energy_content" then Ok (setattr self "energy_content" v)
  else if String.eqb idx "carbon_intensity" then Ok (setattr self "carbon_intensity" v)
  else if String.eqb idx "fuel_cost" then Ok (setattr self "fuel_cost" v)
  else if String.eqb idx "tech_life" then Ok (setattr self "tech_life" v)
  else if String.eqb idx "inv_cost" then Ok (setattr self "inv_cost" v)
  else if String.eqb idx "infra_cost" then Ok (setattr self "infra_cost" v)
  else if String.eqb idx "om_cost" then Ok (setattr self "om_cost" v)
  else if String.eqb idx "time_of_cooking" then Ok (setattr self "time_of_cooking" v)
  else if String.eqb idx "efficiency" then Ok (setattr self "efficiency" v)
  else if String.eqb idx "pm25" then Ok (setattr self "pm25" v)
  else Raise (KeyError (VStr idx)).

(** The keys the claim about [__setitem__] lists. *)
Definition setitem_keys : list string :=
  ["name"; "energy_content"; "carbon_intensity"; "fuel_cost"; "tech_life";
   "inv_cost"; "infra_cost"; "om_cost"; "time_of_cooking"; "efficiency";
   "pm25"].

(** *** Relative risks

    [relative_risk], [morbidity] and [mortality] each spell out the same
    four branches on the PM2.5 concentration.  The four values are
    written once here, under the names of the local variables that hold
    them, as exact reals: the floats of the code are these values
    rounded, so that from a few thousand micrograms on they are the
    limit [1 + c] itself.  [relative_risk] below computes them with the
    [OverflowError] of [**]; [morbidity] and [mortality], which never
    return, take them as they are. *)

Definition rr_alri (pm25 : R) : R :=
  if Rlt_dec pm25 7.298 then 1
  else 1 + 2.383 * (1 - exp (- 0.004 * float_pow (pm25 - 7.298) 1.193)).

Definition rr_copd (pm25 : R) : R :=
  if Rlt_dec pm25 7.337 then 1
  else 1 + 22.485 * (1 - exp (- 0.001 * float_pow (pm25 - 7.337) 0.694)).

Definition rr_ihd (pm25 : R) : R :=
  if Rlt_dec pm25 7.505 then 1
  else 1 + 2.538 * (1 - exp (- 0.081 * float_pow (pm25 - 7.505) 0.466)).

Definition rr_lc (pm25 : R) : R :=
  if Rlt_dec pm25 7.345 then 1
  else 1 + 152.496 * (1 - exp (- 0.000167 * float_pow (pm25 - 7.345) 0.76)).

(** [Technology.relative_risk] *)
Definition relative_risk (self : gmap string value) : outcome (R * R * R * R) :=
  pm25 ← getattr self "pm25" ≫= as_R;
  rr_alri ←
    (if Rlt_dec pm25 7.298 then Ok 1%R
     else
       p ← py_pow (pm25 - 7.298) 1.193;
       Ok (1 + 2.383 * (1 - exp (- 0.004 * p)))%R);
  rr_copd ←
    (if Rlt_dec pm25 7.337 then Ok 1%R
     else
       p ← py_pow (pm25 - 7.337) 0.694;
       Ok (1 + 22.485 * (1 - exp (- 0.001 * p)))%R);
  rr_ihd ←
    (if Rlt_dec pm25 7.505 then Ok 1%R
     else
       p ← py_pow (pm25 - 7.505) 0.466;
       Ok (1 + 2.538 * (1 - exp (- 0.081 * p)))%R);
  rr_lc ←
    (if Rlt_dec pm25 7.345 then Ok 1%R
     else
       p ← py_pow (pm25 - 7.345) 0.76;
       Ok (1 + 152.496 * (1 - exp (- 0.000167 * p)))%R);
  Ok (rr_alri, rr_copd, rr_ihd, rr_lc).

(** [sfu * (rr - 1) / (sfu * (rr - 1) + 1)] *)
Definition paf (sfu rr : R) : outcome R :=
  py_div (sfu * (rr - 1)) (sfu * (rr - 1) + 1).

(** The cohort weights, [cl_copd], [cl_alri], [cl_lc] and [cl_ihd]. *)
Definition cl_copd : gmap Z R :=
  list_to_map [(1%Z, 0.3%R); (2%Z, 0.2%R); (3%Z, 0.17%R); (4%Z, 0.17%R); (5%Z, 0.16%R)].
Definition cl_alri : gmap Z R :=
  list_to_map [(1%Z, 0.7%R); (2%Z, 0.1%R); (3%Z, 0.07%R); (4%Z, 0.07%R); (5%Z, 0.06%R)].
Definition cl_lc : gmap Z R :=
  list_to_map [(1%Z, 0.2%R); (2%Z, 0.1%R); (3%Z, 0.24%R); (4%Z, 0.23%R); (5%Z, 0.23%R)].
Definition cl_ihd : gmap Z R :=
  list_to_map [(1%Z, 0.2%R); (2%Z, 0.1%R); (3%Z, 0.24%R); (4%Z, 0.23%R); (5%Z, 0.23%R)].

(** [d[i]] on a dictionary with [int] keys *)
Definition getitem (d : gmap Z R) (i : Z) : outcome R :=
  match d !! i with
  | Some x => Ok x
  | None => Raise (KeyError (VInt i))
  end.

(** [cl[i] * unit * cases / (1 + discount_rate_social) ** (end_year - start_year)] *)
Definition discounted_cohort (cl : gmap Z R) (i : Z) (unit cases : R)
    (discount_rate_social : R) (start_year end_year : Z) : outcome R :=
  w ← getitem cl i;
  d ← py_pow_int (1 + discount_rate_social) (end_year - start_year);
  py_div (w * unit * cases) d.

(** The state of the cohort loop: [i] and the two vectors. *)
Definition cohort_state : Type := Z * list R * list R.

Definition cohort_cond (st : cohort_state) : bool :=
  let '(i, _, _) := st in (i <? 6)%Z.

(** The body of the [while i < 6] loop of [morbidity] and of [mortality]:
    [unit_*] is the cost of illness of the endpoint in [morbidity] and
    [vsl] in [mortality].  The body appends to the two vectors and leaves
    [i] as it is. *)
Definition cohort_body
    (unit_alri unit_copd unit_lc unit_ihd : R)
    (alri_U copd_U lc_U ihd_U alri_R copd_R lc_R ihd_R : R)
    (discount_rate_social : R) (start_year end_year : Z)
    (st : cohort_state) : outcome (ctl cohort_state) :=
  let '(i, U_vector, R_vector) := st in
  let term cl unit cases :=
    discounted_cohort cl i unit cases discount_rate_social start_year end_year in
  a_U ← term cl_alri unit_alri alri_U;
  c_U ← term cl_copd unit_copd copd_U;
  l_U ← term cl_lc unit_lc lc_U;
  h_U ← term cl_ihd unit_ihd ihd_U;
  let U_total := (a_U + c_U + l_U + h_U)%R in
  let U_vector := U_vector ++ [U_total] in
  a_R ← term cl_alri unit_alri alri_R;
  c_R ← term cl_copd unit_copd copd_R;
  l_R ← term cl_lc unit_lc lc_R;
  h_R ← term cl_ihd unit_ihd ihd_R;
  let R_total := (a_R + c_R + l_R + h_R)%R in
  let R_vector := R_vector ++ [R_total] in
  Ok (Continue (i, U_vector, R_vector)).

(** [morbidity]; [sfu] defaults to 1. *)
Definition morbidity (fuel : nat) (start_year end_year : Z)
    (tech : gmap string value)
    (discount_rate_social hhsize_R hhsize_U : option R)
    (coi_alri coi_lc coi_copd coi_ihd inci_alri inci_lc inci_copd inci_ihd : option R)
    (sfu : option R) : outcome (R * R) :=
  discount_rate_social ← required discount_rate_social;
  hhsize_R ← required hhsize_R;
  hhsize_U ← required hhsize_U;
  coi_alri ← required coi_alri;
  coi_lc ← required coi_lc;
  coi_copd ← required coi_copd;
  coi_ihd ← required coi_ihd;
  inci_alri ← required inci_alri;
  inci_lc ← required inci_lc;
  inci_copd ← required inci_copd;
  inci_ihd ← required inci_ihd;
  let sfu := default 1%R sfu in
  pm25 ← getattr tech "pm25" ≫= as_R;
  paf_alri ← paf sfu (rr_alri pm25);
  paf_copd ← paf sfu (rr_copd pm25);
  paf_ihd ← paf sfu (rr_ihd pm25);
  paf_lc ← paf sfu (rr_lc pm25);
  let morb_alri_U := (hhsize_U * paf_alri * inci_alri)%R in
  let morb_copd_U := (hhsize_U * paf_copd * inci_copd)%R in
  let morb_ihd_U := (hhsize_U * paf_ihd * inci_ihd)%R in
  let morb_lc_U := (hhsize_U * paf_lc * inci_lc)%R in
  let morb_alri_R := (hhsize_R * paf_alri * inci_alri)%R in
  let morb_copd_R := (hhsize_R * paf_copd * inci_copd)%R in
  let morb_ihd_R := (hhsize_R * paf_ihd * inci_ihd)%R in
  let morb_lc_R := (hhsize_R * paf_lc * inci_lc)%R in
  '(_, morb_U_vector, morb_R_vector) ←
    while_loop fuel cohort_cond
      (cohort_body coi_alri coi_copd coi_lc coi_ihd
         morb_alri_U morb_copd_U morb_lc_U morb_ihd_U
         morb_alri_R morb_copd_R morb_lc_R morb_ihd_R
         discount_rate_social start_year end_year)
      (1%Z, [], []);
  let morbidity_U := np_sum morb_U_vector in
  let morbidity_R := np_sum morb_R_vector in
  Ok (morbidity_R, morbidity_U).

(** [mortality]; [sfu] defaults to 1. *)
Definition mortality (fuel : nat) (start_year end_year : Z)
    (tech : gmap string value)
    (discount_rate_social hhsize_R hhsize_U : option R)
    (vsl mort_ihd mort_lc mort_alri mort_copd : option R)
    (sfu : option R) : outcome (R * R) :=
  discount_rate_social ← required discount_rate_social;
  hhsize_R ← required hhsize_R;
  hhsize_U ← required hhsize_U;
  vsl ← required vsl;
  mort_ihd ← required mort_ihd;
  mort_lc ← required mort_lc;
  mort_alri ← required mort_alri;
  mort_copd ← required mort_copd;
  let sfu := default 1%R sfu in
  pm25 ← getattr tech "pm25" ≫= as_R;
  paf_alri ← paf sfu (rr_alri pm25);
  paf_copd ← paf sfu (rr_copd pm25);
  paf_ihd ← paf sfu (rr_ihd pm25);
  paf_lc ← paf sfu (rr_lc pm25);
  let mort_alri_U := (hhsize_U * paf_alri * mort_alri)%R in
  let mort_copd_U := (hhsize_U * paf_copd * mort_copd)%R in
  let mort_ihd_U := (hhsize_U * paf_ihd * mort_ihd)%R in
  let mort_lc_U := (hhsize_U * paf_lc * mort_lc)%R in
  let mort_alri_R := (hhsize_R * paf_alri * mort_alri)%R in
  let mort_copd_R := (hhsize_R * paf_copd * mort_copd)%R in
  let mort_ihd_R := (hhsize_R * paf_ihd * mort_ihd)%R in
  let mort_lc_R := (hhsize_R * paf_lc * mort_lc)%R in
  '(_, mort_U_vector, mort_R_vector) ←
    while_loop fuel cohort_cond
      (cohort_body vsl vsl vsl vsl
         mort_alri_U mort_copd_U mort_lc_U mort_ihd_U
         mort_alri_R mort_copd_R mort_lc_R mort_ihd_R
         discount_rate_social start_year end_year)
      (1%Z, [], []);
  let mortality_U := np_sum mort_U_vector in
  let mortality_R := np_sum mort_R_vector in
  Ok (mortality_R, mortality_U).

(** A scalar or an array, where the code computes either. *)
Inductive num : Type :=
| Scalar (x : R)
| Array (a : list R).

(** The functions of [raster.py] that this module calls through the name
    [raster]; [surface] is what they take (a friction raster, a layer). *)
Record raster_module (surface : Type) : Type := {
  travel_time : surface -> surface -> outcome (list R);
  lpg_transportation_cost : list R -> outcome (list R)
}.

Arguments travel_time {surface} r _ _.
Arguments lpg_transportation_cost {surface} r _.

(** A name that no function binds is looked up among the names of the
    module. *)
Definition global {A} (name : string) (binding : option A) : outcome A :=
  match binding with
  | Some v => Ok v
  | None => Raise (NameError name)
  end.

(** [discount_factor] *)
Definition discount_factor (discount_rate_tech : R) (tech : gmap string value)
    : outcome (list R * value) :=
  start_year ← getattr tech "start_year";
  end_year ← getattr tech "end_year";
  proj_life ←
    (if py_eqb start_year end_year then Ok (VInt 1)
     else
       end_year ← getattr tech "end_year";
       start_year ← getattr tech "start_year";
       py_sub end_year start_year);
  year ← np_arange proj_life;
  let discount_factor := map (fun y => ((1 + discount_rate_tech) ^ y)%R) year in
  Ok (discount_factor, proj_life).

(** [discounted_meals] *)
Definition discounted_meals (meals_per_year discount_rate_tech : R)
    (tech : gmap string value) : outcome (list R) :=
  '(discount_rate, proj_life) ← discount_factor discount_rate_tech tech;
  efficiency ← getattr tech "efficiency" ≫= as_R;
  energy ← py_div (meals_per_year * 3.64) efficiency;
  ones ← np_ones proj_life;
  let energy_needed := map (Rmult energy) ones in
  gt ← py_gt proj_life (VInt 1);
  energy_needed ←
    (if gt : bool then np_setitem energy_needed (VInt 0) 0 else Ok energy_needed);
  np_op Rdiv energy_needed discount_rate.

(** [carbon_emissions] *)
Definition carbon_emissions (tech : gmap string value) : outcome R :=
  efficiency ← getattr tech "efficiency" ≫= as_R;
  a ← py_div 3.64 efficiency;
  energy_content ← getattr tech "energy_content" ≫= as_R;
  b ← py_div (5 * a) energy_content;
  carbon_intensity ← getattr tech "carbon_intensity" ≫= as_R;
  energy_content ← getattr tech "energy_content" ≫= as_R;
  efficiency ← getattr tech "efficiency" ≫= as_R;
  c ← py_div (carbon_intensity * energy_content) efficiency;
  Ok (b * c)%R.

Section module_names.

(** Two names that the functions below read are bound by none of them and
    by no statement of [technology.py]: [project_life] and [raster].
    Whether [from .raster import *] binds them is not to be seen from
    the module, so they are taken as they come: [None] for a name that
    is not bound. *)
Context {surface : Type}.
Variable project_life : option value.
Variable raster : option (raster_module surface).

(** [time_save] *)
Definition time_save (tech : gmap string value) (value_of_time : R)
    (walking_friction forest : surface) : outcome num :=
  name ← getattr tech "name";
  time_of_collection ←
    (if py_eqb name (VStr "biogas") then Ok (Scalar 2)
     else if py_eqb name (VStr "traditional_biomass")
             || py_eqb name (VStr "improved_biomass") then
       r ← global "raster" raster;
       t ← travel_time r walking_friction forest;
       Ok (Array (map (fun x => 2 * x + 2.2)%R t))
     else Ok (Scalar 0));
  time_of_cooking ← getattr tech "time_of_cooking" ≫= as_R;
  Ok (match time_of_collection with
      | Scalar x => Scalar ((x + time_of_cooking) * value_of_time)
      | Array a => Array (map (fun x => (x + time_of_cooking) * value_of_time)%R a)
      end).

(** [discounted_inv] *)
Definition discounted_inv (discount_rate_tech : R) (tech : gmap string value)
    : outcome (list R) :=
  '(discount_rate, proj_life) ← discount_factor discount_rate_tech tech;
  investments ← global "project_life" project_life ≫= np_zeros;
  inv_cost ← getattr tech "inv_cost" ≫= as_R;
  investments ← np_setitem investments (VInt 0) inv_cost;
  tech_life ← getattr tech "tech_life";
  gt ← py_gt proj_life tech_life;
  investments ←
    (if gt : bool then
       inv_cost ← getattr tech "inv_cost" ≫= as_R;
       tech_life ← getattr tech "tech_life";
       np_setitem investments tech_life inv_cost
     else Ok investments);
  np_op Rdiv investments discount_rate.

(** [discounted_om] *)
Definition discounted_om (discount_rate_tech : R) (tech : gmap string value)
    : outcome (list R) :=
  '(discount_rate, proj_life) ← discount_factor discount_rate_tech tech;
  om_costs ← getattr tech "om_costs" ≫= as_R;
  ones ← global "project_life" project_life ≫= np_ones;
  let operation_and_maintenance := map (Rmult om_costs) ones in
  gt ← py_gt proj_life (VInt 1);
  operation_and_maintenance ←
    (if gt : bool then
       o ← np_setitem operation_and_maintenance (VInt 0) 0;
       tech_life ← getattr tech "tech_life";
       gt ← py_gt proj_life tech_life;
       if gt : bool then
         tech_life ← getattr tech "tech_life";
         np_setitem o tech_life 0
       else Ok o
     else Ok operation_and_maintenance);
  np_op Rdiv operation_and_maintenance discount_rate.

(** [salvage] *)
Definition salvage (discount_rate_tech : R) (tech : gmap string value)
    : outcome (list R) :=
  '(discount_rate, proj_life) ← discount_factor discount_rate_tech tech;
  salvage ← global "project_life" project_life ≫= np_zeros;
  used_life ← global "project_life" project_life;
  tech_life ← getattr tech "tech_life";
  gt ← py_gt proj_life tech_life;
  used_life ←
    (if gt : bool then
       p ← global "project_life" project_life;
       tech_life ← getattr tech "tech_life";
       py_sub p tech_life
     else Ok used_life);
  inv_cost ← getattr tech "inv_cost" ≫= as_R;
  used_life ← as_R used_life;
  tech_life ← getattr tech "tech_life" ≫= as_R;
  ratio ← py_div used_life tech_life;
  salvage ← np_setitem salvage (VInt (-1)) (inv_cost * (1 - ratio));
  np_op Rdiv salvage discount_rate.

(** [discounted_fuel_cost]; all five parameters are required. *)
Definition discounted_fuel_cost (discount_rate_tech : R)
    (tech : gmap string value) (road_friction lpg : surface)
    (meals_per_year : option R) : outcome (list R) :=
  meals_per_year ← required meals_per_year;
  '(discount_rate, proj_life) ← discount_factor discount_rate_tech tech;
  name ← getattr tech "name";
  fuel_cost ←
    (if py_eqb name (VStr "electricity")
        || py_eqb name (VStr "improved_biomass_purchased")
        || py_eqb name (VStr "purchased_traditional_biomass") then
       fuel_cost ← getattr tech "fuel_cost" ≫= as_R;
       meals ← discounted_meals meals_per_year discount_rate_tech tech;
       ones ← global "project_life" project_life ≫= np_ones;
       x ← np_op Rmult (map (Rmult fuel_cost) meals) ones;
       efficiency ← getattr tech "efficiency" ≫= as_R;
       Ok (Array (map (fun v => v / efficiency)%R x))
     else if py_eqb name (VStr "lpg") then
       fuel_cost ← getattr tech "fuel_cost" ≫= as_R;
       meals ← discounted_meals meals_per_year discount_rate_tech tech;
       r ← global "raster" raster;
       t ← travel_time r road_friction lpg;
       c ← lpg_transportation_cost r t;
       x ← np_op Rmult (map (Rmult fuel_cost) meals) c;
       efficiency ← getattr tech "efficiency" ≫= as_R;
       Ok (Array (map (fun v => v / efficiency)%R x))
     else Ok (Scalar 0));
  match fuel_cost with
  | Scalar x => Ok (map (Rdiv x) discount_rate)
  | Array a => np_op Rdiv a discount_rate
  end.

(** [cost]: the call of [discounted_fuel_cost] passes four arguments. *)
Definition cost (discount_rate_tech : R) (tech : gmap string value)
    (meals_per_year : R) (road_friction lpg : surface) : outcome (list R) :=
  inv ← discounted_inv discount_rate_tech tech;
  om ← discounted_om discount_rate_tech tech;
  s ← np_op Rplus inv om;
  fuel ← discounted_fuel_cost discount_rate_tech tech road_friction lpg None;
  s ← np_op Rplus s fuel;
  sal ← salvage discount_rate_tech tech;
  s ← np_op Rminus s sal;
  meals ← discounted_meals meals_per_year discount_rate_tech tech;
  np_op Rdiv s meals.

(** [benefit]; [sfu] defaults to 1.  The call of [morbidity] passes seven
    arguments, [sfu] as the seventh, and the call of [mortality] eight.
    The two results are tuples, which [+] concatenates; adding the value
    of time to the tuple is numpy's addition when that is an array and a
    [TypeError] when it is a number. *)
Definition benefit (fuel : nat) (start_year end_year : Z)
    (tech : gmap string value)
    (discount_rate_social hhsize_R hhsize_U vsl value_of_time : R)
    (walking_friction forest : surface) (sfu : option R) : outcome (list R) :=
  let sfu := default 1%R sfu in
  '(morbidity_R, morbidity_U) ←
    morbidity fuel start_year end_year tech (Some discount_rate_social)
      (Some hhsize_R) (Some hhsize_U) (Some sfu)
      None None None None None None None None;
  '(mortality_R, mortality_U) ←
    mortality fuel start_year end_year tech (Some discount_rate_social)
      (Some hhsize_R) (Some hhsize_U) (Some vsl) (Some sfu)
      None None None None;
  let both := [morbidity_R; morbidity_U; mortality_R; mortality_U] in
  time ← time_save tech value_of_time walking_friction forest;
  s ← match time with
      | Scalar _ => Raise TypeError
      | Array a => np_op Rplus both a
      end;
  carbon ← carbon_emissions tech;
  Ok (map (fun x => x + carbon)%R s).

(** [net_costs]; [sfu] defaults to 1. *)
Definition net_costs (fuel : nat) (discount_rate_tech : R)
    (tech : gmap string value) (meals_per_year : R)
    (road_friction lpg : surface) (start_year end_year : Z)
    (discount_rate_social hhsize_R hhsize_U vsl value_of_time : R)
    (walking_friction forest : surface) (sfu : option R) : outcome (list R) :=
  let sfu := default 1%R sfu in
  c ← cost discount_rate_tech tech meals_per_year road_friction lpg;
  b ← benefit fuel start_year end_year tech discount_rate_social hhsize_R
        hhsize_U vsl value_of_time walking_friction forest (Some sfu);
  np_op Rminus c b.

End module_names.

End technology.

(** ** onsstove.py *)

Module onsstove.

(** *** Python dictionaries that are iterated

    A [dict] whose items the code walks through is the list of its items
    in insertion order, with distinct keys. *)

Fixpoint dict_get {V} (d : list (string * V)) (k : string) : outcome V :=
  match d with
  | [] => Raise (KeyError (VStr k))
  | (k', v) :: d' => if String.eqb k k' then Ok v else dict_get d' k
  end.

(** [d[k] = v]: an old item keeps its place, a new one goes last. *)
Fixpoint dict_set {V} (k : string) (v : V) (d : list (string * V))
    : list (string * V) :=
  match d with
  | [] => [(k, v)]
  | (k', v') :: d' =>
      if String.eqb k k' then (k, v) :: d' else (k', v') :: dict_set k v d'
  end.

(** [for x in l], with the state threaded through the body. *)
Fixpoint for_each {A St} (body : St -> A -> outcome St) (s : St) (l : list A)
    : outcome St :=
  match l with
  | [] => Ok s
  | x :: l' => s' ← body s x; for_each body s' l'
  end.

(** *** Layers, tables and the controller *)

(** A layer of [layer.py], as far as this module looks at it: which
    layer it is, and which layer its [friction] attribute is when that
    is a [RasterLayer]. *)
Record layer : Type := {
  tag : string;
  friction : option string
}.

(** The point table [self.gdf]: a number of rows under the default index
    and the columns by name. *)
Record frame : Type := {
  nrows : nat;
  columns : gmap string (list Q)
}.

(** [df[name]] *)
Definition column (df : frame) (name : string) : outcome (list Q) :=
  match columns df !! name with
  | Some c => Ok c
  | None => Raise (KeyError (VStr name))
  end.

(** [df[name] = c] *)
Definition set_column (df : frame) (name : string) (c : list Q) : frame :=
  {| nrows := nrows df; columns := <[name := c]> (columns df) |}.

(** A Boolean column used as a row selector is aligned with the index of
    the table: rows beyond the table are dropped, and a selector that
    lacks a row of the table is refused. *)
Definition align_mask (df : frame) (mask : list bool) : outcome (list bool) :=
  if (nrows df <=? length mask)%nat then Ok (firstn (nrows df) mask)
  else Raise IndexingError.

(** [df.loc[mask, name] = x] *)
Definition loc_set (df : frame) (mask : list bool) (name : string) (x : Q)
    : outcome frame :=
  c ← column df name;
  Ok (set_column df name
        (zip_with (fun (b : bool) old => if b then x else old) mask c)).

(** [df.loc[mask, name]] *)
Definition loc_get (df : frame) (mask : list bool) (name : string)
    : outcome (list Q) :=
  mask ← align_mask df mask;
  c ← column df name;
  Ok (map snd (filter (fun bx => fst bx = true) (zip mask c))).

Definition Qsum (l : list Q) : Q := fold_right Qplus 0%Q l.

(** The attributes of an [OnSSTOVE] instance that the functions below
    use.  [gdf] is [None] until a point table has been extracted;
    [mask_layer] is [Some] once it is a [GeoDataFrame]; [cell_size] is
    the number given to the constructor. *)
Record OnSSTOVE : Type := {
  layers : list (string * list (string * layer));
  output_directory : string;
  mask_layer : option string;
  cell_size : option Q;
  specs : option (gmap string value);
  techs : option (gmap string (gmap string value));
  gdf : option frame
}.

Definition set_specs (self : OnSSTOVE) (c : gmap string value) : OnSSTOVE :=
  {| layers := layers self; output_directory := output_directory self;
     mask_layer := mask_layer self; cell_size := cell_size self;
     specs := Some c; techs := techs self; gdf := gdf self |}.

Definition set_techs (self : OnSSTOVE) (t : gmap string (gmap string value))
    : OnSSTOVE :=
  {| layers := layers self; output_directory := output_directory self;
     mask_layer := mask_layer self; cell_size := cell_size self;
     specs := specs self; techs := Some t; gdf := gdf self |}.

Definition set_gdf (self : OnSSTOVE) (df : frame) : OnSSTOVE :=
  {| layers := layers self; output_directory := output_directory self;
     mask_layer := mask_layer self; cell_size := cell_size self;
     specs := specs self; techs := techs self; gdf := Some df |}.

(** [self.gdf] *)
Definition get_gdf (self : OnSSTOVE) : outcome frame :=
  match gdf self with
  | Some df => Ok df
  | None => Raise (AttributeError "gdf")
  end.

(** [self.specs[key]] *)
Definition spec (self : OnSSTOVE) (key : string) : outcome value :=
  match specs self with
  | None => Raise TypeError
  | Some c =>
      match c !! key with
      | Some v => Ok v
      | None => Raise (KeyError (VStr key))
      end
  end.

(** *** get_layers and mask_layers *)

(** The argument [layers] / [datasets]: the string ['all'] or a
    dictionary from categories to lists of names. *)
Inductive selection : Type :=
| All
| Mapping (m : list (string * list string)).

(** The dictionary comprehension of [get_layers]: for every category and
    every name in turn, the item [category: {name: layer}] is stored
    under the key [category]. *)
Definition comprehension (registry : list (string * list (string * layer)))
    (m : list (string * list string))
    : outcome (list (string * list (string * layer))) :=
  for_each
    (fun acc '(category, names) =>
       for_each
         (fun acc name =>
            l ← dict_get registry category ≫= (fun d => dict_get d name);
            Ok (dict_set category [(name, l)] acc))
         acc names)
    [] m.

(** [get_layers] *)
Definition get_layers (self : OnSSTOVE) (sel : selection)
    : outcome (list (string * list (string * layer))) :=
  match sel with
  | All => Ok (layers self)
  | Mapping m => comprehension (layers self) m
  end.

(** What [mask_layers] does to the world, in order: the directories it
    makes and the [mask] methods of [layer.py] it calls. *)
Inductive event : Type :=
| Makedirs (path : string)
| MaskCall (tag : string) (mask : string) (output_path : string).

(** [os.path.join] of relative components. *)
Definition path_join (a b c : string) : string :=
  a +:+ "/" +:+ b +:+ "/" +:+ c.

Definition mask_message : string :=
  "The `mask_layer` attribute is empty, please first add a mask layer using the `.add_mask_layer` method.".

(** [mask_layers] *)
Definition mask_layers (self : OnSSTOVE) (datasets : selection)
    : outcome (list event) :=
  match mask_layer self with
  | None => Raise (Exception_ mask_message)
  | Some mask =>
      datasets ← get_layers self datasets;
      Ok (flat_map
            (fun '(category, by_name) =>
               flat_map
                 (fun '(name, l) =>
                    let output_path :=
                      path_join (output_directory self) category name in
                    [Makedirs output_path; MaskCall (tag l) mask output_path]
                    ++ match friction l with
                       | Some f => [MaskCall f mask output_path]
                       | None => []
                       end)
                 by_name)
            datasets)
  end.

(** *** Configuration files *)

(** A row as [DictReader] yields it for a file whose header names the
    columns [Param], [Value] and [data_type] (and [Fuel], which only
    [read_tech_data] reads). *)
Record row : Type := {
  Fuel : string;
  Param : string;
  Value : string;
  data_type : string
}.

Section conversions.

(** The builtins [int] and [float] on a string: [None] when they raise
    [ValueError]. *)
Variable int_ : string -> option Z.
Variable float_ : string -> option Q.

Definition py_int (s : string) : outcome value :=
  match int_ s with
  | Some z => Ok (VInt z)
  | None => Raise ValueError
  end.

Definition py_float (s : string) : outcome value :=
  match float_ s with
  | Some q => Ok (VFloat q)
  | None => Raise ValueError
  end.

Definition py_str (s : string) : outcome value := Ok (VStr s).

(** The converted value of a row in the words of the specification: the
    [Value] read as the [data_type] says, where that is [int], [float]
    or [string] and the reading succeeds. *)
Definition converted_value (r : row) : option value :=
  if String.eqb (data_type r) "int" then VInt <$> int_ (Value r)
  else if String.eqb (data_type r) "float" then VFloat <$> float_ (Value r)
  else if String.eqb (data_type r) "string" then Some (VStr (Value r))
  else None.

(** The body of the loop of [read_scenario_data]. *)
Definition scenario_row (config : gmap string value) (r : row)
    : outcome (gmap string value) :=
  if String.eqb (Value r) "" then Ok config
  else if String.eqb (data_type r) "int" then
    v ← py_int (Value r); Ok (<[Param r := v]> config)
  else if String.eqb (data_type r) "float" then
    v ← py_float (Value r); Ok (<[Param r := v]> config)
  else if String.eqb (data_type r) "string" then
    v ← py_str (Value r); Ok (<[Param r := v]> config)
  else Raise ValueError.

(** [read_scenario_data], on the rows of the file *)
Definition read_scenario_data (self : OnSSTOVE) (config_file : list row)
    : outcome OnSSTOVE :=
  config ← for_each scenario_row ∅ config_file;
  Ok (set_specs self config).

(** [techs[fuel][param] = v], through [Technology.__setitem__] *)
Definition tech_assign (techs : gmap string (gmap string value))
    (fuel param : string) (v : value)
    : outcome (gmap string (gmap string value)) :=
  match techs !! fuel with
  | None => Raise (KeyError (VStr fuel))
  | Some t =>
      t' ← technology.setitem t param v;
      Ok (<[fuel := t']> techs)
  end.

(** The body of the loop of [read_tech_data]. *)
Definition tech_row (techs : gmap string (gmap string value)) (r : row)
    : outcome (gmap string (gmap string value)) :=
  if String.eqb (Value r) "" then Ok techs
  else
    let techs :=
      match techs !! Fuel r with
      | None => <[Fuel r := technology.Technology_default]> techs
      | Some _ => techs
      end in
    if String.eqb (data_type r) "int" then
      v ← py_int (Value r); tech_assign techs (Fuel r) (Param r) v
    else if String.eqb (data_type r) "float" then
      v ← py_float (Value r); tech_assign techs (Fuel r) (Param r) v
    else if String.eqb (data_type r) "string" then
      v ← py_str (Value r); tech_assign techs (Fuel r) (Param r) v
    else Raise ValueError.

(** [read_tech_data], on the rows of the file *)
Definition read_tech_data (self : OnSSTOVE) (config_file : list row)
    : outcome OnSSTOVE :=
  techs ← for_each tech_row ∅ config_file;
  Ok (set_techs self techs).

End conversions.

(** *** Calibration *)

(** [calibrate_pop] *)
Definition calibrate_pop (self : OnSSTOVE) : outcome OnSSTOVE :=
  df ← get_gdf self;
  Pop ← column df "Pop";
  let total_gis_pop := Qsum Pop in
  Population_start_year ← spec self "Population_start_year" ≫= as_Q;
  let calibration_factor := (Population_start_year / total_gis_pop)%Q in
  df ← get_gdf self;
  Pop ← column df "Pop";
  Ok (set_gdf self
        (set_column df "Calibrated_pop"
           (map (fun p => p * calibration_factor)%Q Pop))).

(** A numpy [float64] where the code divides: numpy answers a division
    by zero with [inf] or [nan] and a warning, not with an exception.
    [Finite] is a number as everywhere in this model, an exact rational,
    whose zero stands for both zeros of the floats. *)
Inductive float64 : Type :=
  | Finite (q : Q)
  | Inf (negative : bool)
  | NaN.

(** [x / y] for a numpy scalar [x] *)
Definition np_div (x y : Q) : float64 :=
  if Qeq_bool y 0 then
    if Qeq_bool x 0 then NaN else Inf (Qltb x 0)
  else Finite (x / y).

(** [abs(x - y) > tolerance] and [x > y]; a comparison with [nan] is
    false. *)
Definition np_far (x : float64) (y tolerance : Q) : bool :=
  match x with
  | Finite q => Qltb tolerance (Qabs (q - y))
  | Inf _ => true
  | NaN => false
  end.

Definition np_gt (x : float64) (y : Q) : bool :=
  match x with
  | Finite q => Qltb y q
  | Inf negative => negb negative
  | NaN => false
  end.

(** The state of the loop of [calibrate_urban]: [urban_modelled],
    [factor], [i] and the instance with its table. *)
Definition urban_state : Type := float64 * Q * Z * OnSSTOVE.

(** [abs(urban_modelled - urban_current) > 0.01] *)
Definition urban_cond (urban_current : Q) (st : urban_state) : bool :=
  let '(urban_modelled, _, _, _) := st in
  np_far urban_modelled urban_current 0.01.

(** A row selector of the loop: population above [pop_limit * factor]
    and population per cell size above [density_limit * factor]. *)
Definition urban_mask (pop_limit density_limit factor size : Q)
    (Population Population' : list Q) : list bool :=
  zip_with andb
    (map (fun p => Qltb (pop_limit * factor) p) Population)
    (map (fun p => Qltb (density_limit * factor) (p / size)) Population').

(** [self.gdf.loc[(self.gdf["Population"] > pop_limit * factor) &
    (self.gdf["Population"] / self.cell_size > density_limit * factor),
    "IsUrban"] = class] *)
Definition classify (self : OnSSTOVE) (pop_limit density_limit factor class : Q)
    : outcome OnSSTOVE :=
  df ← get_gdf self;
  Population ← get_gdf self ≫= (fun d => column d "Population");
  Population' ← get_gdf self ≫= (fun d => column d "Population");
  size ← match cell_size self with
         | Some c => Ok c
         | None => Raise TypeError
         end;
  df ← loc_set df
         (urban_mask pop_limit density_limit factor size Population Population')
         "IsUrban" class;
  Ok (set_gdf self df).

(** The three assignments to [IsUrban] that open the body of the loop:
    0 everywhere, then 1 and then 2 where the selectors say so. *)
Definition reclassify (self : OnSSTOVE) (factor : Q) : outcome OnSSTOVE :=
  df ← get_gdf self;
  let self := set_gdf self (set_column df "IsUrban" (repeat 0%Q (nrows df))) in
  self ← classify self 5000 350 factor 1;
  classify self 50000 1500 factor 2.

(** What a module-level name that holds a table can be bound to: the
    table of the instance, which is the object [self.gdf] itself and so
    shows every assignment that the loop makes to it, or a table of its
    own. *)
Inductive table_ref : Type :=
  | Gdf
  | Table (t : frame).

Definition deref (self : OnSSTOVE) (r : table_ref) : outcome frame :=
  match r with
  | Gdf => get_gdf self
  | Table t => Ok t
  end.

Section module_names.

(** [clusters], which the loop reads, is bound by no statement of
    [onsstove.py]; as in [technology], a name that is not bound is
    [None]. *)
Variable clusters : option table_ref.

(** [self.gdf.loc[clusters["IsUrban"] > 1, "Calibrated_pop"].sum()] *)
Definition urban_population (self : OnSSTOVE) : outcome Q :=
  df ← get_gdf self;
  IsUrban ← (c ← technology.global "clusters" clusters;
             c ← deref self c;
             column c "IsUrban");
  selected ← loc_get df (map (fun u => Qltb 1 u) IsUrban) "Calibrated_pop";
  Ok (Qsum selected).

(** The body of the [while] loop of [calibrate_urban]. *)
Definition urban_body (pop_tot : value) (urban_current : Q)
    (st : urban_state) : outcome (ctl urban_state) :=
  let '(urban_modelled, factor, i, self) := st in
  self ← reclassify self factor;
  pop_urb ← urban_population self;
  pop_tot ← as_Q pop_tot;
  let urban_modelled := np_div pop_urb pop_tot in
  let factor :=
    if np_gt urban_modelled urban_current then (factor * 1.1)%Q
    else (factor * 0.9)%Q in
  let i := (i + 1)%Z in
  if (500 <? i)%Z then Ok (Break (urban_modelled, factor, i, self))
  else Ok (Continue (urban_modelled, factor, i, self)).

(** [calibrate_urban]; the result is the state the loop ends in: the
    instance with its classified table, and the last [urban_modelled],
    [factor] and [i]. *)
Definition calibrate_urban (fuel : nat) (self : OnSSTOVE) : outcome urban_state :=
  let urban_modelled := Finite 2 in
  let factor := 1%Q in
  pop_tot ← spec self "Population_start_year";
  urban_current ← spec self "Urban_start";
  let i := 0%Z in
  urban_current ← as_Q urban_current;
  while_loop fuel (urban_cond urban_current) (urban_body pop_tot urban_current)
    (urban_modelled, factor, i, self).

End module_names.

(** *** Registering layers *)

Definition set_layers (self : OnSSTOVE)
    (l : list (string * list (string * layer))) : OnSSTOVE :=
  {| layers := l; output_directory := output_directory self;
     mask_layer := mask_layer self; cell_size := cell_size self;
     specs := specs self; techs := techs self; gdf := gdf self |}.

(** The last statement of [add_layer]: the layer goes into the dictionary
    of its category, which is made if the category is new. *)
Definition register (registry : list (string * list (string * layer)))
    (category name : string) (l : layer)
    : list (string * list (string * layer)) :=
  match dict_get registry category with
  | Ok by_name => dict_set category (dict_set name l by_name) registry
  | _ => dict_set category [(name, l)] registry
  end.

(** [add_layer] with [base_layer=False], its default.  [made] is the
    object that the constructor [VectorLayer] or [RasterLayer] of
    [layer.py] returns; for any other [layer_type] the variable [layer]
    is assigned nowhere, and reading it raises [UnboundLocalError], a
    [NameError]. *)
Definition add_layer (self : OnSSTOVE) (category name layer_type : string)
    (made : layer) : outcome (OnSSTOVE * list event) :=
  let output_path := path_join (output_directory self) category name in
  l ← (if String.eqb layer_type "vector" then Ok made
       else if String.eqb layer_type "raster" then Ok made
       else Raise (NameError "layer"));
  Ok (set_layers self (register (layers self) category name l),
      [Makedirs output_path]).

(** [self.layers[category][name]] *)
Definition registered (registry : list (string * list (string * layer)))
    (category name : string) : outcome layer :=
  dict_get registry category ≫= (fun by_name => dict_get by_name name).

(** *** Population points *)

(** The array of a raster layer, row by row; [None] is a cell without
    data ([nan]). *)
Definition grid : Type := list (list (option Q)).

(** The cells of a row that hold data, from column [c] on: column and
    value. *)
Fixpoint where_row (c : nat) (row : list (option Q)) : list (nat * Q) :=
  match row with
  | [] => []
  | Some v :: row' => (c, v) :: where_row (S c) row'
  | None :: row' => where_row (S c) row'
  end.

(** [np.where(~np.isnan(layer.layer))], with the values: the cells that
    hold data, row by row from row [r] on. *)
Fixpoint where_valid (r : nat) (g : grid) : list (nat * nat * Q) :=
  match g with
  | [] => []
  | row :: g' =>
      map (fun cv => (r, fst cv, snd cv)) (where_row 0 row)
      ++ where_valid (S r) g'
  end.

(** [layer.layer[rows, cols]] *)
Fixpoint read_cells (g : grid) (rows cols : list nat)
    : outcome (list (option Q)) :=
  match rows, cols with
  | r :: rows', c :: cols' =>
      match g !! r ≫= (fun row => row !! c) with
      | Some v => vs ← read_cells g rows' cols'; Ok (v :: vs)
      | None => Raise IndexError
      end
  | _, _ => Ok []
  end.

(** [population_to_dataframe]: the instance with its new table, the two
    index arrays [self.rows] and [self.cols], and the geometry column,
    which [xy] makes of a row and a column (the centre of the cell). *)
Definition population_to_dataframe {point : Type} (xy : nat -> nat -> point)
    (self : OnSSTOVE) (layer : grid)
    : OnSSTOVE * (list nat * list nat) * list point :=
  let cells := where_valid 0 layer in
  let rows := map (fun rcv => fst (fst rcv)) cells in
  let cols := map (fun rcv => snd (fst rcv)) cells in
  let geometry := zip_with xy rows cols in
  let Pop := map snd cells in
  (set_gdf self {| nrows := length Pop; columns := <["Pop" := Pop]> ∅ |},
   (rows, cols), geometry).

End onsstove.

(** ** Concrete inputs *)

(** The technology of the end-to-end scenario of the specification:
    [Technology(pm25=0, efficiency=1, tech_life=10, inv_cost=100,
    om_cost=0.1)], with [start_year] and [end_year] assigned as plain
    attributes afterwards. *)
Definition scenario_technology : gmap string value :=
  technology.setattr
    (technology.setattr
       (technology.Technology_init VNone (VInt 0) (VInt 0) (VInt 10)
          (VInt 100) (VInt 0) (VInt 0) (VInt 0) (VFloat 0.1) (VInt 1) (VInt 0))
       "start_year" (VInt 2020))
    "end_year" (VInt 2030).

(** A registry with one category of two layers, the second with a
    friction raster, and a mask boundary in place. *)
Definition two_layers : onsstove.OnSSTOVE :=
  {| onsstove.layers :=
       [("demand",
         [("a", {| onsstove.tag := "a"; onsstove.friction := None |});
          ("b", {| onsstove.tag := "b";
                   onsstove.friction := Some "b_friction" |})])];
     onsstove.output_directory := "output";
     onsstove.mask_layer := Some "boundary";
     onsstove.cell_size := None;
     onsstove.specs := None;
     onsstove.techs := None;
     onsstove.gdf := None |}.

(** [int] and [float] on plain decimal literals (an optional minus sign,
    digits, and for [float] an optional fraction), to run the readers on
    concrete rows. *)
Definition digit (c : ascii) : option Z :=
  let n := nat_of_ascii c in
  if (48 <=? n)%nat && (n <=? 57)%nat then Some (Z.of_nat (n - 48)) else None.

Fixpoint digits (acc : Z) (s : string) : option Z :=
  match s with
  | EmptyString => Some acc
  | String c s' =>
      match digit c with
      | Some d => digits (10 * acc + d) s'
      | None => None
      end
  end.

Definition unsigned_literal (s : string) : option Z :=
  match s with
  | EmptyString => None
  | _ => digits 0 s
  end.

Definition int_literal (s : string) : option Z :=
  match s with
  | String "-"%char s' => Z.opp <$> unsigned_literal s'
  | _ => unsigned_literal s
  end.

Fixpoint split_at_dot (s : string) : string * option string :=
  match s with
  | EmptyString => (EmptyString, None)
  | String "."%char s' => (EmptyString, Some s')
  | String c s' => let '(a, b) := split_at_dot s' in (String c a, b)
  end.

Definition unsigned_float_literal (s : string) : option Q :=
  match split_at_dot s with
  | (whole, None) => inject_Z <$> unsigned_literal whole
  | (whole, Some fraction) =>
      match unsigned_literal whole, unsigned_literal fraction with
      | Some w, Some f =>
          let scale := (10 ^ Z.of_nat (String.length fraction))%Z in
          Some (Qred (Qmake (w * scale + f) (Z.to_pos scale)))
      | _, _ => None
      end
  end.

Definition float_literal (s : string) : option Q :=
  match s with
  | String "-"%char s' => Qopp <$> unsigned_float_literal s'
  | _ => unsigned_float_literal s
  end.

(** A row without a value, of a type the readers do not know. *)
Definition empty_row : onsstove.row :=
  {| onsstove.Fuel := "lpg"; onsstove.Param := "tech_life";
     onsstove.Value := ""; onsstove.data_type := "bool" |}.

(** A row of type [int] for a key that [Technology.__setitem__] refuses. *)
Definition start_year_row : onsstove.row :=
  {| onsstove.Fuel := "lpg"; onsstove.Param := "start_year";
     onsstove.Value := "2020"; onsstove.data_type := "int" |}.

(** A row of type [float] for a key of [Technology]. *)
Definition efficiency_row : onsstove.row :=
  {| onsstove.Fuel := "lpg"; onsstove.Param := "efficiency";
     onsstove.Value := "0.5"; onsstove.data_type := "float" |}.

(** A row with a value, of a type the readers do not know. *)
Definition bool_row : onsstove.row :=
  {| onsstove.Fuel := "lpg"; onsstove.Param := "Forest_access";
     onsstove.Value := "yes"; onsstove.data_type := "bool" |}.

(** A fresh instance: [OnSSTOVE()]. *)
Definition fresh : onsstove.OnSSTOVE :=
  {| onsstove.layers := [];
     onsstove.output_directory := "output";
     onsstove.mask_layer := None;
     onsstove.cell_size := None;
     onsstove.specs := None;
     onsstove.techs := None;
     onsstove.gdf := None |}.

(** The population raster of the end-to-end scenario of the
    specification as a point table: nine cells, 10000 people in the
    middle one; and an instance with that table, cells of size 1 and a
    configured population of 20000 with an urban share of one half. *)
Definition scenario_table : onsstove.frame :=
  {| onsstove.nrows := 9;
     onsstove.columns :=
       <["Pop" := [0; 0; 0; 0; 10000; 0; 0; 0; 0]%Q]> ∅ |}.

Definition scenario_specs : gmap string value :=
  <["Urban_start" := VFloat 0.5]>
  (<["Population_start_year" := VInt 20000]> ∅).

Definition scenario : onsstove.OnSSTOVE :=
  {| onsstove.layers := [];
     onsstove.output_directory := "output";
     onsstove.mask_layer := None;
     onsstove.cell_size := Some 1%Q;
     onsstove.specs := Some scenario_specs;
     onsstove.techs := None;
     onsstove.gdf := Some scenario_table |}.

(** A table of one point with the columns [calibrate_urban] reads, and an
    instance with it: cells of size 1, a configured population equal to
    that of the point, and an urban share of one half to reach. *)
Definition one_point (population : Q) : onsstove.frame :=
  {| onsstove.nrows := 1;
     onsstove.columns :=
       <["Calibrated_pop" := [population]]>
       (<["Population" := [population]]> ∅) |}.

Definition one_point_instance (population : Z) : onsstove.OnSSTOVE :=
  {| onsstove.layers := [];
     onsstove.output_directory := "output";
     onsstove.mask_layer := None;
     onsstove.cell_size := Some 1%Q;
     onsstove.specs :=
       Some (<["Urban_start" := VFloat 0.5]>
             (<["Population_start_year" := VInt population]> ∅));
     onsstove.techs := None;
     onsstove.gdf := Some (one_point (inject_Z population)) |}.

(** The same for several points, each calibrated to its population, with
    the configured population given apart. *)
Definition points (populations : list Q) : onsstove.frame :=
  {| onsstove.nrows := length populations;
     onsstove.columns :=
       <["Calibrated_pop" := populations]>
       (<["Population" := populations]> ∅) |}.

Definition points_instance (populations : list Q) (total : Z)
    : onsstove.OnSSTOVE :=
  {| onsstove.layers := [];
     onsstove.output_directory := "output";
     onsstove.mask_layer := None;
     onsstove.cell_size := Some 1%Q;
     onsstove.specs :=
       Some (<["Urban_start" := VFloat 0.5]>
             (<["Population_start_year" := VInt total]> ∅));
     onsstove.techs := None;
     onsstove.gdf := Some (points populations) |}.

(** A table for the name [clusters]: one point, of the given class. *)
Definition clusters_table (class : Q) : onsstove.frame :=
  {| onsstove.nrows := 1;
     onsstove.columns := <["IsUrban" := [class]]> ∅ |}.

(** The number of times the body of the loop has run: the final [i]. *)
Definition iterations (r : outcome onsstove.urban_state) : option Z :=
  match r with
  | Ok (_, _, i, _) => Some i
  | _ => None
  end.

(** The state a run of a loop body leaves. *)
Definition state_of {St} (c : ctl St) : St :=
  match c with
  | Continue s => s
  | Break s => s
  end.

(** The two conditions of the classification in the words of the
    specification: population above [pop_limit * factor] and population
    per cell size above [density_limit * factor]. *)
Definition tier (pop_limit density_limit factor size p : Q) : Prop :=
  (pop_limit * factor < p /\ density_limit * factor < p / size)%Q.

(** The sum of [values] over the rows whose [selector] exceeds 1. *)
Definition sum_where_above_1 (selector values : list Q) : Q :=
  onsstove.Qsum
    (map snd (filter (fun uv => Qltb 1 (fst uv) = true) (zip selector values))).

(** The class of a point with population [p]: 2 within both limits of
    class 2, 1 within both limits of class 1 but not of class 2, and 0
    otherwise. *)
Definition classified (factor size u p : Q) : Prop :=
  (u = 2%Q <-> tier 50000 1500 factor size p) /\
  (u = 1%Q <-> tier 5000 350 factor size p /\ ~ tier 50000 1500 factor size p) /\
  (u = 0%Q <-> ~ tier 5000 350 factor size p /\ ~ tier 50000 1500 factor size p).

(** The shape shared by the four relative risks: 1 below the threshold
    [t], and above it a curve that saturates at [1 + c], with the
    negative rate [k] and the exponent [a]. *)
Definition saturating (c k a t x : R) : R :=
  if Rlt_dec x t then 1%R
  else (1 + c * (1 - exp (k * float_pow (x - t) a)))%R.

(** A concentration from which such a curve is within [eps] of its limit
    [1 + c]. *)
Definition within_reach (c k a t eps : R) : R :=
  (t + Rpower (Rmax 1 (- ln (eps / c) / - k)) (/ a))%R.

(** ** Predicates of the further properties *)

(** A table of cohort weights shares out the cases: keys 1 to 5 and no
    other, weights that add up to 1. *)
Definition shares_out (cl : gmap Z R) : Prop :=
    (forall i, (exists w, technology.getitem cl i = Ok w) <-> (1 <= i <= 5)%Z) /\
    (forall i, ~ (1 <= i <= 5)%Z ->
               technology.getitem cl i = Raise (KeyError (VInt i))) /\
    exists w1 w2 w3 w4 w5,
      technology.getitem cl 1 = Ok w1 /\ technology.getitem cl 2 = Ok w2 /\
      technology.getitem cl 3 = Ok w3 /\ technology.getitem cl 4 = Ok w4 /\
      technology.getitem cl 5 = Ok w5 /\ (w1 + w2 + w3 + w4 + w5 = 1)%R.

(** A technology has the attributes that [__init__] creates and no
    other. *)
Definition has_init_attributes (t : gmap string value) : Prop :=
  forall a, is_Some (t !! a) <-> a ∈ technology.setitem_keys.

(** * Theorems *)

(** ** Technology.__setitem__ *)

Lemma setitem_key self idx v :
  idx ∈ technology.setitem_keys ->
  technology.setitem self idx v = Ok (<[idx := v]> self).
Proof.
  unfold technology.setitem_keys. rewrite !elem_of_cons, elem_of_nil.
  intros H. repeat (destruct H as [-> | H]; [reflexivity |]). contradiction.
Qed.

Lemma setitem_other self idx v :
  idx ∉ technology.setitem_keys ->
  technology.setitem self idx v = Raise (KeyError (VStr idx)).
Proof.
  unfold technology.setitem_keys. rewrite !not_elem_of_cons.
  intros H. unfold technology.setitem.
  repeat (let Hn := fresh "Hn" in
          destruct H as [Hn H]; apply String.eqb_neq in Hn; rewrite Hn).
  reflexivity.
Qed.

(** C10. [__setitem__] accepts exactly the eleven keys [name],
    [energy_content], [carbon_intensity], [fuel_cost], [tech_life],
    [inv_cost], [infra_cost], [om_cost], [time_of_cooking], [efficiency]
    and [pm25]; it then changes the attribute of that name and no other;
    for every other key it raises [KeyError], and so for [start_year]
    and [end_year]. *)
Theorem setitem_accepts_exactly_its_keys (self : gmap string value) (idx : string) (v : value) :
  technology.setitem self idx v =
    (if decide (idx ∈ technology.setitem_keys) then Ok (<[idx := v]> self)
     else Raise (KeyError (VStr idx)))
  /\ (forall self', technology.setitem self idx v = Ok self' ->
        self' !! idx = Some v /\ forall a, a <> idx -> self' !! a = self !! a)
  /\ technology.setitem self "start_year" v = Raise (KeyError (VStr "start_year"))
  /\ technology.setitem self "end_year" v = Raise (KeyError (VStr "end_year")).
Proof.
  split; [| split; [| split; reflexivity]].
  - case_decide; [by apply setitem_key | by apply setitem_other].
  - intros self'. destruct (decide (idx ∈ technology.setitem_keys)) as [Hin | Hout].
    + rewrite (setitem_key _ _ _ Hin). intros [= <-]. split.
      * apply lookup_insert_eq.
      * intros a Ha. by apply lookup_insert_ne.
    + rewrite (setitem_other _ _ _ Hout). discriminate.
Qed.

(** Setting [pm25] on a fresh technology changes [pm25] only. *)
Lemma setitem_accepts_exactly_its_keys_witness :
  technology.setitem technology.Technology_default "pm25" (VFloat 12.5)
    = Ok (<["pm25" := VFloat 12.5]> technology.Technology_default)
  /\
  technology.setitem technology.Technology_default "start_year" (VInt 2020)
    = Raise (KeyError (VStr "start_year")).
Proof.
  destruct (setitem_accepts_exactly_its_keys technology.Technology_default
              "pm25" (VFloat 12.5)) as (H & _ & _).
  destruct (setitem_accepts_exactly_its_keys technology.Technology_default
              "pm25" (VInt 2020)) as (_ & _ & Hs & _).
  split; [| exact Hs].
  rewrite H. rewrite decide_True; [reflexivity |]. repeat constructor.
Defined.

(** ** Relative risks *)

Section saturating_curve.

Local Open Scope R_scope.

Variables (c k a t : R).
Hypotheses (Hc : 0 < c) (Hk : k < 0) (Ha : 0 < a).

Let curve := saturating c k a t.

Lemma curve_at_or_below x : x <= t -> curve x = 1.
Proof.
  intros Hx. unfold curve, saturating.
  destruct (Rlt_dec x t) as [_ | Hge]; [reflexivity |].
  assert (x - t = 0) as -> by lra.
  unfold float_pow. destruct (Req_dec_T 0 0) as [_ | Hne]; [| lra].
  destruct (Req_dec_T a 0) as [Hz | _]; [lra |].
  replace (k * 0) with 0 by lra. rewrite exp_0. lra.
Qed.

Lemma curve_above x : t < x ->
  curve x - (1 + c) = - c * exp (k * Rpower (x - t) a).
Proof.
  intros Hx. unfold curve, saturating.
  destruct (Rlt_dec x t) as [Hlt | _]; [lra |].
  unfold float_pow. destruct (Req_dec_T (x - t) 0) as [Hz | _]; [lra |]. lra.
Qed.

(** Beyond [within_reach eps] the curve is within [eps] of [1 + c]. *)
Lemma curve_close eps x : 0 < eps ->
  within_reach c k a t eps < x -> Rabs (curve x - (1 + c)) < eps.
Proof.
  intros Heps. unfold within_reach.
  set (B := - ln (eps / c)).
  set (L := Rmax 1 (B / - k)).
  assert (HL1 : 1 <= L) by apply Rmax_l.
  assert (HLB : B / - k <= L) by apply Rmax_r.
  intros Hx.
  assert (Hpos : 0 < Rpower L (/ a)) by (unfold Rpower; apply exp_pos).
  rewrite curve_above by lra.
  assert (Hgrow : L < Rpower (x - t) a).
  { rewrite <- (Rpower_1 L) at 1 by lra.
    replace 1 with (/ a * a) by (field; lra).
    rewrite <- Rpower_mult. apply Rlt_Rpower_l; [assumption | lra]. }
  assert (HB : B < - k * Rpower (x - t) a).
  { apply Rle_lt_trans with (- k * L).
    - apply (Rmult_le_compat_l (- k)) in HLB; [| lra].
      replace (- k * (B / - k)) with B in HLB by (field; lra). exact HLB.
    - apply Rmult_lt_compat_l; [lra | assumption]. }
  assert (Hexp : exp (k * Rpower (x - t) a) < eps / c).
  { rewrite <- (exp_ln (eps / c)) by (apply Rdiv_lt_0_compat; assumption).
    apply exp_increasing. unfold B in HB. lra. }
  pose proof (exp_pos (k * Rpower (x - t) a)) as He.
  rewrite Rabs_left.
  - apply (Rmult_lt_compat_l c) in Hexp; [| assumption].
    replace (c * (eps / c)) with eps in Hexp by (field; lra). lra.
  - apply (Rmult_lt_compat_l c) in He; [| assumption]. lra.
Qed.

(** A bound on [within_reach] that can be computed. *)
Lemma within_reach_below eps B : 0 < eps -> 1 <= B ->
  c / eps / - k <= B -> / a <= 3 ->
  within_reach c k a t eps <= t + B ^ 3.
Proof.
  intros Heps HB Hle Hinv. unfold within_reach.
  set (L := Rmax 1 (- ln (eps / c) / - k)).
  assert (HL1 : 1 <= L) by apply Rmax_l.
  assert (HLB : L <= B).
  { apply Rmax_lub; [exact HB |].
    apply Rle_trans with (c / eps / - k); [| exact Hle].
    assert (Hq : 0 < c / eps) by (apply Rdiv_lt_0_compat; assumption).
    assert (Hln : - ln (eps / c) <= c / eps).
    { replace (eps / c) with (/ (c / eps)) by (field; lra).
      rewrite ln_Rinv by exact Hq. rewrite Ropp_involutive.
      pose proof (exp_ineq1_le (ln (c / eps))) as H.
      rewrite exp_ln in H by exact Hq. lra. }
    unfold Rdiv at 1 3. apply Rmult_le_compat_r; [| exact Hln].
    left. apply Rinv_0_lt_compat. lra. }
  assert (Hia : 0 < / a) by (apply Rinv_0_lt_compat; exact Ha).
  apply Rplus_le_compat_l.
  apply Rle_trans with (Rpower B (/ a)).
  - apply Rle_Rpower_l; lra.
  - replace (B ^ 3) with (Rpower B (INR 3)) by (apply Rpower_pow; lra).
    apply Rle_Rpower; [exact HB |]. simpl. lra.
Qed.

End saturating_curve.

Lemma float_max_large : (10 ^ 60 <= float_max)%R.
Proof. unfold float_max. lra. Qed.

(** A smaller base under a smaller exponent stays within the floats. *)
Lemma float_pow_in_range (x x' a a' : R) :
  (0 <= x' <= x)%R -> (0 < a' <= a)%R ->
  (float_pow x a <= float_max)%R -> (float_pow x' a' <= float_max)%R.
Proof.
  intros [Hx' Hx] [Ha' Ha] H. pose proof float_max_large as Hmax.
  unfold float_pow in *.
  destruct (Req_dec_T x' 0) as [| Hne'].
  { destruct (Req_dec_T a' 0); lra. }
  destruct (Req_dec_T x 0) as [| _]; [lra |].
  destruct (Rle_dec x' 1) as [Hle | Hgt].
  - apply Rle_trans with (Rpower 1 a').
    + apply Rle_Rpower_l; lra.
    + unfold Rpower. rewrite ln_1, Rmult_0_r, exp_0. lra.
  - apply Rle_trans with (Rpower x' a); [apply Rle_Rpower; lra |].
    apply Rle_trans with (Rpower x a); [| exact H].
    apply Rle_Rpower_l; lra.
Qed.

Lemma py_pow_Ok x a : (float_pow x a <= float_max)%R ->
  py_pow x a = Ok (float_pow x a).
Proof. intros H. unfold py_pow. by destruct (Rle_dec _ _). Qed.

(** Within the floats [relative_risk] returns the four values. *)
Lemma relative_risk_returns tech (pm25 : R) :
  technology.getattr tech "pm25" ≫= as_R = Ok pm25 ->
  (pm25 < 7.298 \/ float_pow (pm25 - 7.298) 1.193 <= float_max)%R ->
  technology.relative_risk tech
  = Ok (technology.rr_alri pm25, technology.rr_copd pm25,
        technology.rr_ihd pm25, technology.rr_lc pm25).
Proof.
  intros Hpm Hrange. unfold technology.relative_risk. rewrite Hpm.
  cbn [mbind outcome_bind].
  unfold technology.rr_alri, technology.rr_copd, technology.rr_ihd,
    technology.rr_lc.
  destruct (Rlt_dec pm25 7.298) as [Hlt | Hge].
  { cbn [mbind outcome_bind].
    repeat match goal with |- context [Rlt_dec pm25 ?t] =>
      destruct (Rlt_dec pm25 t); [| lra] end.
    reflexivity. }
  destruct Hrange as [? | Hrange]; [lra |].
  rewrite (py_pow_Ok _ _ Hrange). cbn [mbind outcome_bind].
  repeat match goal with |- context [Rlt_dec pm25 ?t] =>
    destruct (Rlt_dec pm25 t); cbn [mbind outcome_bind] end.
  all: repeat match goal with |- context [py_pow ?x ?e] =>
    rewrite (py_pow_Ok x e)
      by (apply (float_pow_in_range (pm25 - 7.298) _ 1.193);
          [lra | lra | exact Hrange]);
    cbn [mbind outcome_bind] end.
  all: reflexivity.
Qed.

(** Beyond the floats it raises. *)
Lemma relative_risk_overflows tech (pm25 : R) :
  technology.getattr tech "pm25" ≫= as_R = Ok pm25 ->
  (7.298 <= pm25)%R ->
  (float_max < float_pow (pm25 - 7.298) 1.193)%R ->
  technology.relative_risk tech = Raise OverflowError.
Proof.
  intros Hpm Hge Hover. unfold technology.relative_risk. rewrite Hpm.
  cbn [mbind outcome_bind].
  destruct (Rlt_dec pm25 7.298); [lra |].
  unfold py_pow.
  destruct (Rle_dec (float_pow (pm25 - 7.298) 1.193) float_max);
    [lra | reflexivity].
Qed.

(** What it returns are the four values. *)
Lemma relative_risk_Ok tech (pm25 a c i l : R) :
  technology.getattr tech "pm25" ≫= as_R = Ok pm25 ->
  technology.relative_risk tech = Ok (a, c, i, l) ->
  a = technology.rr_alri pm25 /\ c = technology.rr_copd pm25 /\
  i = technology.rr_ihd pm25 /\ l = technology.rr_lc pm25.
Proof.
  intros Hpm H.
  destruct (Rlt_dec pm25 7.298) as [Hlt | Hge].
  - rewrite (relative_risk_returns tech pm25 Hpm) in H by (left; exact Hlt).
    by injection H as <- <- <- <-.
  - destruct (Rle_dec (float_pow (pm25 - 7.298) 1.193) float_max) as [Hin | Hout].
    + rewrite (relative_risk_returns tech pm25 Hpm) in H by (right; exact Hin).
      by injection H as <- <- <- <-.
    + rewrite (relative_risk_overflows tech pm25 Hpm) in H by lra.
      discriminate.
Qed.

(** C2, as amended.  For a technology whose [pm25] is an [int] or a
    finite [float]: [relative_risk] returns as long as the power
    [(pm25 - 7.298) ** 1.193] of its first branch is within the floats,
    and raises [OverflowError] beyond; each of the four values is
    exactly 1 when [pm25] is at or below the threshold of its endpoint
    (7.298, 7.337, 7.505, 7.345); and each value that is returned comes
    within any [eps] of 1 plus the coefficient of its endpoint (2.383,
    22.485, 2.538, 152.496) once [pm25] is large enough for that
    [eps]. *)
Theorem relative_risk_threshold_and_limit
    (tech : gmap string value) (pm25 : R) :
  technology.getattr tech "pm25" ≫= as_R = Ok pm25 ->
  ((pm25 <= 7.505 ->
    exists a c i l,
      technology.relative_risk tech = Ok (a, c, i, l) /\
      (pm25 <= 7.298 -> a = 1) /\ (pm25 <= 7.337 -> c = 1) /\
      i = 1 /\ (pm25 <= 7.345 -> l = 1))
   /\
   (7.298 <= pm25 ->
    (float_pow (pm25 - 7.298) 1.193 <= float_max ->
     exists a c i l, technology.relative_risk tech = Ok (a, c, i, l)) /\
    (float_max < float_pow (pm25 - 7.298) 1.193 ->
     technology.relative_risk tech = Raise OverflowError))
   /\
   (forall a c i l eps,
      technology.relative_risk tech = Ok (a, c, i, l) -> 0 < eps ->
      (within_reach 2.383 (-0.004) 1.193 7.298 eps < pm25 ->
       Rabs (a - (1 + 2.383)) < eps) /\
      (within_reach 22.485 (-0.001) 0.694 7.337 eps < pm25 ->
       Rabs (c - (1 + 22.485)) < eps) /\
      (within_reach 2.538 (-0.081) 0.466 7.505 eps < pm25 ->
       Rabs (i - (1 + 2.538)) < eps) /\
      (within_reach 152.496 (-0.000167) 0.76 7.345 eps < pm25 ->
       Rabs (l - (1 + 152.496)) < eps)))%R.
Proof.
  intros Hpm. split; [| split].
  - intros Hlow. eexists _, _, _, _. split.
    + apply (relative_risk_returns tech pm25 Hpm).
      destruct (Rlt_dec pm25 7.298); [by left | right].
      apply (float_pow_in_range 1 _ 1.193); [lra | lra |].
      unfold float_pow. destruct (Req_dec_T 1 0); [lra |].
      unfold Rpower. rewrite ln_1, Rmult_0_r, exp_0.
      pose proof float_max_large. lra.
    + unfold technology.rr_alri, technology.rr_copd, technology.rr_ihd,
        technology.rr_lc.
      split; [| split; [| split]]; try intros H.
      * apply (curve_at_or_below 2.383 (-0.004) 1.193 7.298); lra.
      * apply (curve_at_or_below 22.485 (-0.001) 0.694 7.337); lra.
      * apply (curve_at_or_below 2.538 (-0.081) 0.466 7.505); lra.
      * apply (curve_at_or_below 152.496 (-0.000167) 0.76 7.345); lra.
  - intros Hge. split.
    + intros Hin. eexists _, _, _, _.
      apply (relative_risk_returns tech pm25 Hpm). by right.
    + intros Hout. by apply (relative_risk_overflows tech pm25 Hpm).
  - intros a c i l eps Hret Heps.
    destruct (relative_risk_Ok tech pm25 a c i l Hpm Hret) as (-> & -> & -> & ->).
    unfold technology.rr_alri, technology.rr_copd, technology.rr_ihd,
      technology.rr_lc.
    split; [| split; [| split]]; intros H.
    + apply (curve_close 2.383 (-0.004) 1.193 7.298); (lra || exact H).
    + apply (curve_close 22.485 (-0.001) 0.694 7.337); (lra || exact H).
    + apply (curve_close 2.538 (-0.081) 0.466 7.505); (lra || exact H).
    + apply (curve_close 152.496 (-0.000167) 0.76 7.345); (lra || exact H).
Qed.

(** The power of the first branch at a concentration of [10 ^ 259]. *)
Lemma pow_beyond_floats (x : R) :
  (10 ^ 259 - 7.298 <= x)%R -> (float_max < float_pow x 1.193)%R.
Proof.
  intros Hx.
  assert (Hr : ((907 / 500) ^ 1000 <= 10 ^ 259 - 7.298)%R) by lra.
  assert (Hmax : (float_max < (907 / 500) ^ 1193)%R)
    by (unfold float_max; lra).
  assert (Hpos : (0 < (907 / 500) ^ 1000)%R) by (apply pow_lt; lra).
  unfold float_pow. destruct (Req_dec_T x 0); [lra |].
  apply Rlt_le_trans with ((907 / 500) ^ 1193)%R; [exact Hmax |].
  apply Rle_trans with (Rpower ((907 / 500) ^ 1000) 1.193).
  - rewrite <- (Rpower_pow 1000) by lra. rewrite Rpower_mult.
    rewrite <- (Rpower_pow 1193) by lra.
    right. f_equal.
    replace (INR 1000) with 1000%R by (rewrite INR_IZR_INZ; reflexivity).
    replace (INR 1193) with 1193%R by (rewrite INR_IZR_INZ; reflexivity).
    lra.
  - apply Rle_Rpower_l; lra.
Qed.

(** C2 as it is stated fails.  A technology with a concentration of
    [10 ** 259] has no relative risk at all: the call raises
    [OverflowError]; and so does every larger concentration, so that
    the value for acute lower respiratory infections is not within 1 of
    its limit from any concentration on. *)
Lemma relative_risk_threshold_and_limit_counterexample :
  technology.relative_risk
    (<["pm25" := VInt (10 ^ 259)]> technology.Technology_default)
    = Raise OverflowError
  /\
  ~ (exists M : R, forall pm25 : Z, (M < IZR pm25)%R ->
       exists a c i l,
         technology.relative_risk
           (<["pm25" := VInt pm25]> technology.Technology_default)
           = Ok (a, c, i, l) /\
         (Rabs (a - (1 + 2.383)) < 1)%R).
Proof.
  assert (Hraise : forall z : Z, (10 ^ 259 <= z)%Z ->
            technology.relative_risk
              (<["pm25" := VInt z]> technology.Technology_default)
            = Raise OverflowError).
  { intros z Hz.
    assert (HR : (10 ^ 259 <= IZR z)%R).
    { apply IZR_le in Hz.
      change (10 ^ 259)%Z with (10 ^ Z.of_nat 259)%Z in Hz.
      by rewrite <- pow_IZR in Hz. }
    apply (relative_risk_overflows _ (IZR z)).
    - unfold technology.getattr. by rewrite lookup_insert_eq.
    - assert ((1 <= 10 ^ 259)%R) by (apply pow_R1_Rle; lra). lra.
    - apply pow_beyond_floats. lra. }
  split; [apply Hraise; lia |].
  intros (M & HM).
  destruct (HM (Z.max (10 ^ 259) (up M))) as (a & c & i & l & Hret & _).
  - apply Rlt_le_trans with (IZR (up M)); [apply archimed |].
    apply IZR_le. lia.
  - rewrite Hraise in Hret by lia. discriminate.
Qed.

(** A technology as [Technology()] makes it has a concentration of 0,
    below every threshold, and every relative risk is 1; at a
    concentration of [10 ** 30] the call returns, and each value is
    within a hundredth of its limit. *)
Lemma relative_risk_threshold_and_limit_witness :
  technology.relative_risk technology.Technology_default
    = Ok (1%R, 1%R, 1%R, 1%R)
  /\
  exists a c i l,
    technology.relative_risk
      (<["pm25" := VInt (10 ^ 30)]> technology.Technology_default)
      = Ok (a, c, i, l) /\
    (Rabs (a - (1 + 2.383)) < 0.01 /\ Rabs (c - (1 + 22.485)) < 0.01 /\
     Rabs (i - (1 + 2.538)) < 0.01 /\ Rabs (l - (1 + 152.496)) < 0.01)%R.
Proof.
  split.
  - destruct (relative_risk_threshold_and_limit
                technology.Technology_default 0%R eq_refl)
      as (Hlow & _ & _).
    destruct Hlow as (a & c & i & l & Hret & Ha & Hc & Hi & Hl); [lra |].
    rewrite Hret, Ha, Hc, Hi, Hl by lra. reflexivity.
  - set (tech := <["pm25" := VInt (10 ^ 30)]> technology.Technology_default).
    assert (Hpm : technology.getattr tech "pm25" ≫= as_R = Ok (IZR (10 ^ 30)))
      by reflexivity.
    assert (Hbig : (IZR (10 ^ 30) = 10 ^ 30)%R) by (rewrite pow_IZR; reflexivity).
    destruct (relative_risk_threshold_and_limit tech (IZR (10 ^ 30)) Hpm)
      as (_ & Hret & Hlim).
    destruct Hret as [Hret _]; [rewrite Hbig; lra |].
    destruct Hret as (a & c & i & l & Hret).
    { rewrite Hbig. unfold float_pow.
      destruct (Req_dec_T (10 ^ 30 - 7.298) 0); [lra |].
      apply Rle_trans with (Rpower (10 ^ 30 - 7.298) (INR 2)).
      - apply Rle_Rpower; [lra | simpl; lra].
      - rewrite Rpower_pow by lra. pose proof float_max_large. nra. }
    exists a, c, i, l. split; [exact Hret |].
    destruct (Hlim a c i l 0.01%R Hret ltac:(lra)) as (Ha & Hc & Hi & Hl).
    rewrite Hbig in Ha, Hc, Hi, Hl.
    assert (Hreach : forall c k a t : R,
              (0 < c -> k < 0 -> 0 < a -> / a <= 3 -> t <= 8 ->
               c <= 10 ^ 8 * (0.01 * - k) ->
               within_reach c k a t 0.01 < 10 ^ 30)%R).
    { intros c0 k0 a0 t0 H1 H2 H3 H4 H5 H6.
      apply Rle_lt_trans with (t0 + (10 ^ 8) ^ 3)%R; [| lra].
      apply within_reach_below; try lra.
      replace (c0 / 0.01 / - k0)%R with (c0 / (0.01 * - k0))%R
        by (field; lra).
      apply Rmult_le_reg_r with (0.01 * - k0)%R; [lra |].
      unfold Rdiv. rewrite Rmult_assoc, Rinv_l by lra. lra. }
    split; [| split; [| split]].
    + apply Ha, Hreach; clear; lra.
    + apply Hc, Hreach; clear; lra.
    + apply Hi, Hreach; clear; lra.
    + apply Hl, Hreach; clear; lra.
Defined.

(** ** Calls that finish *)

Lemma finishes_Ok {A} (a : A) : finishes (Ok a).
Proof. discriminate. Qed.

Lemma finishes_Raise {A} (e : exn) : finishes (@Raise A e).
Proof. discriminate. Qed.

Lemma finishes_bind {A B} (m : outcome A) (f : A -> outcome B) :
  finishes m -> (forall a, finishes (f a)) -> finishes (m ≫= f).
Proof. destruct m; simpl; intros Hm Hf; [apply Hf | discriminate | contradiction]. Qed.

Lemma raises_bind_l {A B} (m : outcome A) (f : A -> outcome B) :
  raises m -> raises (m ≫= f).
Proof. intros [e ->]. exists e. reflexivity. Qed.

Lemma raises_bind_r {A B} (m : outcome A) (f : A -> outcome B) :
  finishes m -> (forall a, raises (f a)) -> raises (m ≫= f).
Proof.
  destruct m as [a | e |]; simpl; intros Hm Hf;
    [apply Hf | by exists e | contradiction].
Qed.

Create HintDb finishes.

#[local] Hint Resolve finishes_Ok finishes_Raise : finishes.

(** Peels binds, branches and pattern matches off a [finishes] goal. *)
Ltac finish :=
  repeat match goal with
    | |- finishes (mbind _ _) => apply finishes_bind; [| intros]
    | |- finishes (Ok _) => apply finishes_Ok
    | |- finishes (Raise _) => apply finishes_Raise
    | |- finishes (match ?x with _ => _ end) => destruct x
    | |- finishes _ => solve [eauto with finishes]
    end.

Lemma finishes_getattr self a : finishes (technology.getattr self a).
Proof. unfold technology.getattr. finish. Qed.

Lemma finishes_as_R v : finishes (as_R v).
Proof. unfold as_R. finish. Qed.

Lemma finishes_as_Q v : finishes (as_Q v).
Proof. unfold as_Q. finish. Qed.

Lemma finishes_py_sub a b : finishes (py_sub a b).
Proof. unfold py_sub. finish. Qed.

#[local] Hint Resolve finishes_getattr finishes_as_R finishes_as_Q
  finishes_py_sub : finishes.

Lemma finishes_py_gt a b : finishes (py_gt a b).
Proof. unfold py_gt. finish. Qed.

Lemma finishes_py_div x y : finishes (py_div x y).
Proof. unfold py_div. finish. Qed.

Lemma finishes_required {A} (a : option A) : finishes (required a).
Proof. unfold required. finish. Qed.

Lemma finishes_global {A} n (b : option A) : finishes (technology.global n b).
Proof. unfold technology.global. finish. Qed.

Lemma finishes_np_arange n : finishes (np_arange n).
Proof. unfold np_arange. finish. Qed.

Lemma finishes_np_full x n : finishes (np_full x n).
Proof. unfold np_full. finish. Qed.

Lemma finishes_np_setitem a k x : finishes (np_setitem a k x).
Proof. unfold np_setitem. finish. Qed.

Lemma finishes_np_op f a b : finishes (np_op f a b).
Proof. unfold np_op. finish. Qed.

#[local] Hint Resolve finishes_py_gt finishes_py_div finishes_required
  finishes_global finishes_np_arange finishes_np_full finishes_np_setitem
  finishes_np_op : finishes.

Lemma finishes_discount_factor r tech :
  finishes (technology.discount_factor r tech).
Proof. unfold technology.discount_factor. finish. Qed.

#[local] Hint Resolve finishes_discount_factor : finishes.

Lemma finishes_discounted_inv p r tech :
  finishes (technology.discounted_inv p r tech).
Proof.
  unfold technology.discounted_inv, np_zeros. finish.
Qed.

Lemma finishes_discounted_om p r tech :
  finishes (technology.discounted_om p r tech).
Proof.
  unfold technology.discounted_om, np_ones. finish.
Qed.

(** ** The cost side *)

(** C6. With [project_life] bound by nothing, as in the module,
    [discounted_inv] raises for every technology and every rate; for the
    technology of the scenario of the specification the exception is the
    [NameError] of [np.zeros(project_life)], so no series of length
    [proj_life] is produced. *)
Theorem discounted_inv_project_life_unbound :
  (forall r tech, raises (technology.discounted_inv None r tech)) /\
  technology.discounted_inv None 0.05 scenario_technology
    = Raise (NameError "project_life").
Proof.
  split; [| reflexivity].
  intros r tech. unfold technology.discounted_inv.
  apply raises_bind_r; [apply finishes_discount_factor |].
  intros [discount_rate proj_life]. apply raises_bind_l.
  eexists. reflexivity.
Qed.

Lemma py_gt_int a b : py_gt (VInt a) (VInt b) = Ok (b <? a)%Z.
Proof.
  unfold py_gt. simpl. f_equal. unfold Qltb.
  destruct (Z.ltb_spec b a) as [H | H].
  - apply negb_true_iff, not_true_iff_false. rewrite Qle_bool_iff, <- Zle_Qle. lia.
  - apply negb_false_iff. rewrite Qle_bool_iff, <- Zle_Qle. lia.
Qed.

Lemma np_setitem_in_range (a : list R) (k : Z) (x : R) :
  (0 <= k < Z.of_nat (length a))%Z ->
  np_setitem a (VInt k) x = Ok (<[Z.to_nat k := x]> a).
Proof.
  intros H. unfold np_setitem.
  destruct (Z.ltb_spec k (- Z.of_nat (length a))); [lia |].
  destruct (Z.leb_spec (Z.of_nat (length a)) k); [lia |].
  simpl. by rewrite Z.mod_small.
Qed.

Lemma lookup_repeat {A} (x : A) (n k : nat) :
  (k < n)%nat -> repeat x n !! k = Some x.
Proof.
  revert k. induction n as [| n IH]; intros [| k] H; simpl; try lia;
    [reflexivity | apply IH; lia].
Qed.

(** With [project_life] bound to the value of [proj_life], and years and
    a life that are whole numbers, [discounted_inv] returns the series
    the specification describes: as long as the project, the investment
    in year 0, the discounted investment once more in year [tech_life]
    when the project outlasts it, and nothing in any other year. *)
Lemma discounted_inv_when_bound (r : R) (tech : gmap string value)
    (start_year end_year tech_life : Z) (v : value) (inv_cost : R) :
  tech !! "start_year" = Some (VInt start_year) ->
  tech !! "end_year" = Some (VInt end_year) ->
  tech !! "tech_life" = Some (VInt tech_life) ->
  tech !! "inv_cost" = Some v ->
  as_R v = Ok inv_cost ->
  (start_year < end_year)%Z ->
  (0 < tech_life)%Z ->
  let proj_life := (end_year - start_year)%Z in
  exists series,
    technology.discounted_inv (Some (VInt proj_life)) r tech = Ok series /\
    length series = Z.to_nat proj_life /\
    series !! 0%nat = Some inv_cost /\
    (forall k, (0 < k < Z.to_nat proj_life)%nat -> k <> Z.to_nat tech_life ->
               series !! k = Some 0%R) /\
    ((tech_life < proj_life)%Z ->
       series !! Z.to_nat tech_life
         = Some (inv_cost / (1 + r) ^ Z.to_nat tech_life)%R) /\
    ((proj_life <= tech_life)%Z ->
       forall k, (0 < k < Z.to_nat proj_life)%nat -> series !! k = Some 0%R).
Proof.
  intros Hs He Hl Hi Hv Hyears Hlife proj_life.
  assert (Hn : (0 < proj_life)%Z) by (unfold proj_life; lia).
  set (n := Z.to_nat proj_life).
  set (factors := map (fun y => ((1 + r) ^ y)%R) (seq 0 n)).
  assert (Hdf : technology.discount_factor r tech = Ok (factors, VInt proj_life)).
  { unfold technology.discount_factor, technology.getattr. rewrite Hs, He.
    cbn [mbind outcome_bind py_eqb].
    destruct (Z.eqb_spec start_year end_year); [lia |]. reflexivity. }
  set (investments :=
         if (tech_life <? proj_life)%Z
         then <[Z.to_nat tech_life := inv_cost]> (<[0%nat := inv_cost]> (repeat 0%R n))
         else <[0%nat := inv_cost]> (repeat 0%R n)).
  assert (Hlen : length investments = n).
  { unfold investments. destruct (tech_life <? proj_life)%Z;
      rewrite ?length_insert, repeat_length; reflexivity. }
  assert (Hrun : technology.discounted_inv (Some (VInt proj_life)) r tech
                 = Ok (zip_with Rdiv investments factors)).
  { unfold technology.discounted_inv. rewrite Hdf. cbn [mbind outcome_bind].
    unfold technology.global, np_zeros, np_full. cbn [mbind outcome_bind].
    destruct (Z.ltb_spec proj_life 0); [lia |].
    unfold technology.getattr. rewrite Hi, Hl. cbn [mbind outcome_bind].
    rewrite Hv. cbn [mbind outcome_bind].
    rewrite np_setitem_in_range by (rewrite repeat_length; lia).
    cbn [mbind outcome_bind]. rewrite py_gt_int. cbn [mbind outcome_bind].
    unfold investments. fold n.
    destruct (Z.ltb_spec tech_life proj_life) as [Hlt | Hge].
    - change (Z.to_nat 0) with 0%nat.
      rewrite np_setitem_in_range
        by (rewrite length_insert, repeat_length; lia).
      cbn [mbind outcome_bind]. unfold np_op.
      rewrite !length_insert, repeat_length. unfold factors.
      rewrite length_map, length_seq, Nat.eqb_refl. reflexivity.
    - change (Z.to_nat 0) with 0%nat.
      cbn [mbind outcome_bind]. unfold np_op.
      rewrite !length_insert, repeat_length. unfold factors.
      rewrite length_map, length_seq, Nat.eqb_refl. reflexivity. }
  assert (Hfactor : forall k, (k < n)%nat -> factors !! k = Some ((1 + r) ^ k)%R).
  { intros k Hk. unfold factors. rewrite list_lookup_fmap.
    rewrite lookup_seq_lt by exact Hk. reflexivity. }
  assert (Hzero : forall k, (k < n)%nat -> repeat 0%R n !! k = Some 0%R).
  { intros k Hk. by apply lookup_repeat. }
  exists (zip_with Rdiv investments factors).
  split; [exact Hrun |].
  split; [rewrite length_zip_with, Hlen; unfold factors;
          rewrite length_map, length_seq; lia |].
  assert (Hat : forall k x, (k < n)%nat -> investments !! k = Some x ->
                 zip_with Rdiv investments factors !! k = Some (x / (1 + r) ^ k)%R).
  { intros k x Hk Hx. rewrite lookup_zip_with, Hx, (Hfactor k Hk). reflexivity. }
  assert (Hn' : (0 < n)%nat) by (unfold n; lia).
  split; [| split; [| split]].
  - rewrite (Hat 0%nat inv_cost Hn').
    + f_equal. simpl. field.
    + unfold investments. destruct (Z.ltb_spec tech_life proj_life).
      * rewrite list_lookup_insert_ne by lia.
        apply list_lookup_insert_eq. rewrite repeat_length. lia.
      * apply list_lookup_insert_eq. rewrite repeat_length. lia.
  - intros k [Hk0 Hkn] Hk. rewrite (Hat k 0%R Hkn).
    + f_equal. unfold Rdiv. ring.
    + unfold investments. destruct (tech_life <? proj_life)%Z;
        rewrite !list_lookup_insert_ne by lia; by apply Hzero.
  - intros Hlt. rewrite (Hat (Z.to_nat tech_life) inv_cost); [reflexivity | unfold n; lia |].
    unfold investments. destruct (Z.ltb_spec tech_life proj_life); [| lia].
    apply list_lookup_insert_eq. rewrite length_insert, repeat_length. unfold n. lia.
  - intros Hge k [Hk0 Hkn]. rewrite (Hat k 0%R Hkn).
    + f_equal. unfold Rdiv. ring.
    + unfold investments. destruct (Z.ltb_spec tech_life proj_life); [lia |].
      rewrite list_lookup_insert_ne by lia. by apply Hzero.
Qed.

(** C1. [net_costs] returns nothing: whatever [project_life] and [raster]
    are bound to and whatever the inputs, the call raises, because [cost]
    calls [discounted_fuel_cost] without its fifth argument (when
    [discounted_inv] and [discounted_om] have not raised before).  For
    the technology of the scenario of the specification the exception is
    the [NameError] of [discounted_inv]. *)
Theorem net_costs_always_raises :
  (forall (surface : Type) project_life (raster : option (technology.raster_module surface))
          fuel discount_rate_tech tech meals_per_year road_friction lpg
          start_year end_year discount_rate_social hhsize_R hhsize_U vsl
          value_of_time walking_friction forest sfu,
     raises (technology.net_costs project_life raster fuel discount_rate_tech
               tech meals_per_year road_friction lpg start_year end_year
               discount_rate_social hhsize_R hhsize_U vsl value_of_time
               walking_friction forest sfu)) /\
  technology.net_costs (surface := unit) None None 10 0.05 scenario_technology
    1000 tt tt 2020 2030 0.03 5 4 100000 1 tt tt None
    = Raise (NameError "project_life").
Proof.
  split; [| reflexivity].
  intros. unfold technology.net_costs. apply raises_bind_l.
  unfold technology.cost.
  apply raises_bind_r; [apply finishes_discounted_inv |]. intros inv.
  apply raises_bind_r; [apply finishes_discounted_om |]. intros om.
  apply raises_bind_r; [apply finishes_np_op |]. intros s.
  apply raises_bind_l. exists TypeError. reflexivity.
Qed.

(** ** The cohort loops *)

Lemma getitem_1 :
  technology.getitem technology.cl_alri 1 = Ok 0.7%R /\
  technology.getitem technology.cl_copd 1 = Ok 0.3%R /\
  technology.getitem technology.cl_lc 1 = Ok 0.2%R /\
  technology.getitem technology.cl_ihd 1 = Ok 0.2%R.
Proof. repeat split; reflexivity. Qed.

Lemma py_pow_int_nonzero x n :
  x <> 0%R -> exists d, py_pow_int x n = Ok d /\ d <> 0%R.
Proof.
  intros Hx. exists (powerRZ x n). split; [| by apply powerRZ_NOR].
  unfold py_pow_int. destruct (n <? 0)%Z; [| reflexivity].
  destruct (Req_dec_T x 0); [contradiction | reflexivity].
Qed.

Lemma discounted_cohort_1 cl w unit cases r start_year end_year :
  technology.getitem cl 1 = Ok w -> (1 + r)%R <> 0%R ->
  exists x, technology.discounted_cohort cl 1 unit cases r start_year end_year = Ok x.
Proof.
  intros Hw Hr. unfold technology.discounted_cohort. rewrite Hw. simpl.
  destruct (py_pow_int_nonzero (1 + r) (end_year - start_year) Hr) as (d & -> & Hd).
  simpl. unfold py_div. destruct (Req_dec_T d 0); [contradiction | eauto].
Qed.

(** The loop [while i < 6] never leaves [i = 1]: whatever the fuel, it is
    used up. *)
Lemma cohort_loop_runs_on u1 u2 u3 u4 c1 c2 c3 c4 c5 c6 c7 c8 r start_year end_year :
  (1 + r)%R <> 0%R ->
  forall fuel U_vector R_vector,
    while_loop fuel technology.cohort_cond
      (technology.cohort_body u1 u2 u3 u4 c1 c2 c3 c4 c5 c6 c7 c8 r
         start_year end_year)
      (1%Z, U_vector, R_vector) = OutOfFuel.
Proof.
  intros Hr. destruct getitem_1 as (Ha & Hc & Hl & Hi).
  induction fuel as [| fuel IH]; intros U_vector R_vector; [reflexivity |].
  cbn [while_loop technology.cohort_cond]. change (1 <? 6)%Z with true. cbv iota.
  unfold technology.cohort_body at 1.
  repeat match goal with
  | |- context [technology.discounted_cohort ?cl 1 ?u ?c r start_year end_year] =>
      let x := fresh "x" in let Hx := fresh "Hx" in
      destruct (discounted_cohort_1 cl _ u c r start_year end_year
                  ltac:(eassumption) Hr) as [x Hx];
      rewrite Hx; cbn [mbind outcome_bind]
  end.
  apply IH.
Qed.

Lemma paf_defined sfu rr :
  (sfu * (rr - 1) + 1)%R <> 0%R -> exists p, technology.paf sfu rr = Ok p.
Proof.
  intros H. unfold technology.paf, py_div.
  destruct (Req_dec_T (sfu * (rr - 1) + 1) 0); [contradiction | eauto].
Qed.

(** C3. Once [morbidity] and [mortality] have reached their loop (all
    arguments passed, a numeric [pm25], attributable fractions and a
    discount factor that do not divide by zero), they never leave it:
    with every amount of fuel the loop is still running, so no sum over
    five cohorts is returned. *)
Theorem cohort_loops_never_finish
    (fuel : nat) (start_year end_year : Z) (tech : gmap string value)
    (discount_rate_social hhsize_R hhsize_U : R)
    (coi_alri coi_lc coi_copd coi_ihd inci_alri inci_lc inci_copd inci_ihd : R)
    (vsl mort_ihd mort_lc mort_alri mort_copd : R)
    (sfu : option R) (pm25 : R) :
  technology.getattr tech "pm25" ≫= as_R = Ok pm25 ->
  (1 + discount_rate_social)%R <> 0%R ->
  (default 1 sfu * (technology.rr_alri pm25 - 1) + 1)%R <> 0%R ->
  (default 1 sfu * (technology.rr_copd pm25 - 1) + 1)%R <> 0%R ->
  (default 1 sfu * (technology.rr_ihd pm25 - 1) + 1)%R <> 0%R ->
  (default 1 sfu * (technology.rr_lc pm25 - 1) + 1)%R <> 0%R ->
  technology.morbidity fuel start_year end_year tech
    (Some discount_rate_social) (Some hhsize_R) (Some hhsize_U)
    (Some coi_alri) (Some coi_lc) (Some coi_copd) (Some coi_ihd)
    (Some inci_alri) (Some inci_lc) (Some inci_copd) (Some inci_ihd) sfu
    = OutOfFuel
  /\
  technology.mortality fuel start_year end_year tech
    (Some discount_rate_social) (Some hhsize_R) (Some hhsize_U)
    (Some vsl) (Some mort_ihd) (Some mort_lc) (Some mort_alri)
    (Some mort_copd) sfu
    = OutOfFuel.
Proof.
  intros Hpm Hr Ha Hc Hi Hl.
  destruct (paf_defined _ _ Ha) as [pa Hpa].
  destruct (paf_defined _ _ Hc) as [pc Hpc].
  destruct (paf_defined _ _ Hi) as [pi Hpi].
  destruct (paf_defined _ _ Hl) as [pl Hpl].
  split.
  - unfold technology.morbidity. cbn [required mbind outcome_bind].
    rewrite Hpm. cbn [mbind outcome_bind].
    rewrite Hpa, Hpc, Hpi, Hpl. cbn [mbind outcome_bind].
    rewrite cohort_loop_runs_on by assumption. reflexivity.
  - unfold technology.mortality. cbn [required mbind outcome_bind].
    rewrite Hpm. cbn [mbind outcome_bind].
    rewrite Hpa, Hpc, Hpi, Hpl. cbn [mbind outcome_bind].
    rewrite cohort_loop_runs_on by assumption. reflexivity.
Qed.

Lemma rr_at_zero :
  technology.rr_alri 0 = 1%R /\ technology.rr_copd 0 = 1%R /\
  technology.rr_ihd 0 = 1%R /\ technology.rr_lc 0 = 1%R.
Proof.
  unfold technology.rr_alri, technology.rr_copd, technology.rr_ihd,
    technology.rr_lc.
  repeat split; match goal with |- context [Rlt_dec ?x ?y] =>
    destruct (Rlt_dec x y); [reflexivity | lra] end.
Qed.

(** The scenario of the specification, with every argument passed: the
    loops of [morbidity] and [mortality] use up a thousand steps. *)
Lemma cohort_loops_never_finish_witness :
  technology.morbidity 1000 2020 2030 scenario_technology
    (Some 0.03%R) (Some 5%R) (Some 4%R)
    (Some 100%R) (Some 100%R) (Some 100%R) (Some 100%R)
    (Some 0.1%R) (Some 0.1%R) (Some 0.1%R) (Some 0.1%R) None
    = OutOfFuel
  /\
  technology.mortality 1000 2020 2030 scenario_technology
    (Some 0.03%R) (Some 5%R) (Some 4%R)
    (Some 100000%R) (Some 0.01%R) (Some 0.01%R) (Some 0.01%R)
    (Some 0.01%R) None
    = OutOfFuel.
Proof.
  destruct rr_at_zero as (Ha & Hc & Hi & Hl).
  apply (cohort_loops_never_finish _ _ _ _ _ _ _ _ _ _ _ _ _ _ _ _ _ _ _ _ _ 0%R);
    [reflexivity | lra | | | |]; simpl;
    rewrite ?Ha, ?Hc, ?Hi, ?Hl; lra.
Defined.

(** ** Masking *)

(** In general: of the names that a selection gives for one category,
    [get_layers] keeps the last. *)
Lemma comprehension_keeps_last registry category by_name names name l :
  onsstove.dict_get registry category = Ok by_name ->
  (forall x, x ∈ names -> exists lx, onsstove.dict_get by_name x = Ok lx) ->
  onsstove.dict_get by_name name = Ok l ->
  onsstove.comprehension registry [(category, names ++ [name])]
    = Ok [(category, [(name, l)])].
Proof.
  intros Hcat Hnames Hname. unfold onsstove.comprehension.
  cbn [onsstove.for_each].
  assert (Hset : forall (d : list (string * onsstove.layer)) acc,
            acc = [] \/ (exists d', acc = [(category, d')]) ->
            onsstove.dict_set category d acc = [(category, d)]).
  { intros d acc [-> | [d' ->]]; simpl; [reflexivity |].
    by rewrite String.eqb_refl. }
  assert (Hloop : forall acc,
            acc = [] \/ (exists d', acc = [(category, d')]) ->
            onsstove.for_each
              (fun acc name =>
                 l ← onsstove.dict_get registry category
                     ≫= (fun d => onsstove.dict_get d name);
                 Ok (onsstove.dict_set category [(name, l)] acc))
              acc (names ++ [name])
            = Ok [(category, [(name, l)])]).
  { rewrite Hcat. cbn [mbind outcome_bind].
    induction names as [| x names IH]; intros acc Hacc.
    - simpl. rewrite Hname. simpl. by rewrite Hset.
    - destruct (Hnames x) as [lx Hx]; [apply elem_of_cons; by left |].
      cbn [app onsstove.for_each].
      rewrite Hx. cbn [mbind outcome_bind].
      apply IH; [intros y Hy; apply Hnames; apply elem_of_cons; by right |].
      right. eexists. by apply Hset. }
  rewrite Hloop by (by left). reflexivity.
Qed.

(** C9. For the selection [{'demand': ['a', 'b']}] on a registry that
    holds both layers, [mask_layers] masks layer [b] and its friction
    raster and never touches layer [a], whereas the selection ['all']
    masks both; without a mask boundary it raises. *)
Theorem mask_layers_keeps_last_name_only :
  onsstove.mask_layers two_layers (onsstove.Mapping [("demand", ["a"; "b"])])
    = Ok [onsstove.Makedirs "output/demand/b";
          onsstove.MaskCall "b" "boundary" "output/demand/b";
          onsstove.MaskCall "b_friction" "boundary" "output/demand/b"]
  /\
  onsstove.mask_layers two_layers onsstove.All
    = Ok [onsstove.Makedirs "output/demand/a";
          onsstove.MaskCall "a" "boundary" "output/demand/a";
          onsstove.Makedirs "output/demand/b";
          onsstove.MaskCall "b" "boundary" "output/demand/b";
          onsstove.MaskCall "b_friction" "boundary" "output/demand/b"]
  /\
  (forall self sel,
     onsstove.mask_layer self = None ->
     onsstove.mask_layers self sel
       = Raise (Exception_ onsstove.mask_message)).
Proof.
  split; [reflexivity | split; [reflexivity |]].
  intros self sel H. unfold onsstove.mask_layers. rewrite H. reflexivity.
Qed.


(** ** Configuration rows *)

Lemma for_each_raises {A St} (body : St -> A -> outcome St) (l : list A) (x : A) :
  x ∈ l -> (forall s, raises (body s x)) -> (forall s y, finishes (body s y)) ->
  forall s, raises (onsstove.for_each body s l).
Proof.
  intros Hin Hx Hfin. induction l as [| y l IH]; intros s.
  - by apply elem_of_nil in Hin.
  - apply elem_of_cons in Hin as [<- | Hin]; simpl.
    + by apply raises_bind_l.
    + apply raises_bind_r; [apply Hfin | intros s'; by apply IH].
Qed.

Lemma finishes_scenario_row int_ float_ config r :
  finishes (onsstove.scenario_row int_ float_ config r).
Proof.
  unfold onsstove.scenario_row, onsstove.py_int, onsstove.py_float,
    onsstove.py_str.
  finish.
Qed.

Lemma finishes_setitem self idx v : finishes (technology.setitem self idx v).
Proof. unfold technology.setitem. finish. Qed.

#[local] Hint Resolve finishes_setitem : finishes.

Lemma finishes_tech_row int_ float_ techs r :
  finishes (onsstove.tech_row int_ float_ techs r).
Proof.
  unfold onsstove.tech_row, onsstove.tech_assign, onsstove.py_int,
    onsstove.py_float, onsstove.py_str.
  finish.
Qed.

Lemma tech_assign_key techs fuel param v t :
  techs !! fuel = Some t -> param ∈ technology.setitem_keys ->
  onsstove.tech_assign techs fuel param v
    = Ok (<[fuel := <[param := v]> t]> techs).
Proof.
  intros Ht Hk. unfold onsstove.tech_assign. rewrite Ht.
  by rewrite (setitem_key _ _ _ Hk).
Qed.

Lemma tech_assign_other techs fuel param v t :
  techs !! fuel = Some t -> param ∉ technology.setitem_keys ->
  onsstove.tech_assign techs fuel param v = Raise (KeyError (VStr param)).
Proof.
  intros Ht Hk. unfold onsstove.tech_assign. rewrite Ht.
  by rewrite (setitem_other _ _ _ Hk).
Qed.

(** The table in which [tech_row] assigns: the technology of the fuel is
    there, fresh if it was not. *)
Lemma tech_row_table (techs : gmap string (gmap string value)) (fuel : string) :
  let techs' :=
    match techs !! fuel with
    | None => <[fuel := technology.Technology_default]> techs
    | Some _ => techs
    end in
  techs' !! fuel = Some (default technology.Technology_default (techs !! fuel))
  /\ forall t, <[fuel := t]> techs' = <[fuel := t]> techs.
Proof.
  destruct (techs !! fuel) as [t0 |] eqn:E; simpl.
  - by rewrite E.
  - split; [apply lookup_insert_eq | intros t; apply insert_insert_eq].
Qed.

(** C7, as amended.  A row with an empty [Value] is skipped, whatever its
    [data_type]; a row with a [Value] and the type [int], [float] or
    [string] stores the converted value under its [Param] — in the
    configuration for [read_scenario_data], in the technology of its
    [Fuel] for [read_tech_data], where a [Param] that is none of the
    eleven keys raises [KeyError] — when the conversion succeeds; and a
    row with a [Value] and any other type makes both readers raise. *)
Theorem config_rows (int_ : string -> option Z) (float_ : string -> option Q) :
  (forall r, onsstove.Value r = "" ->
     (forall config, onsstove.scenario_row int_ float_ config r = Ok config) /\
     (forall techs, onsstove.tech_row int_ float_ techs r = Ok techs))
  /\
  (forall r v, onsstove.Value r <> "" ->
     onsstove.converted_value int_ float_ r = Some v ->
     (forall config,
        onsstove.scenario_row int_ float_ config r
          = Ok (<[onsstove.Param r := v]> config)) /\
     (forall techs, onsstove.Param r ∈ technology.setitem_keys ->
        onsstove.tech_row int_ float_ techs r
          = Ok (<[onsstove.Fuel r :=
                    <[onsstove.Param r := v]>
                      (default technology.Technology_default
                         (techs !! onsstove.Fuel r))]> techs)) /\
     (forall techs, onsstove.Param r ∉ technology.setitem_keys ->
        onsstove.tech_row int_ float_ techs r
          = Raise (KeyError (VStr (onsstove.Param r)))))
  /\
  (forall r, onsstove.Value r <> "" ->
     onsstove.data_type r ∉ ["int"; "float"; "string"] ->
     forall self rows, r ∈ rows ->
       raises (onsstove.read_scenario_data int_ float_ self rows) /\
       raises (onsstove.read_tech_data int_ float_ self rows)).
Proof.
  split; [| split].
  - intros r Hv. unfold onsstove.scenario_row, onsstove.tech_row.
    rewrite Hv. split; reflexivity.
  - intros r v Hv Hc. apply String.eqb_neq in Hv.
    unfold onsstove.converted_value in Hc.
    unfold onsstove.scenario_row, onsstove.tech_row, onsstove.py_int,
      onsstove.py_float, onsstove.py_str.
    rewrite Hv.
    destruct (String.eqb (onsstove.data_type r) "int");
      [| destruct (String.eqb (onsstove.data_type r) "float");
         [| destruct (String.eqb (onsstove.data_type r) "string");
            [| discriminate]]].
    1: destruct (int_ (onsstove.Value r)); [| discriminate].
    2: destruct (float_ (onsstove.Value r)); [| discriminate].
    all: simplify_eq/=; cbn [mbind outcome_bind].
    all: split; [reflexivity |].
    all: split; intros techs Hk;
      destruct (tech_row_table techs (onsstove.Fuel r)) as [Hl Hi].
    all: first [ rewrite (tech_assign_key _ _ _ _ _ Hl Hk); by rewrite Hi
               | by rewrite (tech_assign_other _ _ _ _ _ Hl Hk) ].
  - intros r Hv Ht self rows Hin.
    apply String.eqb_neq in Hv.
    rewrite !not_elem_of_cons in Ht. destruct Ht as (H1 & H2 & H3 & _).
    apply String.eqb_neq in H1, H2, H3.
    split.
    + unfold onsstove.read_scenario_data. apply raises_bind_l.
      apply (for_each_raises _ _ r Hin); [| apply finishes_scenario_row].
      intros s. unfold onsstove.scenario_row. rewrite Hv, H1, H2, H3.
      by eexists.
    + unfold onsstove.read_tech_data. apply raises_bind_l.
      apply (for_each_raises _ _ r Hin); [| apply finishes_tech_row].
      intros s. unfold onsstove.tech_row. rewrite Hv, H1, H2, H3.
      by eexists.
Qed.

(** C7 as it is stated fails twice.  A row without a [Value] is skipped
    by both readers although its [data_type] is none of the three; and
    [read_tech_data] stores nothing for an [int] row whose [Param] is
    [start_year]: it raises [KeyError]. *)
Lemma config_rows_counterexample :
  ((onsstove.data_type empty_row ∉ ["int"; "float"; "string"]) /\
   onsstove.read_scenario_data int_literal float_literal fresh [empty_row]
     = Ok (onsstove.set_specs fresh ∅) /\
   onsstove.read_tech_data int_literal float_literal fresh [empty_row]
     = Ok (onsstove.set_techs fresh ∅))
  /\
  (onsstove.data_type start_year_row = "int" /\
   onsstove.converted_value int_literal float_literal start_year_row
     = Some (VInt 2020) /\
   onsstove.read_tech_data int_literal float_literal fresh [start_year_row]
     = Raise (KeyError (VStr "start_year"))).
Proof.
  split; [split; [| split; reflexivity] | repeat split; reflexivity].
  rewrite !not_elem_of_cons. repeat split; [discriminate .. | apply not_elem_of_nil].
Qed.

(** A [float] row for [efficiency] reaches the technology of its fuel,
    and a row of type [bool] with a value stops both readers. *)
Lemma config_rows_witness :
  onsstove.tech_row int_literal float_literal ∅ efficiency_row
    = Ok (<["lpg" := <["efficiency" := VFloat (1 # 2)]>
                       technology.Technology_default]> ∅)
  /\
  raises (onsstove.read_scenario_data int_literal float_literal fresh
            [efficiency_row; bool_row])
  /\
  raises (onsstove.read_tech_data int_literal float_literal fresh
            [efficiency_row; bool_row]).
Proof.
  destruct (config_rows int_literal float_literal) as (_ & Hstore & Hfatal).
  split.
  - apply (Hstore efficiency_row (VFloat (1 # 2))); [discriminate | reflexivity |].
    repeat constructor.
  - apply (Hfatal bool_row); [discriminate | | repeat constructor].
    rewrite !not_elem_of_cons.
    repeat split; [discriminate .. | apply not_elem_of_nil].
Defined.

(** ** Population calibration *)

Lemma Qsum_scale (l : list Q) (f : Q) :
  (onsstove.Qsum (map (fun p => p * f) l) == onsstove.Qsum l * f)%Q.
Proof.
  induction l as [| p l IH]; simpl; [ring |]. rewrite IH. ring.
Qed.

(** C8. When the [Pop] column has a positive sum and the configured
    [Population_start_year] is positive, [calibrate_pop] returns; the
    table of the instance it leaves has a column [Calibrated_pop] in
    which every point has its [Pop] times [Population_start_year] over
    the total [Pop], and the column sums to [Population_start_year].
    The table has as many rows as before and the same [Pop], and the
    rest of the instance is as it was. *)
Theorem calibrate_pop_scales_to_total
    (self : onsstove.OnSSTOVE) (df : onsstove.frame) (Pop : list Q)
    (config : gmap string value) (v : value) (Population_start_year : Q) :
  onsstove.gdf self = Some df ->
  onsstove.columns df !! "Pop" = Some Pop ->
  onsstove.specs self = Some config ->
  config !! "Population_start_year" = Some v ->
  as_Q v = Ok Population_start_year ->
  (0 < onsstove.Qsum Pop)%Q ->
  (0 < Population_start_year)%Q ->
  exists self' df' Calibrated_pop,
    onsstove.calibrate_pop self = Ok self'
    /\ self' = onsstove.set_gdf self
                 (onsstove.set_column df "Calibrated_pop" Calibrated_pop)
    /\ onsstove.gdf self' = Some df'
    /\ onsstove.columns df' !! "Calibrated_pop" = Some Calibrated_pop
    /\ onsstove.columns df' !! "Pop" = Some Pop
    /\ onsstove.nrows df' = onsstove.nrows df
    /\ onsstove.specs self' = onsstove.specs self
    /\ Forall2
         (fun c p => c == p * Population_start_year / onsstove.Qsum Pop)%Q
         Calibrated_pop Pop
    /\ (onsstove.Qsum Calibrated_pop == Population_start_year)%Q.
Proof.
  intros Hdf HPop Hspecs Hkey Hv Htotal Hpos.
  set (C := map (fun p => p * (Population_start_year / onsstove.Qsum Pop))%Q Pop).
  exists (onsstove.set_gdf self (onsstove.set_column df "Calibrated_pop" C)),
    (onsstove.set_column df "Calibrated_pop" C), C.
  assert (Hne : ~ (onsstove.Qsum Pop == 0)%Q).
  { intros E. rewrite E in Htotal. by apply Qlt_irrefl in Htotal. }
  split; [| split; [reflexivity | split; [reflexivity |]]].
  { unfold onsstove.calibrate_pop, onsstove.get_gdf, onsstove.column,
      onsstove.spec.
    rewrite Hdf, Hspecs. cbn [mbind outcome_bind]. rewrite HPop, Hkey.
    cbn [mbind outcome_bind]. rewrite Hv. reflexivity. }
  split; [apply lookup_insert_eq |].
  split; [cbn; by rewrite lookup_insert_ne |].
  split; [reflexivity |]. split; [reflexivity |].
  split.
  - unfold C. generalize (onsstove.Qsum Pop) as total. intros total. clear.
    induction Pop as [| p Pop IH]; simpl; constructor; [| exact IH].
    unfold Qdiv. ring.
  - unfold C. rewrite Qsum_scale. field. exact Hne.
Qed.

(** The table of the scenario: 10000 people in one cell, 20000
    configured; the middle cell is calibrated to 20000. *)
Lemma calibrate_pop_scales_to_total_witness :
  exists self' df' Calibrated_pop,
    onsstove.calibrate_pop scenario = Ok self'
    /\ self' = onsstove.set_gdf scenario
                 (onsstove.set_column scenario_table "Calibrated_pop"
                    Calibrated_pop)
    /\ onsstove.gdf self' = Some df'
    /\ onsstove.columns df' !! "Calibrated_pop" = Some Calibrated_pop
    /\ onsstove.columns df' !! "Pop" = Some [0; 0; 0; 0; 10000; 0; 0; 0; 0]%Q
    /\ onsstove.nrows df' = onsstove.nrows scenario_table
    /\ onsstove.specs self' = onsstove.specs scenario
    /\ Forall2 (fun c p => c == p * 20000 / 10000)%Q Calibrated_pop
         [0; 0; 0; 0; 10000; 0; 0; 0; 0]%Q
    /\ (onsstove.Qsum Calibrated_pop == 20000)%Q.
Proof.
  apply (calibrate_pop_scales_to_total scenario scenario_table
           [0; 0; 0; 0; 10000; 0; 0; 0; 0]%Q scenario_specs (VInt 20000) 20000);
    reflexivity.
Defined.

(** ** Urban calibration *)

Lemma bind_Ok {A B} (m : outcome A) (f : A -> outcome B) (b : B) :
  m ≫= f = Ok b -> exists a, m = Ok a /\ f a = Ok b.
Proof. destruct m as [a | |]; simpl; [eauto | discriminate ..]. Qed.

Lemma finishes_urban_body clusters pop_tot urban_current st :
  finishes (onsstove.urban_body clusters pop_tot urban_current st).
Proof.
  destruct st as [[[urban_modelled factor] i] self].
  unfold onsstove.urban_body, onsstove.reclassify, onsstove.classify,
    onsstove.urban_population, onsstove.deref, onsstove.loc_set,
    onsstove.loc_get, onsstove.align_mask, onsstove.column, onsstove.get_gdf.
  finish.
Qed.

(** After an iteration that goes on, [i] has grown by one and is at most
    500. *)
Lemma urban_body_Continue clusters pop_tot urban_current
    urban_modelled factor i self urban_modelled' factor' i' self' :
  onsstove.urban_body clusters pop_tot urban_current
    (urban_modelled, factor, i, self)
    = Ok (Continue (urban_modelled', factor', i', self')) ->
  (i' = i + 1 /\ i' <= 500)%Z.
Proof.
  unfold onsstove.urban_body. intros H.
  repeat (apply bind_Ok in H as (? & _ & H)).
  destruct (500 <? i + 1)%Z eqn:E; [discriminate |].
  injection H as _ _ <- _. lia.
Qed.

(** The loop finishes within 501 runs of its body. *)
Lemma urban_loop_finishes clusters pop_tot urban_current :
  forall fuel urban_modelled factor i self,
    (1 <= fuel)%nat -> (501 - i <= Z.of_nat fuel)%Z ->
    finishes
      (while_loop fuel (onsstove.urban_cond urban_current)
         (onsstove.urban_body clusters pop_tot urban_current)
         (urban_modelled, factor, i, self)).
Proof.
  induction fuel as [| fuel IH]; intros urban_modelled factor i self H1 Hi;
    [lia |].
  cbn [while_loop].
  destruct (onsstove.urban_cond _ _); [| apply finishes_Ok].
  destruct (onsstove.urban_body _ _ _ _) as [[[[[um' f'] i'] self'] | s'] | e |] eqn:E.
  - apply urban_body_Continue in E as [-> Hle]. apply IH; lia.
  - apply finishes_Ok.
  - apply finishes_Raise.
  - by apply finishes_urban_body in E.
Qed.

(** C4. The loop of [calibrate_urban] always comes to an end, but not as
    the claim says: 501 units of fuel are enough for every input; with
    [clusters] bound by nothing, as in the module, the first run of the
    body raises [NameError] and no classification is returned; and with
    [clusters] bound to a table, a target that is not reached lets the
    body run 501 times, one more than the cap of 500. *)
Theorem calibrate_urban_ends_after_501 :
  (forall clusters self, finishes (onsstove.calibrate_urban clusters 501 self))
  /\
  onsstove.calibrate_urban None 501 (one_point_instance 10000)
    = Raise (NameError "clusters")
  /\
  iterations
    (onsstove.calibrate_urban (Some (onsstove.Table (clusters_table 1))) 501
       (one_point_instance 10000))
    = Some 501%Z.
Proof.
  split; [| split].
  - intros clusters self. unfold onsstove.calibrate_urban, onsstove.spec.
    finish. apply urban_loop_finishes; lia.
  - vm_compute. reflexivity.
  - vm_compute. reflexivity.
Qed.

Lemma Qltb_lt x y : Qltb x y = true <-> (x < y)%Q.
Proof.
  unfold Qltb. rewrite negb_true_iff, <- not_true_iff_false, Qle_bool_iff.
  split; [apply Qnot_le_lt | apply Qlt_not_le].
Qed.

Lemma urban_mask_cons pl dl factor size p P p' P' :
  onsstove.urban_mask pl dl factor size (p :: P) (p' :: P')
  = (Qltb (pl * factor) p && Qltb (dl * factor) (p' / size))
      :: onsstove.urban_mask pl dl factor size P P'.
Proof. reflexivity. Qed.

Lemma tier_reflect pl dl factor size p :
  Qltb (pl * factor) p && Qltb (dl * factor) (p / size) = true
  <-> tier pl dl factor size p.
Proof. unfold tier. by rewrite andb_true_iff, !Qltb_lt. Qed.

(** The [IsUrban] column after the three assignments of the body. *)
Lemma classes_of_column factor size (Population : list Q) :
  Forall2 (classified factor size)
    (zip_with (fun (b : bool) old => if b then 2%Q else old)
       (onsstove.urban_mask 50000 1500 factor size Population Population)
       (zip_with (fun (b : bool) old => if b then 1%Q else old)
          (onsstove.urban_mask 5000 350 factor size Population Population)
          (repeat 0%Q (length Population))))
    Population.
Proof.
  induction Population as [| p P IH]; [constructor |].
  cbn [length repeat]. rewrite !urban_mask_cons. cbn [zip_with].
  constructor; [| exact IH].
  unfold classified. rewrite <- !tier_reflect.
  destruct (Qltb (50000 * factor) p && Qltb (1500 * factor) (p / size));
    destruct (Qltb (5000 * factor) p && Qltb (350 * factor) (p / size));
    repeat split; try discriminate; try tauto; intros []; congruence.
Qed.

Lemma selected_by_mask (f : Q -> bool) (selector values : list Q) :
  map snd (filter (fun bx : bool * Q => fst bx = true)
             (zip (map f selector) values))
  = map snd (filter (fun uv : Q * Q => f (fst uv) = true)
               (zip selector values)).
Proof.
  revert values. induction selector as [| u sel IH]; intros [| x values];
    try reflexivity.
  cbn [map zip zip_with]. rewrite !filter_cons. cbn [fst].
  destruct (decide (f u = true)); cbn [map snd]; by rewrite IH.
Qed.


Lemma classify_column self df Population size old pl dl factor class :
  onsstove.gdf self = Some df ->
  onsstove.columns df !! "Population" = Some Population ->
  onsstove.cell_size self = Some size ->
  onsstove.columns df !! "IsUrban" = Some old ->
  onsstove.classify self pl dl factor class
  = Ok (onsstove.set_gdf self
          (onsstove.set_column df "IsUrban"
             (zip_with (fun (b : bool) o => if b then class else o)
                (onsstove.urban_mask pl dl factor size Population Population)
                old))).
Proof.
  intros Hdf HPop Hsize Hold.
  unfold onsstove.classify, onsstove.get_gdf, onsstove.loc_set, onsstove.column.
  rewrite Hdf, Hsize. cbn [mbind outcome_bind]. rewrite HPop.
  cbn [mbind outcome_bind]. rewrite Hold. reflexivity.
Qed.

(** The [IsUrban] column after the three assignments. *)
Lemma reclassify_classes self df Population size factor :
  onsstove.gdf self = Some df ->
  onsstove.columns df !! "Population" = Some Population ->
  length Population = onsstove.nrows df ->
  onsstove.cell_size self = Some size ->
  exists IsUrban,
    onsstove.reclassify self factor
      = Ok (onsstove.set_gdf self (onsstove.set_column df "IsUrban" IsUrban))
    /\ Forall2 (classified factor size) IsUrban Population.
Proof.
  intros Hdf HPop Hlen Hsize. eexists. split.
  - unfold onsstove.reclassify, onsstove.get_gdf. rewrite Hdf.
    cbn [mbind outcome_bind].
    set (df0 := onsstove.set_column df "IsUrban" _).
    rewrite (classify_column _ df0 Population size
               (repeat 0%Q (onsstove.nrows df)));
      [| reflexivity | by (unfold df0; cbn; rewrite lookup_insert_ne)
       | exact Hsize | apply lookup_insert_eq].
    cbn [mbind outcome_bind].
    set (c1 := zip_with _ _ _).
    set (df1 := onsstove.set_column df0 "IsUrban" c1).
    rewrite (classify_column _ df1 Population size c1);
      [| reflexivity | by (unfold df1, df0; cbn; rewrite !lookup_insert_ne)
       | exact Hsize | apply lookup_insert_eq].
    subst df1 df0. unfold onsstove.set_gdf, onsstove.set_column.
    cbn [onsstove.layers onsstove.output_directory onsstove.mask_layer
         onsstove.cell_size onsstove.specs onsstove.techs onsstove.gdf
         onsstove.nrows onsstove.columns].
    rewrite !insert_insert_eq. reflexivity.
  - rewrite <- Hlen. apply classes_of_column.
Qed.

(** C5.  In every iteration of the loop the three assignments leave
    every point with [IsUrban] = 2 exactly when its population exceeds
    [50000 * factor] and its population per cell size exceeds
    [1500 * factor], with 1 exactly when it exceeds [5000 * factor] and
    [350 * factor] and is not in class 2, and with 0 otherwise.  The
    modelled share is not computed: the line that sums [Calibrated_pop]
    takes its selector from the name [clusters], which the module binds
    nowhere, and the iteration ends there in [NameError], whatever the
    table and the configuration hold.  The cell size is a number other
    than 0. *)
Theorem urban_iteration
    (self : onsstove.OnSSTOVE) (df : onsstove.frame) (Population : list Q)
    (size factor : Q) :
  onsstove.gdf self = Some df ->
  onsstove.columns df !! "Population" = Some Population ->
  length Population = onsstove.nrows df ->
  onsstove.cell_size self = Some size ->
  ~ (size == 0)%Q ->
  exists IsUrban,
    onsstove.reclassify self factor
      = Ok (onsstove.set_gdf self (onsstove.set_column df "IsUrban" IsUrban)) /\
    Forall2 (classified factor size) IsUrban Population /\
    forall pop_tot urban_current urban_modelled i,
      onsstove.urban_body None pop_tot urban_current
        (urban_modelled, factor, i, self)
      = Raise (NameError "clusters").
Proof.
  intros Hdf HPop Hlen Hsize _.
  destruct (reclassify_classes self df Population size factor Hdf HPop Hlen Hsize)
    as (IsUrban & Hre & Hcl).
  exists IsUrban. split; [exact Hre |]. split; [exact Hcl |].
  intros pop_tot urban_current urban_modelled i.
  unfold onsstove.urban_body. rewrite Hre. reflexivity.
Qed.

(** Two points, of 10000 and of 100000 people, with [factor] 1 and cells
    of size 1: the first is given class 1 and the second, which exceeds
    the limits of class 1 as well, class 2; the run of the body ends in
    [NameError]. *)
Lemma urban_iteration_witness :
  exists IsUrban,
    onsstove.reclassify (points_instance [10000; 100000]%Q 110000) 1
      = Ok (onsstove.set_gdf (points_instance [10000; 100000]%Q 110000)
              (onsstove.set_column (points [10000; 100000]%Q) "IsUrban" IsUrban)) /\
    Forall2 (classified 1 1) IsUrban [10000%Q; 100000%Q] /\
    forall pop_tot urban_current urban_modelled i,
      onsstove.urban_body None pop_tot urban_current
        (urban_modelled, 1%Q, i, points_instance [10000; 100000]%Q 110000)
      = Raise (NameError "clusters").
Proof.
  apply (urban_iteration (points_instance [10000; 100000]%Q 110000)
           (points [10000; 100000]%Q) [10000%Q; 100000%Q] 1 1);
    [reflexivity | reflexivity | reflexivity | reflexivity | discriminate].
Defined.

(** * Further properties of [technology.py] *)

(** ** Relative risks and attributable fractions *)

Section saturating_bounds.

Local Open Scope R_scope.

Variables (c k a t : R).
Hypotheses (Hc : 0 < c) (Hk : k < 0) (Ha : 0 < a).

Lemma float_pow_nonneg x : 0 <= x -> 0 <= float_pow x a.
Proof.
  intros Hx. unfold float_pow. destruct (Req_dec_T x 0).
  - destruct (Req_dec_T a 0); lra.
  - unfold Rpower. left. apply exp_pos.
Qed.


Lemma saturating_bounds x : 1 <= saturating c k a t x < 1 + c.
Proof.
  unfold saturating. destruct (Rlt_dec x t) as [_ | Hge]; [lra |].
  pose proof (float_pow_nonneg (x - t) ltac:(lra)) as Hp.
  pose proof (exp_pos (k * float_pow (x - t) a)) as He.
  assert (exp (k * float_pow (x - t) a) <= 1).
  { rewrite <- exp_0. destruct (Req_dec_T (k * float_pow (x - t) a) 0) as [-> | Hne];
      [lra |].
    left. apply exp_increasing. nra. }
  nra.
Qed.


End saturating_bounds.

Lemma rr_bounds pm25 :
  (1 <= technology.rr_alri pm25 < 1 + 2.383 /\
   1 <= technology.rr_copd pm25 < 1 + 22.485 /\
   1 <= technology.rr_ihd pm25 < 1 + 2.538 /\
   1 <= technology.rr_lc pm25 < 1 + 152.496)%R.
Proof.
  repeat split.
  all: first
    [ apply (saturating_bounds 2.383 (-0.004) 1.193 7.298); lra
    | apply (saturating_bounds 22.485 (-0.001) 0.694 7.337); lra
    | apply (saturating_bounds 2.538 (-0.081) 0.466 7.505); lra
    | apply (saturating_bounds 152.496 (-0.000167) 0.76 7.345); lra ].
Qed.




Lemma paf_unit_interval sfu rr :
  (0 <= sfu)%R -> (1 <= rr)%R ->
  exists p, technology.paf sfu rr = Ok p /\ (0 <= p < 1)%R.
Proof.
  intros Hs Hr. unfold technology.paf, py_div.
  assert (0 <= sfu * (rr - 1))%R by nra.
  destruct (Req_dec_T (sfu * (rr - 1) + 1) 0); [lra |].
  eexists. split; [reflexivity |].
  assert (Hd : (0 < / (sfu * (rr - 1) + 1))%R) by (apply Rinv_0_lt_compat; lra).
  unfold Rdiv. split.
  - apply Rmult_le_pos; lra.
  - apply Rmult_lt_reg_r with (sfu * (rr - 1) + 1)%R; [lra |].
    rewrite Rmult_assoc, Rinv_l by lra. lra.
Qed.

(** X2. For a share of solid-fuel users that is not negative, the
    attributable fraction of every endpoint is defined at every
    concentration (the division never fails) and lies in [0, 1). *)
Theorem attributable_fractions_in_unit_interval (sfu pm25 : R) :
  (0 <= sfu)%R ->
  (exists p, technology.paf sfu (technology.rr_alri pm25) = Ok p /\ (0 <= p < 1)%R) /\
  (exists p, technology.paf sfu (technology.rr_copd pm25) = Ok p /\ (0 <= p < 1)%R) /\
  (exists p, technology.paf sfu (technology.rr_ihd pm25) = Ok p /\ (0 <= p < 1)%R) /\
  (exists p, technology.paf sfu (technology.rr_lc pm25) = Ok p /\ (0 <= p < 1)%R).
Proof.
  intros Hs.
  destruct (rr_bounds pm25) as (Ha & Hc & Hi & Hl).
  repeat split; apply paf_unit_interval; lra.
Qed.

Lemma attributable_fractions_in_unit_interval_witness :
  (exists p, technology.paf 1 (technology.rr_alri 25) = Ok p /\ (0 <= p < 1)%R) /\
  (exists p, technology.paf 1 (technology.rr_copd 25) = Ok p /\ (0 <= p < 1)%R) /\
  (exists p, technology.paf 1 (technology.rr_ihd 25) = Ok p /\ (0 <= p < 1)%R) /\
  (exists p, technology.paf 1 (technology.rr_lc 25) = Ok p /\ (0 <= p < 1)%R).
Proof. apply (attributable_fractions_in_unit_interval 1 25). lra. Defined.

(** ** The health functions *)

(** A run of the cohort body leaves [i] as it found it. *)
Lemma cohort_body_keeps_i u1 u2 u3 u4 c1 c2 c3 c4 c5 c6 c7 c8 r start_year
    end_year i U_vector R_vector c :
  technology.cohort_body u1 u2 u3 u4 c1 c2 c3 c4 c5 c6 c7 c8 r start_year
    end_year (i, U_vector, R_vector) = Ok c ->
  exists U_vector' R_vector', c = Continue (i, U_vector', R_vector').
Proof.
  unfold technology.cohort_body. intros H.
  repeat (apply bind_Ok in H as (? & _ & H)).
  injection H as <-. eauto.
Qed.

Lemma cohort_loop_never_returns u1 u2 u3 u4 c1 c2 c3 c4 c5 c6 c7 c8 r
    start_year end_year fuel :
  forall U_vector R_vector st,
    while_loop fuel technology.cohort_cond
      (technology.cohort_body u1 u2 u3 u4 c1 c2 c3 c4 c5 c6 c7 c8 r
         start_year end_year)
      (1%Z, U_vector, R_vector) <> Ok st.
Proof.
  induction fuel as [| fuel IH]; intros U_vector R_vector st; [discriminate |].
  cbn [while_loop technology.cohort_cond]. change (1 <? 6)%Z with true.
  cbv iota.
  destruct (technology.cohort_body _ _ _ _ _ _ _ _ _ _ _ _ _ _ _ _) as [c | e |] eqn:E;
    [| discriminate ..].
  apply cohort_body_keeps_i in E as (U' & R' & ->). apply IH.
Qed.

(** X3. [morbidity] and [mortality] return nothing, whatever they are
    given and however long they run: every call raises or is still in
    its loop. *)
Theorem health_functions_never_return :
  (forall fuel start_year end_year tech discount_rate_social hhsize_R hhsize_U
          coi_alri coi_lc coi_copd coi_ihd inci_alri inci_lc inci_copd
          inci_ihd sfu result,
     technology.morbidity fuel start_year end_year tech discount_rate_social
       hhsize_R hhsize_U coi_alri coi_lc coi_copd coi_ihd inci_alri inci_lc
       inci_copd inci_ihd sfu <> Ok result)
  /\
  (forall fuel start_year end_year tech discount_rate_social hhsize_R hhsize_U
          vsl mort_ihd mort_lc mort_alri mort_copd sfu result,
     technology.mortality fuel start_year end_year tech discount_rate_social
       hhsize_R hhsize_U vsl mort_ihd mort_lc mort_alri mort_copd sfu
       <> Ok result).
Proof.
  split; intros; intros H.
  - unfold technology.morbidity in H.
    repeat (apply bind_Ok in H as (? & ? & H)).
    match goal with
    | Hw : while_loop _ _ _ _ = Ok _ |- _ =>
        by apply cohort_loop_never_returns in Hw
    end.
  - unfold technology.mortality in H.
    repeat (apply bind_Ok in H as (? & ? & H)).
    match goal with
    | Hw : while_loop _ _ _ _ = Ok _ |- _ =>
        by apply cohort_loop_never_returns in Hw
    end.
Qed.

(** X4. [benefit] raises [TypeError] on every input.  Its call of
    [morbidity] passes seven arguments, the share of solid-fuel users as
    the seventh, where fourteen parameters have no default; its call of
    [mortality] passes eight where eleven have none.  Either call, taken
    alone, raises [TypeError] whatever is passed. *)
Theorem benefit_raises_TypeError :
  (forall fuel start_year end_year tech discount_rate_social hhsize_R
          hhsize_U sfu,
     technology.morbidity fuel start_year end_year tech
       (Some discount_rate_social) (Some hhsize_R) (Some hhsize_U) (Some sfu)
       None None None None None None None None
     = Raise TypeError)
  /\
  (forall fuel start_year end_year tech discount_rate_social hhsize_R
          hhsize_U vsl sfu,
     technology.mortality fuel start_year end_year tech
       (Some discount_rate_social) (Some hhsize_R) (Some hhsize_U) (Some vsl)
       (Some sfu) None None None None
     = Raise TypeError)
  /\
  (forall (surface : Type) (raster : option (technology.raster_module surface))
          fuel start_year end_year tech discount_rate_social hhsize_R hhsize_U
          vsl value_of_time walking_friction forest sfu,
     technology.benefit raster fuel start_year end_year tech
       discount_rate_social hhsize_R hhsize_U vsl value_of_time
       walking_friction forest sfu
     = Raise TypeError).
Proof. repeat split. Qed.

Lemma cohort_table_shares_out cl :
  cl ∈ [technology.cl_alri; technology.cl_copd; technology.cl_lc;
        technology.cl_ihd] ->
  shares_out cl.
Proof.
  intros Hcl. unfold shares_out.
  assert (Hkeys : forall i, is_Some (cl !! i) <-> (1 <= i <= 5)%Z).
  { intros i. rewrite !elem_of_cons, elem_of_nil in Hcl.
    destruct Hcl as [-> | [-> | [-> | [-> | []]]]];
      unfold technology.cl_alri, technology.cl_copd, technology.cl_lc,
        technology.cl_ihd; cbn [list_to_map foldr uncurry fst snd];
      rewrite !lookup_insert_is_Some, lookup_empty;
      pose proof (@is_Some_None R);
      (split; [intuition lia | intros Hi]);
      repeat match goal with
             | |- ?a = i \/ _ =>
                 destruct (decide (a = i)); [by left | right; split; [done |]]
             end; lia. }
  split; [| split].
  - intros i. rewrite <- Hkeys. unfold technology.getitem.
    destruct (cl !! i); split; intros [w H]; eauto; discriminate.
  - intros i Hi. unfold technology.getitem.
    destruct (cl !! i) eqn:E; [| reflexivity].
    exfalso. apply Hi, Hkeys. eauto.
  - rewrite !elem_of_cons, elem_of_nil in Hcl.
    destruct Hcl as [-> | [-> | [-> | [-> | []]]]];
      do 5 eexists; split_and!; try reflexivity; cbn [snd]; lra.
Qed.

(** X5. Each of the four tables of cohort weights has the keys 1 to 5 and
    no other, so that any other cohort number raises [KeyError], and its
    weights add up to 1. *)
Theorem cohort_weights_are_shares :
  Forall shares_out
    [technology.cl_alri; technology.cl_copd; technology.cl_lc;
     technology.cl_ihd].
Proof. apply Forall_forall. exact cohort_table_shares_out. Qed.

(** ** Carbon and time *)

(** X6. [carbon_emissions] fails fast with [ZeroDivisionError] when the
    efficiency or the energy content is 0; otherwise its value is
    18.2 times the carbon intensity over the square of the efficiency:
    the energy content cancels. *)
Theorem carbon_emissions_value (tech : gmap string value)
    (efficiency energy_content carbon_intensity : R) :
  technology.getattr tech "efficiency" ≫= as_R = Ok efficiency ->
  technology.getattr tech "energy_content" ≫= as_R = Ok energy_content ->
  technology.getattr tech "carbon_intensity" ≫= as_R = Ok carbon_intensity ->
  (efficiency = 0%R \/ energy_content = 0%R ->
   technology.carbon_emissions tech = Raise ZeroDivisionError) /\
  (efficiency <> 0%R -> energy_content <> 0%R ->
   technology.carbon_emissions tech
     = Ok (5 * (3.64 / efficiency) / energy_content
           * (carbon_intensity * energy_content / efficiency))%R /\
   (5 * (3.64 / efficiency) / energy_content
    * (carbon_intensity * energy_content / efficiency)
    = 18.2 * carbon_intensity / (efficiency * efficiency))%R).
Proof.
  intros He Hc Hi. unfold technology.carbon_emissions.
  rewrite He, Hc, Hi. cbn [mbind outcome_bind]. unfold py_div. split.
  - intros [-> | ->].
    + destruct (Req_dec_T 0 0); [reflexivity | lra].
    + destruct (Req_dec_T efficiency 0); [reflexivity |].
      cbn [mbind outcome_bind]. destruct (Req_dec_T 0 0); [reflexivity | lra].
  - intros Hne Hnc. destruct (Req_dec_T efficiency 0); [contradiction |].
    cbn [mbind outcome_bind].
    destruct (Req_dec_T energy_content 0); [contradiction |].
    cbn [mbind outcome_bind]. split; [reflexivity |].
    replace 3.64%R with (364 / 100)%R by lra.
    replace 18.2%R with (182 / 10)%R by lra. field; auto.
Qed.

(** The technology of the scenario has an energy content of 0. *)
Lemma carbon_emissions_value_witness :
  technology.carbon_emissions scenario_technology = Raise ZeroDivisionError.
Proof.
  apply (carbon_emissions_value scenario_technology 1 0 0);
    [reflexivity | reflexivity | reflexivity | by right].
Defined.

(** X7. For a technology whose name is not a biomass name, [time_save]
    does not look at [raster]: it values the cooking time, with two hours
    of collection added for the name [biogas]; for the names
    [traditional_biomass] and [improved_biomass] it raises [NameError]
    when [raster] is bound by nothing, and otherwise values twice the
    travel time plus 2.2 hours plus the cooking time at every point. *)
Theorem time_save_by_name (surface : Type)
    (raster : option (technology.raster_module surface))
    (tech : gmap string value) (name : value) (time_of_cooking value_of_time : R)
    (walking_friction forest : surface) :
  tech !! "name" = Some name ->
  technology.getattr tech "time_of_cooking" ≫= as_R = Ok time_of_cooking ->
  (name = VStr "biogas" ->
   technology.time_save raster tech value_of_time walking_friction forest
     = Ok (technology.Scalar ((2 + time_of_cooking) * value_of_time))) /\
  (name <> VStr "biogas" -> name <> VStr "traditional_biomass" ->
   name <> VStr "improved_biomass" ->
   technology.time_save raster tech value_of_time walking_friction forest
     = Ok (technology.Scalar ((0 + time_of_cooking) * value_of_time))) /\
  (name = VStr "traditional_biomass" \/ name = VStr "improved_biomass" ->
   match raster with
   | None =>
       technology.time_save raster tech value_of_time walking_friction forest
         = Raise (NameError "raster")
   | Some r =>
       forall travel,
         technology.travel_time r walking_friction forest = Ok travel ->
         technology.time_save raster tech value_of_time walking_friction forest
           = Ok (technology.Array
                   (map (fun t => (2 * t + 2.2 + time_of_cooking) * value_of_time)%R
                      travel))
   end).
Proof.
  intros Hname Hcook. unfold technology.time_save, technology.getattr in *.
  rewrite Hname. cbn [mbind outcome_bind].
  split; [| split].
  - intros ->. cbn [py_eqb]. rewrite String.eqb_refl. cbn [mbind outcome_bind].
    rewrite Hcook. reflexivity.
  - intros H1 H2 H3.
    assert (Hne : forall s, name <> VStr s -> py_eqb name (VStr s) = false).
    { intros s Hs. destruct name; try reflexivity. cbn [py_eqb].
      apply String.eqb_neq. congruence. }
    rewrite !Hne by assumption. cbn [orb mbind outcome_bind].
    rewrite Hcook. reflexivity.
  - intros Hbio.
    assert (Hb : py_eqb name (VStr "biogas") = false)
      by (destruct Hbio as [-> | ->]; reflexivity).
    assert (Ho : py_eqb name (VStr "traditional_biomass")
                 || py_eqb name (VStr "improved_biomass") = true)
      by (destruct Hbio as [-> | ->]; reflexivity).
    rewrite Hb, Ho. destruct raster as [r |]; [| reflexivity].
    intros travel Ht. cbn [technology.global mbind outcome_bind].
    rewrite Ht. cbn [mbind outcome_bind]. rewrite Hcook. cbn [mbind outcome_bind].
    rewrite map_map. reflexivity.
Qed.

(** The technology of the scenario has no name and no cooking time. *)
Lemma time_save_by_name_witness :
  technology.time_save (surface := unit) None scenario_technology 3 tt tt
    = Ok (technology.Scalar ((0 + 0) * 3)).
Proof.
  apply (time_save_by_name unit None scenario_technology VNone 0 3 tt tt);
    [reflexivity | reflexivity | discriminate ..].
Defined.

(** ** Discounted series *)

Lemma lookup_factors (r : R) (n k : nat) :
  (k < n)%nat ->
  map (fun y => ((1 + r) ^ y)%R) (seq 0 n) !! k = Some ((1 + r) ^ k)%R.
Proof.
  intros Hk. rewrite list_lookup_fmap, lookup_seq_lt by exact Hk. reflexivity.
Qed.

Lemma discount_factor_int r tech start_year end_year :
  tech !! "start_year" = Some (VInt start_year) ->
  tech !! "end_year" = Some (VInt end_year) ->
  let proj_life :=
    if (start_year =? end_year)%Z then 1%Z else (end_year - start_year)%Z in
  technology.discount_factor r tech
    = Ok (map (fun y => ((1 + r) ^ y)%R) (seq 0 (Z.to_nat proj_life)),
          VInt proj_life).
Proof.
  intros Hs He. unfold technology.discount_factor, technology.getattr.
  rewrite Hs, He. cbn [mbind outcome_bind py_eqb].
  destruct (start_year =? end_year)%Z; reflexivity.
Qed.

Lemma discount_factor_needs_start_year r tech :
  tech !! "start_year" = None ->
  technology.discount_factor r tech = Raise (AttributeError "start_year").
Proof.
  intros H. unfold technology.discount_factor, technology.getattr.
  by rewrite H.
Qed.

(** X8. A technology without the attribute [start_year] makes
    [discount_factor] raise [AttributeError].  For whole years it
    returns the project life, which is the difference of the years, or 1
    when they are equal, and one factor [(1 + r) ^ k] for every year [k]
    below it, so that the first factor is 1; when the end precedes the
    start the project life is negative and there is no factor at all. *)
Theorem discount_factor_series (r : R) :
  (forall tech : gmap string value,
     tech !! "start_year" = None ->
     technology.discount_factor r tech = Raise (AttributeError "start_year"))
  /\
  (forall (tech : gmap string value) (start_year end_year : Z),
     tech !! "start_year" = Some (VInt start_year) ->
     tech !! "end_year" = Some (VInt end_year) ->
     exists factors proj_life,
       technology.discount_factor r tech = Ok (factors, VInt proj_life) /\
       (start_year = end_year -> proj_life = 1%Z) /\
       (start_year <> end_year -> proj_life = (end_year - start_year)%Z) /\
       length factors = Z.to_nat proj_life /\
       (forall k, (k < Z.to_nat proj_life)%nat ->
                  factors !! k = Some ((1 + r) ^ k)%R) /\
       (end_year < start_year -> factors = [])%Z).
Proof.
  split; [apply discount_factor_needs_start_year |].
  intros tech start_year end_year Hs He. eexists _, _.
  split; [apply (discount_factor_int r tech start_year end_year Hs He) |].
  destruct (Z.eqb_spec start_year end_year) as [Heq | Hne].
  - split; [done |]. split; [done |].
    split; [by rewrite length_map, length_seq |].
    split; [apply lookup_factors | lia].
  - split; [done |]. split; [done |].
    split; [by rewrite length_map, length_seq |].
    split; [apply lookup_factors |].
    intros Hlt. replace (Z.to_nat (end_year - start_year)) with 0%nat by lia.
    reflexivity.
Qed.

Lemma discount_factor_series_witness :
  technology.discount_factor 0.05 technology.Technology_default
    = Raise (AttributeError "start_year")
  /\
  exists factors proj_life,
    technology.discount_factor 0.05 scenario_technology
      = Ok (factors, VInt proj_life) /\
    (2020 = 2030 -> proj_life = 1)%Z /\
    (2020 <> 2030 -> proj_life = 2030 - 2020)%Z /\
    length factors = Z.to_nat proj_life /\
    (forall k, (k < Z.to_nat proj_life)%nat ->
               factors !! k = Some ((1 + 0.05) ^ k)%R) /\
    (2030 < 2020 -> factors = [])%Z.
Proof.
  split.
  - apply (proj1 (discount_factor_series 0.05)). reflexivity.
  - apply (proj2 (discount_factor_series 0.05) scenario_technology
             2020%Z 2030%Z);
      reflexivity.
Defined.

Lemma np_full_int x n :
  (0 <= n)%Z -> np_full x (VInt n) = Ok (repeat x (Z.to_nat n)).
Proof. intros H. unfold np_full. destruct (Z.ltb_spec n 0); [lia | reflexivity]. Qed.

Lemma np_op_same_length f (a b : list R) :
  length a = length b -> np_op f a b = Ok (zip_with f a b).
Proof. intros H. unfold np_op. by rewrite H, Nat.eqb_refl. Qed.

Lemma lookup_map_repeat (f : R -> R) (x : R) (n k : nat) :
  (k < n)%nat -> map f (repeat x n) !! k = Some (f x).
Proof. intros H. by rewrite list_lookup_fmap, lookup_repeat. Qed.

(** X9. For whole years with the end not before the start and an
    efficiency other than 0, [discounted_meals] returns one entry per
    year of the project: the energy of a year, [meals_per_year * 3.64 /
    efficiency], divided by the factor of the year, except that year 0
    carries no energy when the project has more than one year.  An
    efficiency of 0 raises [ZeroDivisionError], and an end before the
    start raises [ValueError]. *)
Theorem discounted_meals_series (meals_per_year r : R)
    (tech : gmap string value) (start_year end_year : Z) (efficiency : R) :
  tech !! "start_year" = Some (VInt start_year) ->
  tech !! "end_year" = Some (VInt end_year) ->
  technology.getattr tech "efficiency" ≫= as_R = Ok efficiency ->
  let proj_life :=
    if (start_year =? end_year)%Z then 1%Z else (end_year - start_year)%Z in
  let energy := (meals_per_year * 3.64 / efficiency)%R in
  (efficiency = 0%R ->
   technology.discounted_meals meals_per_year r tech = Raise ZeroDivisionError)
  /\
  (efficiency <> 0%R -> (end_year < start_year)%Z ->
   technology.discounted_meals meals_per_year r tech = Raise ValueError)
  /\
  (efficiency <> 0%R -> (start_year <= end_year)%Z ->
   exists series,
     technology.discounted_meals meals_per_year r tech = Ok series /\
     length series = Z.to_nat proj_life /\
     (proj_life = 1%Z -> series = [energy]) /\
     ((1 < proj_life)%Z ->
        series !! 0%nat = Some 0%R /\
        forall k, (0 < k < Z.to_nat proj_life)%nat ->
                  series !! k = Some (energy / (1 + r) ^ k)%R)).
Proof.
  intros Hs He Heff proj_life energy.
  unfold technology.discounted_meals.
  rewrite (discount_factor_int r tech start_year end_year Hs He).
  fold proj_life. cbn [mbind outcome_bind]. rewrite Heff.
  cbn [mbind outcome_bind]. unfold py_div.
  destruct (Req_dec_T efficiency 0) as [Hz | Hnz].
  { split; [reflexivity | split; intros; contradiction]. }
  split; [intros; contradiction |]. cbn [mbind outcome_bind].
  fold energy. split.
  - intros _ Hlt. unfold np_ones, np_full, proj_life.
    destruct (Z.eqb_spec start_year end_year); [lia |].
    destruct (Z.ltb_spec (end_year - start_year) 0); [reflexivity | lia].
  - intros _ Hle.
    assert (Hn : (0 < proj_life)%Z).
    { unfold proj_life. destruct (Z.eqb_spec start_year end_year); lia. }
    unfold np_ones. rewrite np_full_int by lia. cbn [mbind outcome_bind].
    rewrite py_gt_int. cbn [mbind outcome_bind].
    set (n := Z.to_nat proj_life).
    set (factors := map (fun y => ((1 + r) ^ y)%R) (seq 0 n)).
    assert (Hlf : length factors = n)
      by (unfold factors; by rewrite length_map, length_seq).
    destruct (Z.ltb_spec 1 proj_life) as [Hgt | Hone].
    + rewrite np_setitem_in_range
        by (rewrite length_map, repeat_length; lia).
      cbn [mbind outcome_bind]. change (Z.to_nat 0) with 0%nat.
      rewrite np_op_same_length
        by (by rewrite length_insert, length_map, repeat_length, Hlf).
      eexists. split; [reflexivity |].
      split; [by rewrite length_zip_with, length_insert, length_map,
                repeat_length, Hlf, Nat.min_id |].
      split; [lia |]. intros _. split.
      * rewrite lookup_zip_with, list_lookup_insert_eq
          by (rewrite length_map, repeat_length; lia).
        unfold factors. rewrite lookup_factors by lia. cbn. f_equal. field.
      * intros k Hk. rewrite lookup_zip_with, list_lookup_insert_ne by lia.
        rewrite lookup_map_repeat by lia. unfold factors.
        rewrite lookup_factors by lia. cbn. by rewrite Rmult_1_r.
    + assert (H1 : proj_life = 1%Z) by lia.
      cbn [mbind outcome_bind]. subst n factors. rewrite H1.
      change (Z.to_nat 1) with 1%nat. cbn [seq map repeat pow].
      rewrite np_op_same_length by reflexivity.
      eexists. split; [reflexivity |]. split; [reflexivity |].
      split; [| lia]. intros _. cbn. f_equal. field.
Qed.

Lemma discounted_meals_series_witness :
  exists series,
    technology.discounted_meals 1000 0.05 scenario_technology = Ok series /\
    length series = Z.to_nat (2030 - 2020) /\
    ((2030 - 2020 = 1)%Z -> series = [(1000 * 3.64 / 1)%R]) /\
    ((1 < 2030 - 2020)%Z ->
       series !! 0%nat = Some 0%R /\
       forall k, (0 < k < Z.to_nat (2030 - 2020))%nat ->
                 series !! k = Some (1000 * 3.64 / 1 / (1 + 0.05) ^ k)%R).
Proof.
  apply (discounted_meals_series 1000 0.05 scenario_technology 2020 2030 1);
    [reflexivity | reflexivity | reflexivity | lra | lia].
Defined.

(** X10. Called without the meals, as [cost] calls it,
    [discounted_fuel_cost] raises [TypeError] for every technology.
    Called with them, for whole years, a discount rate other than -1 and
    a technology whose name is none of [electricity],
    [improved_biomass_purchased], [purchased_traditional_biomass] and
    [lpg], it returns a series of zeros, one per year of the project,
    whatever [project_life] and [raster] are bound to. *)
Theorem discounted_fuel_cost_without_fuel (surface : Type)
    (project_life : option value)
    (raster : option (technology.raster_module surface))
    (r : R) (tech : gmap string value) (road_friction lpg : surface) :
  technology.discounted_fuel_cost project_life raster r tech road_friction lpg
    None
    = Raise TypeError
  /\
  (forall (meals_per_year : R) (start_year end_year : Z) (name : value),
     tech !! "start_year" = Some (VInt start_year) ->
     tech !! "end_year" = Some (VInt end_year) ->
     tech !! "name" = Some name ->
     name <> VStr "electricity" ->
     name <> VStr "improved_biomass_purchased" ->
     name <> VStr "purchased_traditional_biomass" ->
     name <> VStr "lpg" ->
     (1 + r)%R <> 0%R ->
     let proj_life :=
       if (start_year =? end_year)%Z then 1%Z else (end_year - start_year)%Z in
     technology.discounted_fuel_cost project_life raster r tech road_friction
       lpg (Some meals_per_year)
     = Ok (repeat 0%R (Z.to_nat proj_life))).
Proof.
  split; [reflexivity |].
  intros meals_per_year start_year end_year name Hs He Hname H1 H2 H3 H4 _
    proj_life.
  unfold technology.discounted_fuel_cost. cbn [required mbind outcome_bind].
  rewrite (discount_factor_int r tech start_year end_year Hs He).
  fold proj_life. cbn [mbind outcome_bind].
  assert (Hg : technology.getattr tech "name" = Ok name)
    by (unfold technology.getattr; by rewrite Hname).
  rewrite Hg. cbn [mbind outcome_bind].
  assert (Hne : forall s, name <> VStr s -> py_eqb name (VStr s) = false).
  { intros s Hn. destruct name; try reflexivity. cbn [py_eqb].
    apply String.eqb_neq. congruence. }
  rewrite !Hne by assumption. cbn [orb mbind outcome_bind]. f_equal.
  generalize (Z.to_nat proj_life) as n. intros n. generalize 0%nat as k.
  induction n as [| n IH]; intros k; [reflexivity |].
  cbn [seq map repeat]. f_equal; [unfold Rdiv; apply Rmult_0_l | apply IH].
Qed.

Lemma discounted_fuel_cost_without_fuel_witness :
  technology.discounted_fuel_cost (surface := unit) None None 0.05
    scenario_technology tt tt None
    = Raise TypeError
  /\
  technology.discounted_fuel_cost (surface := unit) None None 0.05
    scenario_technology tt tt (Some 1000%R)
    = Ok (repeat 0%R (Z.to_nat (2030 - 2020))).
Proof.
  destruct (discounted_fuel_cost_without_fuel unit None None 0.05
              scenario_technology tt tt) as [Hnone Hsome].
  split; [exact Hnone |].
  apply (Hsome 1000%R 2020%Z 2030%Z VNone);
    [reflexivity | reflexivity | reflexivity | discriminate .. | lra].
Defined.

(** X11. A technology that has its years but no attribute [om_costs] -
    and [__init__] creates [om_cost], which is another name - makes
    [discounted_om] raise [AttributeError], whatever [project_life] is
    bound to. *)
Theorem discounted_om_reads_om_costs (project_life : option value) (r : R)
    (tech : gmap string value) (start_year end_year : Z) :
  tech !! "start_year" = Some (VInt start_year) ->
  tech !! "end_year" = Some (VInt end_year) ->
  tech !! "om_costs" = None ->
  technology.discounted_om project_life r tech
    = Raise (AttributeError "om_costs").
Proof.
  intros Hs He Hom. unfold technology.discounted_om.
  rewrite (discount_factor_int r tech start_year end_year Hs He).
  cbn [mbind outcome_bind]. unfold technology.getattr. by rewrite Hom.
Qed.

Lemma discounted_om_reads_om_costs_witness :
  technology.discounted_om (Some (VInt 10)) 0.05 scenario_technology
    = Raise (AttributeError "om_costs").
Proof.
  apply (discounted_om_reads_om_costs (Some (VInt 10)) 0.05
           scenario_technology 2020 2030); reflexivity.
Defined.



(** * Further properties of [onsstove.py] *)

(** ** The registry of layers *)

Lemma dict_get_set_eq {V} (d : list (string * V)) k v :
  onsstove.dict_get (onsstove.dict_set k v d) k = Ok v.
Proof.
  induction d as [| [k' v'] d IH]; simpl.
  - by rewrite String.eqb_refl.
  - destruct (String.eqb_spec k k') as [-> | Hne]; simpl.
    + by rewrite String.eqb_refl.
    + apply String.eqb_neq in Hne. by rewrite Hne.
Qed.

Lemma dict_get_set_ne {V} (d : list (string * V)) k k' v :
  k <> k' ->
  onsstove.dict_get (onsstove.dict_set k v d) k' = onsstove.dict_get d k'.
Proof.
  intros Hne. induction d as [| [k0 v0] d IH]; simpl.
  - assert (String.eqb k' k = false) as -> by (apply String.eqb_neq; congruence).
    reflexivity.
  - destruct (String.eqb_spec k k0) as [-> | Hne0]; simpl.
    + assert (String.eqb k' k0 = false) as ->
        by (apply String.eqb_neq; congruence).
      reflexivity.
    + destruct (String.eqb k' k0); [reflexivity | exact IH].
Qed.

Lemma dict_set_fresh {V} (d : list (string * V)) k v :
  k ∉ map fst d -> onsstove.dict_set k v d = d ++ [(k, v)].
Proof.
  induction d as [| [k' v'] d IH]; intros Hk; [reflexivity |].
  cbn [map fst] in Hk. apply not_elem_of_cons in Hk as [Hne Hk].
  simpl. apply String.eqb_neq in Hne. rewrite Hne. by rewrite IH.
Qed.

Lemma registered_register registry category name l :
  onsstove.registered (onsstove.register registry category name l)
    category name = Ok l.
Proof.
  unfold onsstove.registered, onsstove.register.
  destruct (onsstove.dict_get registry category);
    rewrite dict_get_set_eq; cbn [mbind outcome_bind].
  - apply dict_get_set_eq.
  - simpl. by rewrite String.eqb_refl.
  - simpl. by rewrite String.eqb_refl.
Qed.

Lemma registered_register_other registry category name l category' name' l' :
  (category', name') <> (category, name) ->
  onsstove.registered (onsstove.register registry category name l)
    category' name' = Ok l'
  <-> onsstove.registered registry category' name' = Ok l'.
Proof.
  intros Hne. unfold onsstove.registered, onsstove.register.
  destruct (decide (category' = category)) as [-> | Hc].
  - assert (Hn : name <> name') by congruence.
    destruct (onsstove.dict_get registry category) as [by_name | e |] eqn:E;
      rewrite dict_get_set_eq; cbn [mbind outcome_bind].
    + by rewrite dict_get_set_ne.
    + simpl. assert (String.eqb name' name = false) as ->
        by (apply String.eqb_neq; congruence).
      split; discriminate.
    + simpl. assert (String.eqb name' name = false) as ->
        by (apply String.eqb_neq; congruence).
      split; discriminate.
  - destruct (onsstove.dict_get registry category);
      by rewrite dict_get_set_ne by congruence.
Qed.

(** X13. [add_layer] (with [base_layer=False]) accepts the layer types
    [vector] and [raster]: it makes the directory of the layer and
    registers the layer, so that selecting it by category and name gives
    it back; every other registered layer stays as it was, and no other
    pair becomes registered.  Any other layer type raises [NameError]. *)
Theorem add_layer_registers (self : onsstove.OnSSTOVE)
    (category name layer_type : string) (made : onsstove.layer) :
  (layer_type = "vector" \/ layer_type = "raster" ->
   exists self',
     onsstove.add_layer self category name layer_type made
       = Ok (self',
             [onsstove.Makedirs
                (onsstove.path_join (onsstove.output_directory self)
                   category name)]) /\
     onsstove.get_layers self' (onsstove.Mapping [(category, [name])])
       = Ok [(category, [(name, made)])] /\
     (forall category' name' l',
        (category', name') <> (category, name) ->
        onsstove.registered (onsstove.layers self') category' name' = Ok l'
        <-> onsstove.registered (onsstove.layers self) category' name' = Ok l') /\
     onsstove.mask_layer self' = onsstove.mask_layer self /\
     onsstove.gdf self' = onsstove.gdf self /\
     onsstove.specs self' = onsstove.specs self) /\
  (layer_type <> "vector" -> layer_type <> "raster" ->
   onsstove.add_layer self category name layer_type made
     = Raise (NameError "layer")).
Proof.
  split.
  - intros Ht. eexists. split; [| split; [| split]].
    + unfold onsstove.add_layer. destruct Ht as [-> | ->]; reflexivity.
    + cbn [onsstove.get_layers onsstove.comprehension onsstove.for_each
           onsstove.set_layers onsstove.layers mbind outcome_bind].
      pose proof (registered_register (onsstove.layers self) category name made)
        as Hr.
      unfold onsstove.registered in Hr. rewrite Hr. reflexivity.
    + intros category' name' l' Hne. by apply registered_register_other.
    + repeat split.
  - intros H1 H2. unfold onsstove.add_layer.
    apply String.eqb_neq in H1, H2. by rewrite H1, H2.
Qed.

Lemma add_layer_registers_witness :
  exists self',
    onsstove.add_layer two_layers "supply" "roads" "vector"
      {| onsstove.tag := "roads"; onsstove.friction := None |}
      = Ok (self', [onsstove.Makedirs "output/supply/roads"]) /\
    onsstove.get_layers self' (onsstove.Mapping [("supply", ["roads"])])
      = Ok [("supply",
             [("roads", {| onsstove.tag := "roads"; onsstove.friction := None |})])] /\
    (forall category' name' l',
       (category', name') <> ("supply", "roads") ->
       onsstove.registered (onsstove.layers self') category' name' = Ok l'
       <-> onsstove.registered (onsstove.layers two_layers) category' name'
           = Ok l') /\
    onsstove.mask_layer self' = onsstove.mask_layer two_layers /\
    onsstove.gdf self' = onsstove.gdf two_layers /\
    onsstove.specs self' = onsstove.specs two_layers.
Proof.
  apply (add_layer_registers two_layers "supply" "roads" "vector"). by left.
Defined.

(** The comprehension of [get_layers] on a selection of one name for each
    of its categories, started from the dictionary [acc]. *)
Lemma comprehension_single_names registry (m : list (string * string)) :
  NoDup (map fst m) ->
  (forall c n, (c, n) ∈ m -> exists l, onsstove.registered registry c n = Ok l) ->
  forall acc,
    (forall c, c ∈ map fst m -> c ∉ map fst acc) ->
    exists picked,
      onsstove.for_each
        (fun acc '(category, names) =>
           onsstove.for_each
             (fun acc name =>
                l ← onsstove.dict_get registry category
                    ≫= (fun d => onsstove.dict_get d name);
                Ok (onsstove.dict_set category [(name, l)] acc))
             acc names)
        acc (map (fun cn => (fst cn, [snd cn])) m)
      = Ok (acc ++ picked) /\
      Forall2
        (fun cn item =>
           fst item = fst cn /\
           exists l, onsstove.registered registry (fst cn) (snd cn) = Ok l /\
                     snd item = [(snd cn, l)])
        m picked.
Proof.
  induction m as [| [c n] m IH]; intros Hnd Hreg acc Hfresh.
  - exists []. split; [by rewrite app_nil_r | constructor].
  - cbn [map fst] in Hnd. apply NoDup_cons in Hnd as [Hc Hnd].
    destruct (Hreg c n) as [l Hl]; [apply elem_of_cons; by left |].
    cbn [map fst snd onsstove.for_each].
    unfold onsstove.registered in Hl. rewrite Hl. cbn [mbind outcome_bind].
    rewrite dict_set_fresh by (apply Hfresh, elem_of_cons; by left).
    destruct (IH Hnd) with (acc := acc ++ [(c, [(n, l)])])
      as (picked & Hrun & Hpicked).
    + intros c' n' Hin. apply Hreg, elem_of_cons. by right.
    + intros c' Hc'. rewrite map_app, elem_of_app. intros [Hin | Hin].
      * revert Hin. apply Hfresh. cbn [map fst]. apply elem_of_cons. by right.
      * cbn in Hin. apply list_elem_of_singleton in Hin as ->. contradiction.
    + exists ((c, [(n, l)]) :: picked). split.
      * rewrite Hrun. by rewrite <- app_assoc.
      * constructor; [| exact Hpicked]. cbn. split; [reflexivity |].
        exists l. split; [exact Hl | reflexivity].
Qed.

(** X14. A selection that names one layer for each of its categories,
    all of them registered, is kept whole by [get_layers]: the result has
    the categories of the selection in their order, each with exactly its
    named layer. *)
Theorem get_layers_single_names (self : onsstove.OnSSTOVE)
    (m : list (string * string)) :
  NoDup (map fst m) ->
  (forall c n, (c, n) ∈ m ->
     exists l, onsstove.registered (onsstove.layers self) c n = Ok l) ->
  exists picked,
    onsstove.get_layers self
      (onsstove.Mapping (map (fun cn => (fst cn, [snd cn])) m))
    = Ok picked /\
    Forall2
      (fun cn item =>
         fst item = fst cn /\
         exists l,
           onsstove.registered (onsstove.layers self) (fst cn) (snd cn) = Ok l /\
           snd item = [(snd cn, l)])
      m picked.
Proof.
  intros Hnd Hreg.
  destruct (comprehension_single_names (onsstove.layers self) m Hnd Hreg [])
    as (picked & Hrun & Hpicked).
  - intros c _. apply not_elem_of_nil.
  - exists picked. split; [exact Hrun | exact Hpicked].
Qed.

Lemma get_layers_single_names_witness :
  exists picked,
    onsstove.get_layers two_layers (onsstove.Mapping [("demand", ["a"])])
    = Ok picked /\
    Forall2
      (fun cn item =>
         fst item = fst cn /\
         exists l,
           onsstove.registered (onsstove.layers two_layers) (fst cn) (snd cn)
             = Ok l /\
           snd item = [(snd cn, l)])
      [("demand", "a")] picked.
Proof.
  apply (get_layers_single_names two_layers [("demand", "a")]).
  - repeat constructor. apply not_elem_of_nil.
  - intros c n Hin. apply list_elem_of_singleton in Hin as [= -> ->].
    eexists. reflexivity.
Defined.

Lemma for_each_outcome {A St} (body : St -> A -> outcome St) (l : list A)
    (P : exn -> Prop) :
  (forall s x, (exists s', body s x = Ok s') \/
               (exists e, body s x = Raise e /\ P e)) ->
  forall s, (exists s', onsstove.for_each body s l = Ok s') \/
            (exists e, onsstove.for_each body s l = Raise e /\ P e).
Proof.
  intros Hbody. induction l as [| x l IH]; intros s; simpl; [eauto |].
  destruct (Hbody s x) as [[s' ->] | (e & -> & He)]; simpl; eauto.
Qed.

Lemma for_each_Ok_each {A St} (body : St -> A -> outcome St) (l : list A) :
  forall s s', onsstove.for_each body s l = Ok s' ->
  forall x, x ∈ l -> exists s1 s2, body s1 x = Ok s2.
Proof.
  induction l as [| y l IH]; intros s s' H x Hin.
  - by apply elem_of_nil in Hin.
  - simpl in H. apply bind_Ok in H as (s1 & Hy & H).
    apply elem_of_cons in Hin as [-> | Hin]; [eauto | by eapply IH].
Qed.

Lemma dict_get_outcome {V} (d : list (string * V)) k :
  (exists v, onsstove.dict_get d k = Ok v) \/
  onsstove.dict_get d k = Raise (KeyError (VStr k)).
Proof.
  induction d as [| [k' v] d IH]; simpl; [by right |].
  destruct (String.eqb k k'); eauto.
Qed.

(** X15. A selection that names a layer which is not registered - its
    category missing from the registry, or its name from the category -
    makes [get_layers] raise [KeyError]; the selection ['all'] returns
    the registry as it is. *)
Theorem get_layers_missing_layer (self : onsstove.OnSSTOVE)
    (m : list (string * list string)) (category : string)
    (names : list string) (name : string) :
  (category, names) ∈ m ->
  name ∈ names ->
  (forall l, onsstove.registered (onsstove.layers self) category name <> Ok l) ->
  (exists key,
     onsstove.get_layers self (onsstove.Mapping m) = Raise (KeyError (VStr key)))
  /\ onsstove.get_layers self onsstove.All = Ok (onsstove.layers self).
Proof.
  intros Hm Hn Hmiss. split; [| reflexivity].
  cbn [onsstove.get_layers]. unfold onsstove.comprehension.
  set (inner := fun (c : string) acc (n : string) =>
         l ← onsstove.dict_get (onsstove.layers self) c
             ≫= (fun d => onsstove.dict_get d n);
         Ok (onsstove.dict_set c [(n, l)] acc)).
  set (P := fun e => exists key, e = KeyError (VStr key)).
  assert (Hinner : forall c s n,
            (exists s', inner c s n = Ok s') \/
            (exists e, inner c s n = Raise e /\ P e)).
  { intros c s n. unfold inner.
    destruct (dict_get_outcome (onsstove.layers self) c) as [[d ->] | ->];
      cbn [mbind outcome_bind]; [| right; eexists; split; [reflexivity | by eexists]].
    destruct (dict_get_outcome d n) as [[l ->] | ->]; cbn [mbind outcome_bind];
      [eauto | right; eexists; split; [reflexivity | by eexists]]. }
  match goal with
  | |- exists key, onsstove.for_each ?body ?s0 ?l = _ =>
      assert (Hbody : forall s x, (exists s', body s x = Ok s') \/
                                  (exists e, body s x = Raise e /\ P e))
        by (intros s [c ns]; apply for_each_outcome; apply Hinner);
      destruct (for_each_outcome body l P Hbody s0)
        as [[s' Hok] | (e & Hr & [key ->])]
  end.
  - exfalso.
    destruct (for_each_Ok_each _ _ _ _ Hok _ Hm) as (s1 & s2 & Hrow).
    cbn beta iota in Hrow.
    destruct (for_each_Ok_each _ _ _ _ Hrow _ Hn) as (s3 & s4 & Hname).
    apply bind_Ok in Hname as (l & Hl & _).
    by apply (Hmiss l).
  - by exists key.
Qed.

Lemma get_layers_missing_layer_witness :
  (exists key,
     onsstove.get_layers two_layers (onsstove.Mapping [("demand", ["a"; "c"])])
       = Raise (KeyError (VStr key)))
  /\ onsstove.get_layers two_layers onsstove.All
     = Ok (onsstove.layers two_layers).
Proof.
  apply (get_layers_missing_layer two_layers [("demand", ["a"; "c"])]
           "demand" ["a"; "c"] "c").
  - apply elem_of_cons. by left.
  - apply elem_of_cons. right. apply elem_of_cons. by left.
  - intros l. discriminate.
Defined.

(** ** Masking *)

(** X16. With a mask boundary in place, [mask_layers] on the selection
    ['all'] reaches every registered layer: it makes the directory of the
    layer, masks the layer, and masks its friction raster when it has
    one. *)
Theorem mask_layers_all_reaches_every_layer (self : onsstove.OnSSTOVE)
    (mask category : string) (by_name : list (string * onsstove.layer))
    (name : string) (l : onsstove.layer) :
  onsstove.mask_layer self = Some mask ->
  (category, by_name) ∈ onsstove.layers self ->
  (name, l) ∈ by_name ->
  exists events,
    onsstove.mask_layers self onsstove.All = Ok events /\
    let output_path :=
      onsstove.path_join (onsstove.output_directory self) category name in
    onsstove.Makedirs output_path ∈ events /\
    onsstove.MaskCall (onsstove.tag l) mask output_path ∈ events /\
    (forall f, onsstove.friction l = Some f ->
               onsstove.MaskCall f mask output_path ∈ events).
Proof.
  intros Hmask Hc Hn. unfold onsstove.mask_layers. rewrite Hmask.
  cbn [onsstove.get_layers mbind outcome_bind]. eexists. split; [reflexivity |].
  cbv zeta.
  assert (Hin : forall e,
    e ∈ [onsstove.Makedirs
           (onsstove.path_join (onsstove.output_directory self) category name);
         onsstove.MaskCall (onsstove.tag l) mask
           (onsstove.path_join (onsstove.output_directory self) category name)]
        ++ match onsstove.friction l with
           | Some f =>
               [onsstove.MaskCall f mask
                  (onsstove.path_join (onsstove.output_directory self)
                     category name)]
           | None => []
           end ->
    e ∈ flat_map
          (fun '(category, by_name) =>
             flat_map
               (fun '(name, l) =>
                  [onsstove.Makedirs
                     (onsstove.path_join (onsstove.output_directory self)
                        category name);
                   onsstove.MaskCall (onsstove.tag l) mask
                     (onsstove.path_join (onsstove.output_directory self)
                        category name)]
                  ++ match onsstove.friction l with
                     | Some f =>
                         [onsstove.MaskCall f mask
                            (onsstove.path_join (onsstove.output_directory self)
                               category name)]
                     | None => []
                     end)
               by_name)
          (onsstove.layers self)).
  { intros e He. apply list_elem_of_In, in_flat_map.
    exists (category, by_name). split; [by apply list_elem_of_In |].
    apply in_flat_map. exists (name, l).
    split; by apply list_elem_of_In. }
  split; [| split].
  - apply Hin, elem_of_app. left. apply elem_of_cons. by left.
  - apply Hin, elem_of_app. left. apply elem_of_cons. right.
    apply elem_of_cons. by left.
  - intros f Hf. apply Hin, elem_of_app. right. rewrite Hf.
    apply elem_of_cons. by left.
Qed.

Lemma mask_layers_all_reaches_every_layer_witness :
  exists events,
    onsstove.mask_layers two_layers onsstove.All = Ok events /\
    let output_path := onsstove.path_join "output" "demand" "b" in
    onsstove.Makedirs output_path ∈ events /\
    onsstove.MaskCall "b" "boundary" output_path ∈ events /\
    (forall f, Some "b_friction" = Some f ->
               onsstove.MaskCall f "boundary" output_path ∈ events).
Proof.
  apply (mask_layers_all_reaches_every_layer two_layers "boundary" "demand"
           [("a", {| onsstove.tag := "a"; onsstove.friction := None |});
            ("b", {| onsstove.tag := "b";
                     onsstove.friction := Some "b_friction" |})]
           "b" {| onsstove.tag := "b"; onsstove.friction := Some "b_friction" |}).
  - reflexivity.
  - apply elem_of_cons. by left.
  - apply elem_of_cons. right. apply elem_of_cons. by left.
Defined.

(** ** Configuration files *)

Lemma for_each_app {A St} (body : St -> A -> outcome St) (l1 l2 : list A) s :
  onsstove.for_each body s (l1 ++ l2)
  = onsstove.for_each body s l1 ≫= (fun s' => onsstove.for_each body s' l2).
Proof.
  revert s. induction l1 as [| x l1 IH]; intros s; simpl; [reflexivity |].
  destruct (body s x); simpl; [apply IH | reflexivity ..].
Qed.

Lemma scenario_row_Ok int_ float_ config r config' :
  onsstove.scenario_row int_ float_ config r = Ok config' ->
  (onsstove.Value r = "" /\ config' = config) \/
  (onsstove.Value r <> "" /\
   exists v, onsstove.converted_value int_ float_ r = Some v /\
             config' = <[onsstove.Param r := v]> config).
Proof.
  unfold onsstove.scenario_row, onsstove.converted_value, onsstove.py_int,
    onsstove.py_float, onsstove.py_str.
  destruct (String.eqb_spec (onsstove.Value r) "") as [Hv | Hv].
  - intros [= <-]. by left.
  - intros H. right. split; [exact Hv |].
    destruct (String.eqb (onsstove.data_type r) "int");
      [| destruct (String.eqb (onsstove.data_type r) "float");
         [| destruct (String.eqb (onsstove.data_type r) "string");
            [| discriminate]]].
    + destruct (int_ (onsstove.Value r)); [| discriminate].
      injection H as <-. eauto.
    + destruct (float_ (onsstove.Value r)); [| discriminate].
      injection H as <-. eauto.
    + injection H as <-. eauto.
Qed.

Lemma scenario_rows_keep int_ float_ (rows : list onsstove.row) (k : string) :
  (forall r, r ∈ rows -> onsstove.Value r = "" \/ onsstove.Param r <> k) ->
  forall config config',
    onsstove.for_each (onsstove.scenario_row int_ float_) config rows
      = Ok config' ->
    config' !! k = config !! k.
Proof.
  induction rows as [| r rows IH]; intros Hrows config config' H.
  - by injection H as <-.
  - simpl in H. apply bind_Ok in H as (c1 & Hr & H).
    rewrite (IH (fun r' Hin => Hrows r' (list_elem_of_further _ _ _ Hin)) _ _ H).
    apply scenario_row_Ok in Hr as [[_ ->] | (Hv & v & _ & ->)]; [reflexivity |].
    destruct (Hrows r (list_elem_of_here _ _)) as [He | Hne]; [contradiction |].
    by apply lookup_insert_ne.
Qed.

Lemma scenario_rows_source int_ float_ (rows : list onsstove.row) :
  forall config config',
    onsstove.for_each (onsstove.scenario_row int_ float_) config rows
      = Ok config' ->
    forall k v, config' !! k = Some v ->
      config !! k = Some v \/
      exists r, r ∈ rows /\ onsstove.Param r = k /\ onsstove.Value r <> "" /\
                onsstove.converted_value int_ float_ r = Some v.
Proof.
  induction rows as [| r rows IH]; intros config config' H k v Hk.
  - injection H as <-. by left.
  - simpl in H. apply bind_Ok in H as (c1 & Hr & H).
    destruct (IH _ _ H k v Hk) as [Hc1 | (r' & Hin & Hrest)].
    + apply scenario_row_Ok in Hr as [[_ ->] | (Hv & v' & Hconv & ->)];
        [by left |].
      destruct (decide (onsstove.Param r = k)) as [<- | Hne].
      * rewrite lookup_insert_eq in Hc1. injection Hc1 as ->.
        right. exists r. split; [apply list_elem_of_here | done].
      * rewrite lookup_insert_ne in Hc1 by done. by left.
    + right. exists r'. split; [by apply list_elem_of_further | done].
Qed.

(** X17. When [read_scenario_data] returns, the instance has a new
    configuration in place of the old one and is otherwise as before.
    In it every row with a value whose [Param] no later row with a value
    repeats is found under its [Param] with its converted value - of two
    rows for one [Param] the later wins - and every entry comes from a
    row with a value. *)
Theorem read_scenario_data_lookup (int_ : string -> option Z)
    (float_ : string -> option Q) (self self' : onsstove.OnSSTOVE)
    (rows : list onsstove.row) :
  onsstove.read_scenario_data int_ float_ self rows = Ok self' ->
  exists config,
    self' = onsstove.set_specs self config /\
    (forall before r after,
       rows = before ++ r :: after ->
       onsstove.Value r <> "" ->
       (forall r', r' ∈ after ->
          onsstove.Value r' = "" \/ onsstove.Param r' <> onsstove.Param r) ->
       exists v, onsstove.converted_value int_ float_ r = Some v /\
                 config !! onsstove.Param r = Some v) /\
    (forall k v, config !! k = Some v ->
       exists r, r ∈ rows /\ onsstove.Param r = k /\ onsstove.Value r <> "" /\
                 onsstove.converted_value int_ float_ r = Some v).
Proof.
  unfold onsstove.read_scenario_data. intros H.
  apply bind_Ok in H as (config & Hrun & [= <-]).
  exists config. split; [reflexivity |]. split.
  - intros before r after -> Hv Hafter.
    rewrite for_each_app in Hrun. apply bind_Ok in Hrun as (c1 & _ & Hrun).
    simpl in Hrun. apply bind_Ok in Hrun as (c2 & Hr & Hrun).
    apply scenario_row_Ok in Hr as [[He _] | (_ & v & Hconv & ->)];
      [contradiction |].
    exists v. split; [exact Hconv |].
    rewrite (scenario_rows_keep _ _ _ _ Hafter _ _ Hrun).
    apply lookup_insert_eq.
  - intros k v Hk.
    destruct (scenario_rows_source _ _ _ _ _ Hrun k v Hk) as [Hempty | Hrow];
      [by rewrite lookup_empty in Hempty | exact Hrow].
Qed.

Lemma read_scenario_data_lookup_witness :
  exists config,
    onsstove.set_specs fresh
      (<["tech_life" := VInt 15]> (<["tech_life" := VInt 10]> ∅))
    = onsstove.set_specs fresh config /\
    (forall before r after,
       [ {| onsstove.Fuel := ""; onsstove.Param := "tech_life";
            onsstove.Value := "10"; onsstove.data_type := "int" |};
         {| onsstove.Fuel := ""; onsstove.Param := "tech_life";
            onsstove.Value := "15"; onsstove.data_type := "int" |} ]
       = before ++ r :: after ->
       onsstove.Value r <> "" ->
       (forall r', r' ∈ after ->
          onsstove.Value r' = "" \/ onsstove.Param r' <> onsstove.Param r) ->
       exists v, onsstove.converted_value int_literal float_literal r = Some v /\
                 config !! onsstove.Param r = Some v) /\
    (forall k v, config !! k = Some v ->
       exists r,
         r ∈ [ {| onsstove.Fuel := ""; onsstove.Param := "tech_life";
                  onsstove.Value := "10"; onsstove.data_type := "int" |};
               {| onsstove.Fuel := ""; onsstove.Param := "tech_life";
                  onsstove.Value := "15"; onsstove.data_type := "int" |} ] /\
         onsstove.Param r = k /\ onsstove.Value r <> "" /\
         onsstove.converted_value int_literal float_literal r = Some v).
Proof.
  apply (read_scenario_data_lookup int_literal float_literal fresh).
  reflexivity.
Defined.

Lemma default_has_init_attributes :
  has_init_attributes technology.Technology_default.
Proof.
  intros a. rewrite <- elem_of_dom.
  unfold technology.Technology_default, technology.Technology_init,
    technology.setitem_keys.
  rewrite !dom_insert_L, dom_empty_L.
  rewrite !elem_of_union, !elem_of_singleton, elem_of_empty, !elem_of_cons,
    elem_of_nil.
  tauto.
Qed.

Lemma setitem_has_init_attributes t idx v t' :
  has_init_attributes t ->
  technology.setitem t idx v = Ok t' ->
  has_init_attributes t'.
Proof.
  intros Ht H.
  destruct (decide (idx ∈ technology.setitem_keys)) as [Hin | Hout].
  - rewrite (setitem_key _ _ _ Hin) in H. injection H as <-.
    intros a. rewrite lookup_insert_is_Some. specialize (Ht a).
    destruct (decide (idx = a)) as [<- | Hne].
    + split; [intros _; exact Hin | intros _; by left].
    + rewrite <- Ht. split; [intros [? | [_ ?]]; [contradiction | done] |].
      intros Hs. by right.
  - by rewrite (setitem_other _ _ _ Hout) in H.
Qed.

Lemma tech_row_Ok int_ float_ techs r techs' :
  onsstove.tech_row int_ float_ techs r = Ok techs' ->
  (onsstove.Value r = "" /\ techs' = techs) \/
  (onsstove.Value r <> "" /\
   exists v t',
     technology.setitem
       (default technology.Technology_default (techs !! onsstove.Fuel r))
       (onsstove.Param r) v = Ok t' /\
     techs' = <[onsstove.Fuel r := t']> techs).
Proof.
  unfold onsstove.tech_row.
  destruct (String.eqb_spec (onsstove.Value r) "") as [Hv | Hv].
  - intros [= <-]. by left.
  - intros H. right. split; [exact Hv |].
    destruct (tech_row_table techs (onsstove.Fuel r)) as [Hl Hi].
    assert (Hassign : exists v,
      onsstove.tech_assign
        match techs !! onsstove.Fuel r with
        | Some _ => techs
        | None => <[onsstove.Fuel r := technology.Technology_default]> techs
        end (onsstove.Fuel r) (onsstove.Param r) v = Ok techs').
    { destruct (String.eqb (onsstove.data_type r) "int");
        [| destruct (String.eqb (onsstove.data_type r) "float");
           [| destruct (String.eqb (onsstove.data_type r) "string");
              [| discriminate]]];
        apply bind_Ok in H as (v & _ & H); eauto. }
    destruct Hassign as [v Hassign]. unfold onsstove.tech_assign in Hassign.
    rewrite Hl in Hassign. apply bind_Ok in Hassign as (t' & Hset & [= <-]).
    exists v, t'. split; [exact Hset | apply Hi].
Qed.

Lemma tech_rows_invariant int_ float_ (rows : list onsstove.row) :
  forall techs techs',
    onsstove.for_each (onsstove.tech_row int_ float_) techs rows = Ok techs' ->
    (forall fuel t, techs !! fuel = Some t -> has_init_attributes t) ->
    forall fuel t, techs' !! fuel = Some t ->
      has_init_attributes t /\
      (is_Some (techs !! fuel) \/
       exists r, r ∈ rows /\ onsstove.Fuel r = fuel /\ onsstove.Value r <> "").
Proof.
  induction rows as [| r rows IH]; intros techs techs' H Hinv fuel t Ht.
  - injection H as <-. split; [by eapply Hinv | left; eauto].
  - simpl in H. apply bind_Ok in H as (t1 & Hr & H).
    assert (Hinv1 : forall fuel t, t1 !! fuel = Some t -> has_init_attributes t).
    { apply tech_row_Ok in Hr as [[_ ->] | (_ & v & t' & Hset & ->)];
        [exact Hinv |].
      intros f t0. rewrite lookup_insert_Some.
      intros [[_ <-] | [_ Hf]]; [| by eapply Hinv].
      eapply setitem_has_init_attributes; [| exact Hset].
      destruct (techs !! onsstove.Fuel r) eqn:E; simpl;
        [by eapply Hinv | apply default_has_init_attributes]. }
    destruct (IH _ _ H Hinv1 fuel t Ht) as [Hattr [Hold | (r' & Hin & Hr')]].
    + split; [exact Hattr |].
      apply tech_row_Ok in Hr as [[_ ->] | (Hv & v & t' & _ & ->)];
        [by left |].
      destruct (decide (onsstove.Fuel r = fuel)) as [Hf | Hf].
      * right. exists r. split; [apply list_elem_of_here | done].
      * left. by rewrite lookup_insert_ne in Hold.
    + split; [exact Hattr |]. right. exists r'.
      split; [by apply list_elem_of_further | exact Hr'].
Qed.

(** X18. When [read_tech_data] returns, the instance has a new table of
    technologies and is otherwise as before; every technology in the
    table has exactly the eleven attributes of [__init__], and its fuel
    is the [Fuel] of a row with a value. *)
Theorem read_tech_data_technologies (int_ : string -> option Z)
    (float_ : string -> option Q) (self self' : onsstove.OnSSTOVE)
    (rows : list onsstove.row) :
  onsstove.read_tech_data int_ float_ self rows = Ok self' ->
  exists table,
    self' = onsstove.set_techs self table /\
    forall fuel t, table !! fuel = Some t ->
      (forall a, is_Some (t !! a) <-> a ∈ technology.setitem_keys) /\
      exists r, r ∈ rows /\ onsstove.Fuel r = fuel /\ onsstove.Value r <> "".
Proof.
  unfold onsstove.read_tech_data. intros H.
  apply bind_Ok in H as (table & Hrun & [= <-]).
  exists table. split; [reflexivity |]. intros fuel t Ht.
  destruct (tech_rows_invariant _ _ _ _ _ Hrun) with (fuel := fuel) (t := t)
    as [Hattr [Hold | Hrow]]; try done.
  rewrite lookup_empty in Hold. by destruct Hold.
Qed.

Lemma read_tech_data_technologies_witness :
  exists table,
    onsstove.set_techs fresh
      (<["lpg" := <["efficiency" := VFloat (1 # 2)]>
                    technology.Technology_default]> ∅)
    = onsstove.set_techs fresh table /\
    forall fuel t, table !! fuel = Some t ->
      (forall a, is_Some (t !! a) <-> a ∈ technology.setitem_keys) /\
      exists r, r ∈ [efficiency_row] /\ onsstove.Fuel r = fuel /\
                onsstove.Value r <> "".
Proof.
  apply (read_tech_data_technologies int_literal float_literal fresh).
  reflexivity.
Defined.

(** X19. No technology that [read_tech_data] has read can be costed: it
    has no attribute [start_year], so that [discount_factor], [cost] and
    [net_costs] raise [AttributeError] on it, whatever the other
    arguments. *)
Theorem read_technologies_have_no_years (int_ : string -> option Z)
    (float_ : string -> option Q) (self self' : onsstove.OnSSTOVE)
    (rows : list onsstove.row) (table : gmap string (gmap string value))
    (fuel : string) (tech : gmap string value) :
  onsstove.read_tech_data int_ float_ self rows = Ok self' ->
  onsstove.techs self' = Some table ->
  table !! fuel = Some tech ->
  (forall r, technology.discount_factor r tech
             = Raise (AttributeError "start_year")) /\
  (forall (surface : Type) project_life
          (raster : option (technology.raster_module surface))
          r meals_per_year road_friction lpg,
     technology.cost project_life raster r tech meals_per_year road_friction lpg
     = Raise (AttributeError "start_year")) /\
  (forall (surface : Type) project_life
          (raster : option (technology.raster_module surface))
          steps r meals_per_year road_friction lpg start_year end_year
          discount_rate_social hhsize_R hhsize_U vsl value_of_time
          walking_friction forest sfu,
     technology.net_costs project_life raster steps r tech meals_per_year
       road_friction lpg start_year end_year discount_rate_social hhsize_R
       hhsize_U vsl value_of_time walking_friction forest sfu
     = Raise (AttributeError "start_year")).
Proof.
  unfold onsstove.read_tech_data. intros H Htable Ht.
  apply bind_Ok in H as (table' & Hrun & [= <-]).
  cbn in Htable. injection Htable as ->.
  destruct (tech_rows_invariant _ _ _ _ _ Hrun) with (fuel := fuel) (t := tech)
    as [Hattr _]; try done.
  assert (Hnone : tech !! "start_year" = None).
  { apply eq_None_not_Some. rewrite (Hattr "start_year").
    unfold technology.setitem_keys. rewrite !not_elem_of_cons.
    repeat split; [discriminate .. | apply not_elem_of_nil]. }
  assert (Hdf : forall r, technology.discount_factor r tech
                          = Raise (AttributeError "start_year"))
    by (intros r; by apply discount_factor_needs_start_year).
  split; [exact Hdf |].
  assert (Hcost : forall (surface : Type) project_life
            (raster : option (technology.raster_module surface))
            r meals_per_year road_friction lpg,
            technology.cost project_life raster r tech meals_per_year
              road_friction lpg = Raise (AttributeError "start_year")).
  { intros. unfold technology.cost, technology.discounted_inv.
    by rewrite Hdf. }
  split; [exact Hcost |].
  intros. unfold technology.net_costs. by rewrite Hcost.
Qed.

Lemma read_technologies_have_no_years_witness :
  onsstove.read_tech_data int_literal float_literal fresh [efficiency_row]
    = Ok (onsstove.set_techs fresh
            (<["lpg" := <["efficiency" := VFloat (1 # 2)]>
                          technology.Technology_default]> ∅)) /\
  technology.discount_factor 0.05
    (<["efficiency" := VFloat (1 # 2)]> technology.Technology_default)
  = Raise (AttributeError "start_year").
Proof.
  split; [reflexivity |].
  apply (read_technologies_have_no_years int_literal float_literal fresh
           (onsstove.set_techs fresh
              (<["lpg" := <["efficiency" := VFloat (1 # 2)]>
                            technology.Technology_default]> ∅))
           [efficiency_row]
           (<["lpg" := <["efficiency" := VFloat (1 # 2)]>
                         technology.Technology_default]> ∅)
           "lpg"); reflexivity.
Defined.

(** ** Population calibration *)

(** X20. [calibrate_pop] raises, in this order of precedence:
    [AttributeError] when no point table has been made, [KeyError] when
    the table has no column [Pop], [TypeError] when no configuration has
    been read, [KeyError] when the configuration has no
    [Population_start_year], and [TypeError] when that is a string or
    [None]. *)
Theorem calibrate_pop_errors (self : onsstove.OnSSTOVE) :
  (onsstove.gdf self = None ->
   onsstove.calibrate_pop self = Raise (AttributeError "gdf")) /\
  (forall df, onsstove.gdf self = Some df ->
     (onsstove.columns df !! "Pop" = None ->
      onsstove.calibrate_pop self = Raise (KeyError (VStr "Pop"))) /\
     (forall Pop, onsstove.columns df !! "Pop" = Some Pop ->
        (onsstove.specs self = None ->
         onsstove.calibrate_pop self = Raise TypeError) /\
        (forall config, onsstove.specs self = Some config ->
           (config !! "Population_start_year" = None ->
            onsstove.calibrate_pop self
              = Raise (KeyError (VStr "Population_start_year"))) /\
           (forall v, config !! "Population_start_year" = Some v ->
              v = VNone \/ (exists s, v = VStr s) ->
              onsstove.calibrate_pop self = Raise TypeError)))).
Proof.
  unfold onsstove.calibrate_pop, onsstove.get_gdf, onsstove.column,
    onsstove.spec.
  split; [intros ->; reflexivity |].
  intros df ->. cbn [mbind outcome_bind].
  split; [intros ->; reflexivity |].
  intros Pop ->. cbn [mbind outcome_bind].
  split; [intros ->; reflexivity |].
  intros config ->.
  split; [intros ->; reflexivity |].
  intros v -> [-> | [s ->]]; reflexivity.
Qed.

Lemma calibrate_pop_errors_witness :
  onsstove.gdf fresh = None /\
  onsstove.calibrate_pop fresh = Raise (AttributeError "gdf") /\
  onsstove.gdf (one_point_instance 10000) = Some (one_point 10000) /\
  onsstove.columns (one_point 10000) !! "Pop" = None /\
  onsstove.calibrate_pop (one_point_instance 10000)
    = Raise (KeyError (VStr "Pop")).
Proof.
  split; [reflexivity |].
  split; [apply (proj1 (calibrate_pop_errors fresh)); reflexivity |].
  split; [reflexivity |]. split; [reflexivity |].
  apply (proj1 (proj2 (calibrate_pop_errors (one_point_instance 10000))
                  (one_point 10000) eq_refl)).
  reflexivity.
Defined.

Lemma calibrate_pop_Ok (self self1 : onsstove.OnSSTOVE) :
  onsstove.calibrate_pop self = Ok self1 ->
  exists df Pop P,
    onsstove.gdf self = Some df /\
    onsstove.columns df !! "Pop" = Some Pop /\
    onsstove.spec self "Population_start_year" ≫= as_Q = Ok P /\
    self1 = onsstove.set_gdf self
              (onsstove.set_column df "Calibrated_pop"
                 (map (fun p => p * (P / onsstove.Qsum Pop))%Q Pop)).
Proof.
  unfold onsstove.calibrate_pop at 1. intros H.
  apply bind_Ok in H as (df & Hdf & H).
  apply bind_Ok in H as (Pop & HPop & H).
  apply bind_Ok in H as (P & HP & H).
  apply bind_Ok in H as (df' & Hdf' & H).
  apply bind_Ok in H as (Pop' & HPop' & H).
  rewrite Hdf in Hdf'. injection Hdf' as <-.
  rewrite HPop in HPop'. injection HPop' as <-.
  injection H as <-.
  unfold onsstove.get_gdf in Hdf.
  destruct (onsstove.gdf self) as [d |] eqn:Egdf; [| discriminate].
  injection Hdf as ->.
  unfold onsstove.column in HPop.
  destruct (onsstove.columns df !! "Pop") as [p |] eqn:EPop; [| discriminate].
  injection HPop as ->.
  by exists df, Pop, P.
Qed.

(** X21. Calibrating twice is calibrating once: when [calibrate_pop]
    returns, a second call returns the same instance; and the call
    changes nothing but the column [Calibrated_pop] of the table. *)
Theorem calibrate_pop_idempotent (self self1 : onsstove.OnSSTOVE) :
  onsstove.calibrate_pop self = Ok self1 ->
  onsstove.calibrate_pop self1 = Ok self1 /\
  exists df df1,
    onsstove.gdf self = Some df /\
    self1 = onsstove.set_gdf self df1 /\
    onsstove.nrows df1 = onsstove.nrows df /\
    forall name, name <> "Calibrated_pop" ->
                 onsstove.columns df1 !! name = onsstove.columns df !! name.
Proof.
  intros H.
  apply calibrate_pop_Ok in H as (df & Pop & P & Egdf & EPop & HP & ->).
  split.
  - unfold onsstove.calibrate_pop, onsstove.get_gdf, onsstove.column.
    cbn [onsstove.set_gdf onsstove.gdf onsstove.set_column onsstove.columns
         mbind outcome_bind].
    rewrite lookup_insert_ne, EPop by done. cbn [mbind outcome_bind].
    change (onsstove.spec _ "Population_start_year")
      with (onsstove.spec self "Population_start_year").
    rewrite HP.
    cbn [mbind outcome_bind]. unfold onsstove.set_gdf, onsstove.set_column.
    cbn [onsstove.layers onsstove.output_directory onsstove.mask_layer
         onsstove.cell_size onsstove.specs onsstove.techs onsstove.nrows
         onsstove.columns].
    by rewrite insert_insert_eq.
  - eexists _, _. split; [exact Egdf |]. split; [reflexivity |].
    split; [reflexivity |]. intros name Hne. cbn. by rewrite lookup_insert_ne.
Qed.

Lemma calibrate_pop_idempotent_witness :
  exists self1,
    onsstove.calibrate_pop scenario = Ok self1 /\
    onsstove.calibrate_pop self1 = Ok self1 /\
    exists df df1,
      onsstove.gdf scenario = Some df /\
      self1 = onsstove.set_gdf scenario df1 /\
      onsstove.nrows df1 = onsstove.nrows df /\
      forall name, name <> "Calibrated_pop" ->
                   onsstove.columns df1 !! name = onsstove.columns df !! name.
Proof.
  eexists. split; [reflexivity |].
  apply (calibrate_pop_idempotent scenario). reflexivity.
Defined.

(** ** Population points *)

Lemma where_row_values c (row : list (option Q)) :
  map snd (onsstove.where_row c row) = omap (fun v : option Q => v) row.
Proof.
  revert c. induction row as [| [v |] row IH]; intros c; simpl;
    [reflexivity | by rewrite IH | apply IH].
Qed.

Lemma where_valid_values r (g : onsstove.grid) :
  map snd (onsstove.where_valid r g) = omap (fun v : option Q => v) (concat g).
Proof.
  revert r. induction g as [| row g IH]; intros r; [reflexivity |].
  cbn [onsstove.where_valid concat].
  rewrite map_app, map_map, IH, omap_app. f_equal.
  rewrite <- (where_row_values 0 row). apply map_ext. reflexivity.
Qed.

Lemma where_row_cells c0 (row : list (option Q)) :
  Forall (fun cv => (c0 <= fst cv)%nat /\
                    row !! (fst cv - c0)%nat = Some (Some (snd cv)))
    (onsstove.where_row c0 row).
Proof.
  revert c0. induction row as [| [v |] row IH]; intros c0; simpl.
  - constructor.
  - constructor.
    + cbn. split; [lia |]. by rewrite Nat.sub_diag.
    + eapply Forall_impl; [apply (IH (S c0)) |].
      intros [c v'] [Hle Hl]. cbn in *. split; [lia |].
      replace (c - c0)%nat with (S (c - S c0)) by lia. exact Hl.
  - eapply Forall_impl; [apply (IH (S c0)) |].
    intros [c v'] [Hle Hl]. cbn in *. split; [lia |].
    replace (c - c0)%nat with (S (c - S c0)) by lia. exact Hl.
Qed.

Lemma where_valid_cells r0 (g : onsstove.grid) :
  Forall (fun rcv =>
            (r0 <= fst (fst rcv))%nat /\
            g !! (fst (fst rcv) - r0)%nat ≫= (fun row => row !! snd (fst rcv))
            = Some (Some (snd rcv)))
    (onsstove.where_valid r0 g).
Proof.
  revert r0. induction g as [| row g IH]; intros r0; [constructor |].
  cbn [onsstove.where_valid]. apply Forall_app. split.
  - apply Forall_fmap. eapply Forall_impl; [apply (where_row_cells 0 row) |].
    intros [c v] [_ Hl]. cbn in *. split; [lia |].
    rewrite Nat.sub_diag. cbn. by rewrite Nat.sub_0_r in Hl.
  - eapply Forall_impl; [apply (IH (S r0)) |].
    intros [[r c] v] [Hle Hl]. cbn in *. split; [lia |].
    replace (r - r0)%nat with (S (r - S r0)) by lia. exact Hl.
Qed.

Lemma read_cells_back (g : onsstove.grid) (cells : list (nat * nat * Q)) :
  Forall (fun rcv =>
            g !! fst (fst rcv) ≫= (fun row => row !! snd (fst rcv))
            = Some (Some (snd rcv)))
    cells ->
  onsstove.read_cells g (map (fun rcv => fst (fst rcv)) cells)
    (map (fun rcv => snd (fst rcv)) cells)
  = Ok (map (fun rcv => Some (snd rcv)) cells).
Proof.
  induction 1 as [| [[r c] v] cells Hcell _ IH]; [reflexivity |].
  cbn [map fst snd onsstove.read_cells] in *. rewrite Hcell, IH. reflexivity.
Qed.

(** X22. [population_to_dataframe] replaces the point table by one with a
    single column, [Pop], and one row for every cell of the raster that
    holds data: the column lists the values of these cells row by row,
    the index arrays and the geometry are as long as the column, reading
    the raster back at the index arrays gives the column again, and the
    rest of the instance stays as it was. *)
Theorem population_points (point : Type) (xy : nat -> nat -> point)
    (self : onsstove.OnSSTOVE) (layer : onsstove.grid) :
  let '(self', (rows, cols), geometry) :=
    onsstove.population_to_dataframe xy self layer in
  let Pop := omap (fun v : option Q => v) (concat layer) in
  self' = onsstove.set_gdf self
            {| onsstove.nrows := length Pop;
               onsstove.columns := <["Pop" := Pop]> ∅ |} /\
  length rows = length Pop /\
  length cols = length Pop /\
  length geometry = length Pop /\
  onsstove.read_cells layer rows cols = Ok (map Some Pop).
Proof.
  unfold onsstove.population_to_dataframe. cbv zeta.
  rewrite <- (where_valid_values 0 layer).
  rewrite length_zip_with, !length_map, Nat.min_id.
  repeat split.
  rewrite map_map. apply read_cells_back.
  eapply Forall_impl; [apply (where_valid_cells 0 layer) |].
  intros [[r c] v] [_ H]. cbn in *. by rewrite Nat.sub_0_r in H.
Qed.

(** X23. Extraction and calibration compose: on the table that
    [population_to_dataframe] makes of a raster whose values have a
    positive sum, with a positive [Population_start_year] configured,
    [calibrate_pop] returns, and the column [Calibrated_pop] has one
    entry for every cell with data and sums to [Population_start_year]. *)
Theorem extraction_then_calibrate_pop (point : Type) (xy : nat -> nat -> point)
    (self : onsstove.OnSSTOVE) (layer : onsstove.grid)
    (config : gmap string value) (v : value) (Population_start_year : Q) :
  onsstove.specs self = Some config ->
  config !! "Population_start_year" = Some v ->
  as_Q v = Ok Population_start_year ->
  (0 < Population_start_year)%Q ->
  (0 < onsstove.Qsum (omap (fun c : option Q => c) (concat layer)))%Q ->
  exists self2 df Calibrated_pop,
    onsstove.calibrate_pop
      (fst (fst (onsstove.population_to_dataframe xy self layer))) = Ok self2 /\
    onsstove.gdf self2 = Some df /\
    onsstove.columns df !! "Calibrated_pop" = Some Calibrated_pop /\
    length Calibrated_pop
      = length (omap (fun c : option Q => c) (concat layer)) /\
    onsstove.nrows df = length Calibrated_pop /\
    (onsstove.Qsum Calibrated_pop == Population_start_year)%Q.
Proof.
  intros Hspecs Hkey Hv Hpos Htotal.
  unfold onsstove.population_to_dataframe. cbv zeta. cbn [fst].
  rewrite (where_valid_values 0 layer).
  set (Pop := omap (fun c : option Q => c) (concat layer)) in *.
  assert (Hne : ~ (onsstove.Qsum Pop == 0)%Q).
  { intros E. rewrite E in Htotal. by apply Qlt_irrefl in Htotal. }
  eexists _, _, _. split; [| split; [| split; [| split; [| split]]]].
  - unfold onsstove.calibrate_pop, onsstove.get_gdf, onsstove.column,
      onsstove.spec.
    cbn [onsstove.set_gdf onsstove.gdf onsstove.specs onsstove.columns
         mbind outcome_bind].
    rewrite lookup_insert_eq, Hspecs, Hkey. cbn [mbind outcome_bind].
    rewrite Hv. reflexivity.
  - reflexivity.
  - cbn. apply lookup_insert_eq.
  - by rewrite length_map.
  - cbn. by rewrite length_map.
  - rewrite Qsum_scale. field. exact Hne.
Qed.

Lemma extraction_then_calibrate_pop_witness :
  exists self2 df Calibrated_pop,
    onsstove.calibrate_pop
      (fst (fst (onsstove.population_to_dataframe (fun r c => (r, c)) scenario
                   [[Some 0%Q; None]; [Some 10000%Q; Some 0%Q]])))
      = Ok self2 /\
    onsstove.gdf self2 = Some df /\
    onsstove.columns df !! "Calibrated_pop" = Some Calibrated_pop /\
    length Calibrated_pop
      = length (omap (fun c : option Q => c)
                  (concat [[Some 0%Q; None]; [Some 10000%Q; Some 0%Q]])) /\
    onsstove.nrows df = length Calibrated_pop /\
    (onsstove.Qsum Calibrated_pop == 20000)%Q.
Proof.
  apply (extraction_then_calibrate_pop _ (fun r c => (r, c)) scenario
           [[Some 0%Q; None]; [Some 10000%Q; Some 0%Q]] scenario_specs
           (VInt 20000) 20000); reflexivity.
Defined.

(** X24. The tables do not fit: [population_to_dataframe] and
    [calibrate_pop] make the columns [Pop] and [Calibrated_pop], and
    [calibrate_urban] reads [Population].  On an instance that they have
    prepared, [calibrate_urban] raises [KeyError] in its first iteration,
    whatever [clusters] is bound to, unless the target share is within
    0.01 of 2 and no iteration runs. *)
Theorem extraction_then_calibrate_urban (point : Type)
    (xy : nat -> nat -> point) (self self2 : onsstove.OnSSTOVE)
    (layer : onsstove.grid) (config : gmap string value) (u : value)
    (urban_current : Q) (clusters : option onsstove.table_ref) (fuel : nat) :
  onsstove.calibrate_pop
    (fst (fst (onsstove.population_to_dataframe xy self layer))) = Ok self2 ->
  onsstove.specs self = Some config ->
  config !! "Urban_start" = Some u ->
  as_Q u = Ok urban_current ->
  (0.01 < Qabs (2 - urban_current))%Q ->
  onsstove.calibrate_urban clusters (S fuel) self2
    = Raise (KeyError (VStr "Population")).
Proof.
  intros Hcal Hspecs Hkey Hu Hfar.
  apply calibrate_pop_Ok in Hcal as (df & Pop & P & Hdf & HPop & HP & ->).
  unfold onsstove.population_to_dataframe in Hdf, HP. cbv zeta in Hdf, HP.
  cbn [fst onsstove.set_gdf onsstove.gdf] in Hdf. injection Hdf as <-.
  unfold onsstove.spec in HP. cbn [fst onsstove.set_gdf onsstove.specs] in HP.
  rewrite Hspecs in HP.
  destruct (config !! "Population_start_year") as [v |] eqn:Ev; [| discriminate].
  unfold onsstove.calibrate_urban, onsstove.spec.
  unfold onsstove.population_to_dataframe. cbv zeta.
  cbn [fst onsstove.set_gdf onsstove.specs]. rewrite Hspecs, Ev, Hkey.
  cbn [mbind outcome_bind]. rewrite Hu. cbn [mbind outcome_bind while_loop].
  assert (Hcond : Qltb 0.01 (Qabs (2 - urban_current)) = true)
    by by apply Qltb_lt.
  cbn [onsstove.urban_cond onsstove.np_far]. rewrite Hcond.
  reflexivity.
Qed.

Lemma extraction_then_calibrate_urban_witness :
  exists self2,
    onsstove.calibrate_pop
      (fst (fst (onsstove.population_to_dataframe (fun r c => (r, c)) scenario
                   [[Some 0%Q; None]; [Some 10000%Q; Some 0%Q]])))
      = Ok self2 /\
    onsstove.calibrate_urban None 501 self2
      = Raise (KeyError (VStr "Population")).
Proof.
  eexists. split; [reflexivity |].
  apply (extraction_then_calibrate_urban _ (fun r c => (r, c)) scenario _
           [[Some 0%Q; None]; [Some 10000%Q; Some 0%Q]] scenario_specs
           (VFloat 0.5) 0.5 None 500); reflexivity.
Defined.

(** ** Urban calibration *)

Lemma urban_mask_lookup pl dl factor size (Population : list Q) (k : nat) :
  onsstove.urban_mask pl dl factor size Population Population !! k
  = (fun p => Qltb (pl * factor) p && Qltb (dl * factor) (p / size))
      <$> Population !! k.
Proof.
  revert k. induction Population as [| p P IH]; intros k; [by destruct k |].
  rewrite urban_mask_cons. destruct k as [| k]; [reflexivity | apply IH].
Qed.

Lemma limit_lt (low high factor x : Q) :
  (low < high)%Q -> (0 < factor)%Q -> (high * factor < x)%Q ->
  (low * factor < x)%Q.
Proof.
  intros Hlh Hf Hx. apply Qlt_trans with (high * factor)%Q; [| exact Hx].
  by apply Qmult_lt_compat_r.
Qed.

(** X25. While the factor is positive, a point that the second selector
    of the loop picks (class 2) is picked by the first as well (class
    1): the assignment of class 2 only ever raises points of class 1. *)
Theorem class_2_within_class_1 (factor size : Q) (Population : list Q)
    (k : nat) :
  (0 < factor)%Q ->
  onsstove.urban_mask 50000 1500 factor size Population Population !! k
    = Some true ->
  onsstove.urban_mask 5000 350 factor size Population Population !! k
    = Some true.
Proof.
  intros Hf. rewrite !urban_mask_lookup.
  destruct (Population !! k) as [p |]; [| discriminate]. cbn.
  intros [= H]. f_equal. apply andb_true_iff in H as [H1 H2].
  apply Qltb_lt in H1, H2. apply andb_true_iff.
  split; apply Qltb_lt.
  - by apply (limit_lt 5000 50000).
  - by apply (limit_lt 350 1500).
Qed.

Lemma class_2_within_class_1_witness :
  onsstove.urban_mask 5000 350 1 1 [100%Q; 100000%Q] [100%Q; 100000%Q]
    !! 1%nat
    = Some true.
Proof.
  apply (class_2_within_class_1 1 1 [100%Q; 100000%Q] 1); reflexivity.
Defined.

(** The assignments to [IsUrban] leave the instance as it was but for
    that column of its table. *)
Lemma classify_Ok self pl dl factor class self' :
  onsstove.classify self pl dl factor class = Ok self' ->
  exists df col,
    onsstove.gdf self = Some df /\
    self' = onsstove.set_gdf self (onsstove.set_column df "IsUrban" col).
Proof.
  unfold onsstove.classify, onsstove.get_gdf. intros H.
  destruct (onsstove.gdf self) as [df |]; [| discriminate].
  cbn [mbind outcome_bind] in H.
  apply bind_Ok in H as (P & _ & H). apply bind_Ok in H as (P' & _ & H).
  apply bind_Ok in H as (size & _ & H). apply bind_Ok in H as (df' & Hset & H).
  injection H as <-. unfold onsstove.loc_set in Hset.
  apply bind_Ok in Hset as (c & _ & [= <-]). eauto.
Qed.

Lemma set_IsUrban_twice self df col col' :
  onsstove.set_gdf
    (onsstove.set_gdf self (onsstove.set_column df "IsUrban" col))
    (onsstove.set_column (onsstove.set_column df "IsUrban" col) "IsUrban" col')
  = onsstove.set_gdf self (onsstove.set_column df "IsUrban" col').
Proof.
  unfold onsstove.set_gdf, onsstove.set_column.
  cbn [onsstove.layers onsstove.output_directory onsstove.mask_layer
       onsstove.cell_size onsstove.specs onsstove.techs onsstove.gdf
       onsstove.nrows onsstove.columns].
  by rewrite insert_insert_eq.
Qed.

Lemma reclassify_Ok self factor self' :
  onsstove.reclassify self factor = Ok self' ->
  exists df col,
    onsstove.gdf self = Some df /\
    self' = onsstove.set_gdf self (onsstove.set_column df "IsUrban" col).
Proof.
  unfold onsstove.reclassify, onsstove.get_gdf. intros H.
  destruct (onsstove.gdf self) as [df |] eqn:E; [| discriminate].
  cbn [mbind outcome_bind] in H.
  apply bind_Ok in H as (self1 & H1 & H2).
  apply classify_Ok in H1 as (df1 & c1 & Hdf1 & ->).
  apply classify_Ok in H2 as (df2 & c2 & Hdf2 & ->).
  cbn in Hdf1, Hdf2. injection Hdf1 as <-. injection Hdf2 as <-.
  exists df, c2. split; [reflexivity |]. by rewrite !set_IsUrban_twice.
Qed.

(** A run of the body that returns: [clusters] is bound, the factor
    stays positive, [i] has grown by one, and the instance differs in
    the column [IsUrban] only. *)
Lemma urban_body_Ok clusters pop_tot urban_current urban_modelled factor i
    self c :
  onsstove.urban_body clusters pop_tot urban_current
    (urban_modelled, factor, i, self) = Ok c ->
  exists df col urban_modelled' factor',
    onsstove.gdf self = Some df /\
    clusters <> None /\
    ((0 < factor)%Q -> (0 < factor')%Q) /\
    state_of c
      = (urban_modelled', factor', (i + 1)%Z,
         onsstove.set_gdf self (onsstove.set_column df "IsUrban" col)) /\
    (c = Break (state_of c) /\ (500 < i + 1)%Z \/
     c = Continue (state_of c) /\ (i + 1 <= 500)%Z).
Proof.
  unfold onsstove.urban_body. intros H.
  apply bind_Ok in H as (self2 & Hre & H).
  apply bind_Ok in H as (pop_urb & Hurb & H).
  apply bind_Ok in H as (total & Htotal & H).
  apply reclassify_Ok in Hre as (df & col & Hdf & ->).
  assert (Hcl : clusters <> None).
  { intros ->. unfold onsstove.urban_population in Hurb.
    apply bind_Ok in Hurb as (d & _ & Hurb). discriminate. }
  set (um := onsstove.np_div pop_urb total) in *.
  exists df, col, um,
    (if onsstove.np_gt um urban_current then factor * 1.1 else factor * 0.9)%Q.
  split; [exact Hdf |]. split; [exact Hcl |].
  split.
  { intros Hf. destruct (onsstove.np_gt um urban_current);
      (apply Qmult_lt_0_compat; [exact Hf | reflexivity]). }
  destruct (Z.ltb_spec 500 (i + 1)); injection H as <-;
    (split; [reflexivity |]); [left | right]; split; (reflexivity || lia).
Qed.

(** What the loop leaves when it ends, from any state it can be in. *)
Lemma urban_loop_Ok clusters pop_tot urban_current :
  forall fuel urban_modelled factor i self urban_modelled' factor' i' self',
    (0 < factor)%Q -> (i <= 500)%Z ->
    while_loop fuel (onsstove.urban_cond urban_current)
      (onsstove.urban_body clusters pop_tot urban_current)
      (urban_modelled, factor, i, self)
      = Ok (urban_modelled', factor', i', self') ->
    (0 < factor')%Q /\ (i <= i' <= 501)%Z /\
    ((i' = i /\ urban_modelled' = urban_modelled /\ factor' = factor /\
      self' = self) \/
     ((i < i')%Z /\ clusters <> None /\
      exists df col,
        onsstove.gdf self = Some df /\
        self' = onsstove.set_gdf self (onsstove.set_column df "IsUrban" col))).
Proof.
  induction fuel as [| fuel IH];
    intros um factor i self um' factor' i' self' Hf Hi H; [discriminate |].
  cbn [while_loop] in H.
  destruct (onsstove.urban_cond urban_current (um, factor, i, self)).
  2:{ injection H as <- <- <- <-. split; [exact Hf |].
      split; [lia |]. left. by repeat split. }
  destruct (onsstove.urban_body _ _ _ _) as [c | |] eqn:E; [| discriminate ..].
  apply urban_body_Ok in E
    as (df & col & um1 & f1 & Hdf & Hcl & Hpos & Hst & Hc).
  destruct Hc as [[Hb Hi'] | [Hb Hi']]; rewrite Hb, Hst in H.
  - injection H as <- <- <- <-. split; [auto |]. split; [lia |].
    right. split; [lia |]. split; [exact Hcl |]. eauto.
  - apply IH in H as (Hf' & Hii & Hcase); [| auto | lia].
    split; [exact Hf' |]. split; [lia |]. right.
    split; [lia |]. split; [exact Hcl |].
    destruct Hcase as [(_ & _ & _ & ->) | (_ & _ & df1 & col1 & Hdf1 & ->)];
      [eauto |].
    cbn [onsstove.set_gdf onsstove.gdf] in Hdf1. injection Hdf1 as <-.
    exists df, col1. split; [exact Hdf |]. apply set_IsUrban_twice.
Qed.

(** X26. When [calibrate_urban] returns, the body of its loop has run
    [i] times, between 0 and 501, and the factor is positive.  With
    [i = 0] the loop has not been entered: the share is the initial 2,
    the factor 1 and the instance untouched.  Otherwise [clusters] is
    bound to something, and the instance differs from the one of the
    call in the column [IsUrban] of its table only.  So on the module as
    it is, with [clusters] bound by nothing, a call that returns has
    classified nothing. *)
Theorem calibrate_urban_returns (clusters : option onsstove.table_ref)
    (fuel : nat) (self self' : onsstove.OnSSTOVE)
    (urban_modelled : onsstove.float64) (factor : Q) (i : Z) :
  onsstove.calibrate_urban clusters fuel self
    = Ok (urban_modelled, factor, i, self') ->
  (0 <= i <= 501)%Z /\ (0 < factor)%Q /\
  (i = 0%Z ->
   urban_modelled = onsstove.Finite 2 /\ factor = 1%Q /\ self' = self) /\
  ((0 < i)%Z ->
   clusters <> None /\
   exists df col,
     onsstove.gdf self = Some df /\
     self' = onsstove.set_gdf self (onsstove.set_column df "IsUrban" col)) /\
  (clusters = None -> i = 0%Z).
Proof.
  unfold onsstove.calibrate_urban. intros H.
  apply bind_Ok in H as (pop_tot & _ & H).
  apply bind_Ok in H as (u & _ & H).
  apply bind_Ok in H as (urban_current & _ & H).
  apply urban_loop_Ok in H as (Hf & Hi & Hcase); [| reflexivity | lia].
  split; [exact Hi |]. split; [exact Hf |].
  destruct Hcase as [(-> & -> & -> & ->) | (Hlt & Hcl & Hdf)].
  - split; [done |]. split; [lia | done].
  - split; [lia |]. split; [done |]. intros ->. by destruct Hcl.
Qed.

(** Three points and a target of one half, with [clusters] bound to the
    table of the instance: the loop ends by its guard after eight runs
    of its body. *)
Lemma calibrate_urban_returns_witness :
  exists urban_modelled factor self',
    onsstove.calibrate_urban (Some onsstove.Gdf) 501
      (points_instance [100000; 10000; 90000]%Q 200000)
      = Ok (urban_modelled, factor, 8%Z, self') /\
    (0 < factor)%Q /\
    exists df col,
      onsstove.gdf (points_instance [100000; 10000; 90000]%Q 200000) = Some df /\
      self' = onsstove.set_gdf
                (points_instance [100000; 10000; 90000]%Q 200000)
                (onsstove.set_column df "IsUrban" col).
Proof.
  do 3 eexists. split; [vm_compute; reflexivity |].
  edestruct (calibrate_urban_returns (Some onsstove.Gdf) 501
               (points_instance [100000; 10000; 90000]%Q 200000))
    as (_ & Hf & _ & Hon & _); [vm_compute; reflexivity |].
  split; [exact Hf |]. apply Hon. reflexivity.
Defined.

(** X27. With [clusters] bound to the table of the instance, a run of
    the body returns, and the share it models follows the classes it
    has just assigned: it is the sum of [Calibrated_pop] over the points
    of class 2, those above both limits of that class, divided by the
    configured [Population_start_year] as numpy divides.  The points of
    class 1 are not counted. *)
Theorem urban_share_of_own_table
    (self : onsstove.OnSSTOVE) (df : onsstove.frame)
    (Population Calibrated_pop : list Q) (size factor : Q)
    (pop_tot : value) (total urban_current : Q)
    (urban_modelled : onsstove.float64) (i : Z) :
  onsstove.gdf self = Some df ->
  onsstove.columns df !! "Population" = Some Population ->
  length Population = onsstove.nrows df ->
  onsstove.columns df !! "Calibrated_pop" = Some Calibrated_pop ->
  onsstove.cell_size self = Some size ->
  ~ (size == 0)%Q ->
  as_Q pop_tot = Ok total ->
  exists IsUrban r factor',
    onsstove.urban_body (Some onsstove.Gdf) pop_tot urban_current
      (urban_modelled, factor, i, self) = Ok r /\
    Forall2 (classified factor size) IsUrban Population /\
    state_of r
      = (onsstove.np_div (sum_where_above_1 IsUrban Calibrated_pop) total,
         factor', (i + 1)%Z,
         onsstove.set_gdf self (onsstove.set_column df "IsUrban" IsUrban)).
Proof.
  intros Hdf HPop Hlen Hcal Hsize _ Htotal.
  destruct (reclassify_classes self df Population size factor Hdf HPop Hlen Hsize)
    as (IsUrban & Hre & Hcl).
  assert (Hn : length (map (fun u => Qltb 1 u) IsUrban) = onsstove.nrows df).
  { rewrite length_map, <- Hlen. by apply Forall2_length in Hcl. }
  assert (Hurb : onsstove.urban_population (Some onsstove.Gdf)
                   (onsstove.set_gdf self
                      (onsstove.set_column df "IsUrban" IsUrban))
                 = Ok (sum_where_above_1 IsUrban Calibrated_pop)).
  { unfold onsstove.urban_population, onsstove.deref, onsstove.get_gdf,
      onsstove.column, onsstove.loc_get, onsstove.align_mask.
    cbn [onsstove.set_gdf onsstove.gdf onsstove.set_column onsstove.columns
         onsstove.nrows technology.global mbind outcome_bind].
    rewrite lookup_insert_eq. cbn [mbind outcome_bind].
    rewrite Hn, Nat.leb_refl. cbn [mbind outcome_bind].
    unfold onsstove.column.
    cbn [onsstove.set_column onsstove.columns].
    rewrite lookup_insert_ne by done. rewrite Hcal. cbn [mbind outcome_bind].
    rewrite <- Hn at 1. rewrite firstn_all.
    unfold sum_where_above_1. by rewrite selected_by_mask. }
  unfold onsstove.urban_body. rewrite Hre. cbn [mbind outcome_bind].
  rewrite Hurb. cbn [mbind outcome_bind]. rewrite Htotal.
  cbn [mbind outcome_bind].
  destruct (500 <? i + 1)%Z; eexists IsUrban, _, _;
    (split; [reflexivity |]); (split; [exact Hcl | reflexivity]).
Qed.

(** Two points, of 10000 and of 100000 people, 110000 configured: the
    first is of class 1 and the second of class 2, and the share is
    100000 over 110000. *)
Lemma urban_share_of_own_table_witness :
  exists r factor',
    onsstove.urban_body (Some onsstove.Gdf) (VInt 110000) 0.5
      (onsstove.Finite 2, 1%Q, 0%Z, points_instance [10000; 100000]%Q 110000)
      = Ok r /\
    state_of r
      = (onsstove.np_div
           (sum_where_above_1 [1; 2]%Q [10000; 100000]%Q) 110000,
         factor', (0 + 1)%Z,
         onsstove.set_gdf (points_instance [10000; 100000]%Q 110000)
           (onsstove.set_column (points [10000; 100000]%Q) "IsUrban" [1; 2]%Q))
    /\ (sum_where_above_1 [1; 2]%Q [10000; 100000]%Q == 100000)%Q.
Proof.
  destruct (urban_share_of_own_table
              (points_instance [10000; 100000]%Q 110000)
              (points [10000; 100000]%Q) [10000; 100000]%Q [10000; 100000]%Q
              1 1 (VInt 110000) 110000 0.5 (onsstove.Finite 2) 0)
    as (IsUrban & r & factor' & Hr & Hcl & Hst);
    [reflexivity | reflexivity | reflexivity | reflexivity | reflexivity
    | discriminate | reflexivity |].
  exists r, factor'. split; [exact Hr |].
  assert (IsUrban = [1; 2]%Q) as ->.
  { vm_compute in Hr. injection Hr as <-. vm_compute in Hst.
    by injection Hst as _ _ <-. }
  split; [exact Hst | reflexivity].
Defined.
